(** * esutil recfile: the record codec of [records.cpp]

    A shallow embedding of the [Records] class (trunk/esutil/recfile/records.cpp):
    the session state is a record, every method is a state-passing function in
    an error monad whose failures carry the message of the C++ [throw].

    Conventions.
    - [long long] and [npy_intp] values are [Z]; they are assumed to stay in
      range (signed overflow is undefined in C++), while the two places where
      the source narrows a value ([int nread = fread(...)] and
      [char c = fgetc(...)]) have their wrap-around written out.
    - A [string] is a C string: the text that [PyString_AsString] hands to the
      code, free of NUL characters.
    - File contents and array data are [list ascii] (an [ascii] is one byte).
    - The modelled build is a common one: [char] is signed, and the optional
      [NPY_INT128], [NPY_INT256] macros are not defined.
    - Where C++ leaves the behaviour undefined the model picks a value: an
      index outside a vector reads 0 or the empty string, a division by zero
      gives 0, a byte outside the array data reads as NUL, and a [NULL]
      stream behaves as a closed one. *)

From Stdlib Require Import ZArith Lia Ascii String.
From stdpp Require Import base option list gmap strings pretty.

Local Open Scope string_scope.
Local Open Scope list_scope.
Local Open Scope Z_scope.

(** ** Errors: a C++ [throw "msg"] *)

Inductive result (A : Type) : Type :=
| Ok (a : A)
| Throw (msg : string).
Arguments Ok {A} a.
Arguments Throw {A} msg.

Definition rbind {A B} (m : result A) (k : A -> result B) : result B :=
  match m with
  | Ok a => k a
  | Throw msg => Throw msg
  end.

Notation "'do' x <- m ; k" := (rbind m (fun x => k))
  (at level 10, x name, m at level 100, k at level 200).

(** ** Characters *)

Definition NUL : ascii := "000"%char.
Definition SPACE : ascii := " "%char.
Definition NEWLINE : ascii := "010"%char.
Definition TAB : ascii := "009"%char.

Definition byte_val (c : ascii) : Z := Z.of_N (N_of_ascii c).

Definition EOF : Z := -1.

(** [char c = fgetc(f)]: the [int] result narrowed to a signed 8-bit [char]. *)
Definition to_char (i : Z) : Z := (i + 128) mod 256 - 128.

(** The byte a [char] holds when it is stored through a [char*]. *)
Definition char_byte (c : Z) : ascii := ascii_of_N (Z.to_N (c mod 256)).

(** ** Streams: a C [FILE*]

    The whole content, the cursor, and what the stream was opened for. *)

Record FILE : Type := mkFILE {
  fdata : list ascii;
  fpos : Z;
  freadable : bool;
  fwritable : bool
}.

Definition unread (f : FILE) : list ascii := drop (Z.to_nat (fpos f)) (fdata f).

Definition advance (n : Z) (f : FILE) : FILE :=
  mkFILE (fdata f) (fpos f + n) (freadable f) (fwritable f).

(** [fgetc]: the next byte as a non-negative [int], or [EOF]. *)
Definition fgetc (f : FILE) : Z * FILE :=
  if freadable f then
    match unread f with
    | [] => (EOF, f)
    | c :: _ => (byte_val c, advance 1 f)
    end
  else (EOF, f).

(** [fread(ptr, size, nmemb, f)]: the bytes delivered, the number of complete
    items, and the stream afterwards. *)
Definition fread (size nmemb : Z) (f : FILE) : list ascii * Z * FILE :=
  if freadable f && (0 <? size) && (0 <? nmemb) then
    let got := take (Z.to_nat (size * nmemb)) (unread f) in
    (got, Z.of_nat (length got) / size, advance (Z.of_nat (length got)) f)
  else ([], 0, f).

(** [fseeko(f, off, SEEK_CUR)]: 0 on success, -1 when the target is negative. *)
Definition fseeko (off : Z) (f : FILE) : Z * FILE :=
  if fpos f + off <? 0 then (-1, f) else (0, advance off f).

Definition feof (f : FILE) : bool :=
  Z.of_nat (length (fdata f)) <=? fpos f.

(** Overwrite [bs] into [buf] at offset [off], zero-filling a gap; storing
    nothing changes nothing. *)
Definition store (buf : list ascii) (off : Z) (bs : list ascii) : list ascii :=
  match bs with
  | [] => buf
  | _ =>
      let o := Z.to_nat off in
      take o buf ++ replicate (o - length buf)%nat NUL ++ bs
        ++ drop (o + length bs)%nat buf
  end.

(** [fputc]: the byte written, or [EOF] on a stream not open for writing. *)
Definition fputc (c : ascii) (f : FILE) : Z * FILE :=
  if fwritable f then
    (byte_val c,
     mkFILE (store (fdata f) (fpos f) [c]) (fpos f + 1) (freadable f) (fwritable f))
  else (EOF, f).

(** [fprintf(f, "%s", s)] and friends once the text is known: the number of
    bytes written, negative on a stream not open for writing. *)
Definition fputs (bs : list ascii) (f : FILE) : Z * FILE :=
  if fwritable f then
    (Z.of_nat (length bs),
     mkFILE (store (fdata f) (fpos f) bs) (fpos f + Z.of_nat (length bs))
            (freadable f) (fwritable f))
  else (-1, f).

(** ** Python objects reaching the codec through the C API *)

(** A field's own descriptor ([fdescr], or the [base] of a sub-array). *)
Record BaseDescr : Type := mkBase {
  b_byteorder : ascii;
  b_type : ascii;
  b_type_num : Z;
  b_elsize : Z
}.

Record FieldDescr : Type := mkField {
  fd_byteorder : ascii;
  fd_type : ascii;
  fd_type_num : Z;
  fd_elsize : Z;
  fd_subarray : option (BaseDescr * list Z)   (* base and shape *)
}.

(** A value of the [descr->fields] dictionary: a tuple that
    [PyArg_ParseTuple(item, "Ol|O", ...)] accepts, or anything else. *)
Inductive FieldsItem : Type :=
| ItemTuple (fdescr : FieldDescr) (offset : Z)
| ItemOther.

Record PyArray_Descr : Type := mkDescr {
  descr_names : list string;
  descr_fields : gmap string FieldsItem;
  descr_elsize : Z
}.

Local Unset Elimination Schemes.
Inductive PyObject : Type :=
| PyString (s : string)
| PyInt (n : Z)
| PyList (items : list PyObject)
| PyIntArray (vals : list Z)                        (* a 1-d integer ndarray *)
| PyArray (descr : PyArray_Descr) (size : Z) (data : list ascii)
| PyFile (f : FILE)
| PyDescr (d : PyArray_Descr)
| Py_None.
Local Set Elimination Schemes.

(** A [PyObject*] argument: [None] is the C [NULL]. *)
Abbreviation PyObjectPtr := (option PyObject).

Definition is_Some_b {A} (o : option A) : bool :=
  match o with None => false | Some _ => true end.

Definition is_NULL (o : PyObjectPtr) : bool :=
  match o with None => true | Some _ => false end.

Definition PyString_Check (o : PyObject) : bool :=
  match o with PyString _ => true | _ => false end.

Definition PyList_Check (o : PyObject) : bool :=
  match o with PyList _ => true | _ => false end.

(** [PySequence_Check] holds of lists, of strings and of arrays. *)
Definition PySequence_Check (o : PyObject) : bool :=
  match o with
  | PyList _ | PyString _ | PyIntArray _ | PyArray _ _ _ => true
  | _ => false
  end.

Definition PySequence_Size (o : PyObject) : Z :=
  match o with
  | PyList l => Z.of_nat (length l)
  | PyString s => Z.of_nat (String.length s)
  | PyIntArray v => Z.of_nat (length v)
  | PyArray _ size _ => size
  | _ => -1
  end.

(** [PyArray_FromAny(obj, intp, 0, 0, NPY_DEFAULT, NULL)] on the objects a
    caller passes for [rows]: an integer scalar becomes a one-element array, a
    flat sequence of integers an array of that length (the empty sequence an
    empty array), an integer array is taken as it is; anything else is a
    conversion failure. *)
Fixpoint all_ints (l : list PyObject) : option (list Z) :=
  match l with
  | [] => Some []
  | PyInt n :: l' => cons n <$> all_ints l'
  | _ => None
  end.

Definition PyArray_FromAny_intp (o : PyObject) : option (list Z) :=
  match o with
  | PyInt n => Some [n]
  | PyIntArray v => Some v
  | PyList l => all_ints l
  | _ => None
  end.

(** [PySequence_GetItem] over the whole sequence. *)
Definition sequence_items (o : PyObject) : list PyObject :=
  match o with
  | PyList l => l
  | PyString s => map (fun c => PyString (String c EmptyString)) (list_ascii_of_string s)
  | PyIntArray v => map PyInt v
  | _ => []
  end.

(** One [(name, typestring[, shape])] tuple of the list handed to
    [PyArray_DescrConverter]; [tup_descr] is the field descriptor that the
    type string and shape denote. *)
Record DtypeTuple : Type := mkTuple {
  tup_name : string;
  tup_typestring : string;
  tup_shape : option (list Z);
  tup_descr : FieldDescr
}.

(** Offsets of fields packed one after another. *)
Fixpoint packed_fields (l : list DtypeTuple) (offset : Z)
  : list (string * FieldsItem) :=
  match l with
  | [] => []
  | t :: l' =>
      (tup_name t, ItemTuple (tup_descr t) offset)
        :: packed_fields l' (offset + fd_elsize (tup_descr t))
  end.

(** [PyArray_DescrConverter] on a list of such tuples: the packed record type
    with these fields in this order; a repeated field name is refused. *)
Definition PyArray_DescrConverter (dlist : list DtypeTuple) : option PyArray_Descr :=
  let names := map tup_name dlist in
  if decide (NoDup names) then
    Some (mkDescr names (list_to_map (packed_fields dlist 0))
                  (foldr (fun t acc => fd_elsize (tup_descr t) + acc) 0 dlist))
  else None.

(** ** What the C library, NumPy's headers and the file system provide *)

Record Platform : Type := mkPlatform {
  (* stdio *)
  fopen : string -> string -> option FILE;
  (* [fscanf(f, fmt, buff)] for one conversion: the return value, the bytes
     stored through [buff], the stream afterwards *)
  fscanf : string -> FILE -> Z * list ascii * FILE;
  (* the text [fprintf(f, fmt, value)] produces for the value stored at the
     given bytes, read as the C type of the given type number *)
  sprintf : string -> Z -> list ascii -> list ascii;
  (* numpy/ndarrayobject.h: the sized aliases and their format letters *)
  NPY_INT8 : Z;   NPY_INT8_FMT : string;
  NPY_UINT8 : Z;  NPY_UINT8_FMT : string;
  NPY_INT16 : Z;  NPY_INT16_FMT : string;
  NPY_UINT16 : Z; NPY_UINT16_FMT : string;
  NPY_INT32 : Z;  NPY_INT32_FMT : string;
  NPY_UINT32 : Z; NPY_UINT32_FMT : string;
  NPY_INT64 : Z;  NPY_INT64_FMT : string;
  NPY_UINT64 : Z; NPY_UINT64_FMT : string;
  NPY_FLOAT32 : Z;
  NPY_FLOAT64 : Z;
  NPY_FLOAT128 : option Z;             (* [#ifdef NPY_FLOAT128] *)
  NPY_LONGDOUBLE_defined : bool        (* [#ifdef NPY_LONGDOUBLE] *)
}.

(** The [NPY_TYPES] enumeration. *)
Definition NPY_FLOAT : Z := 11.
Definition NPY_DOUBLE : Z := 12.
Definition NPY_LONGDOUBLE : Z := 13.
Definition NPY_STRING : Z := 18.

(** ** The session state: the data members of [Records] *)

Inductive Action : Type := READ | WRITE.
Inductive FileType : Type := BINARY_FILE | ASCII_FILE.

#[global] Instance Action_eq_dec : EqDecision Action.
Proof. solve_decision. Defined.
#[global] Instance FileType_eq_dec : EqDecision FileType.
Proof. solve_decision. Defined.

Record Records : Type := mkRecords {
  mFptr : option FILE;
  mFptrIsLocal : bool;
  mMode : string;
  mDelim : string;
  mAction : Action;
  mFileType : FileType;
  mReadAsWhitespace : bool;
  mReadWholeFileBinary : bool;
  mReadWholeRowBinary : bool;
  (* the schema *)
  mTypeDescr : option PyArray_Descr;
  mNames : list string;
  mOffsets : list Z;
  mSizes : list Z;
  mNel : list Z;
  mTypeNums : list Z;
  mRowSize : Z;
  mNfields : Z;
  (* the selection *)
  mKeepTypeDescr : option PyArray_Descr;
  mKeepId : list Z;
  mKeep : list Z;
  mKeepNfields : Z;
  mNrows : Z;
  mNrowsToRead : Z;
  mRowsToRead : option (list Z);
  (* the array being filled or written: its data area, and [mData] as an
     offset into it *)
  mReturnObject : list ascii;
  mData : Z;
  (* scratch area for skipped ASCII fields *)
  mBuffer : list ascii;
  mScanFormats : list string;
  mPrintFormats : list string;
  mPadNull : bool;
  mIgnoreNull : bool
}.

(** Assignments to one data member. *)

Definition set_mFptr (v : option FILE) (r : Records) : Records :=
  mkRecords v (mFptrIsLocal r) (mMode r) (mDelim r) (mAction r) (mFileType r)
    (mReadAsWhitespace r) (mReadWholeFileBinary r) (mReadWholeRowBinary r)
    (mTypeDescr r) (mNames r) (mOffsets r) (mSizes r) (mNel r) (mTypeNums r)
    (mRowSize r) (mNfields r) (mKeepTypeDescr r) (mKeepId r) (mKeep r)
    (mKeepNfields r) (mNrows r) (mNrowsToRead r) (mRowsToRead r)
    (mReturnObject r) (mData r) (mBuffer r) (mScanFormats r) (mPrintFormats r)
    (mPadNull r) (mIgnoreNull r).

Definition set_mFptrIsLocal (v : bool) (r : Records) : Records :=
  mkRecords (mFptr r) v (mMode r) (mDelim r) (mAction r) (mFileType r)
    (mReadAsWhitespace r) (mReadWholeFileBinary r) (mReadWholeRowBinary r)
    (mTypeDescr r) (mNames r) (mOffsets r) (mSizes r) (mNel r) (mTypeNums r)
    (mRowSize r) (mNfields r) (mKeepTypeDescr r) (mKeepId r) (mKeep r)
    (mKeepNfields r) (mNrows r) (mNrowsToRead r) (mRowsToRead r)
    (mReturnObject r) (mData r) (mBuffer r) (mScanFormats r) (mPrintFormats r)
    (mPadNull r) (mIgnoreNull r).

Definition set_mMode (v : string) (r : Records) : Records :=
  mkRecords (mFptr r) (mFptrIsLocal r) v (mDelim r) (mAction r) (mFileType r)
    (mReadAsWhitespace r) (mReadWholeFileBinary r) (mReadWholeRowBinary r)
    (mTypeDescr r) (mNames r) (mOffsets r) (mSizes r) (mNel r) (mTypeNums r)
    (mRowSize r) (mNfields r) (mKeepTypeDescr r) (mKeepId r) (mKeep r)
    (mKeepNfields r) (mNrows r) (mNrowsToRead r) (mRowsToRead r)
    (mReturnObject r) (mData r) (mBuffer r) (mScanFormats r) (mPrintFormats r)
    (mPadNull r) (mIgnoreNull r).

Definition set_mDelim (v : string) (r : Records) : Records :=
  mkRecords (mFptr r) (mFptrIsLocal r) (mMode r) v (mAction r) (mFileType r)
    (mReadAsWhitespace r) (mReadWholeFileBinary r) (mReadWholeRowBinary r)
    (mTypeDescr r) (mNames r) (mOffsets r) (mSizes r) (mNel r) (mTypeNums r)
    (mRowSize r) (mNfields r) (mKeepTypeDescr r) (mKeepId r) (mKeep r)
    (mKeepNfields r) (mNrows r) (mNrowsToRead r) (mRowsToRead r)
    (mReturnObject r) (mData r) (mBuffer r) (mScanFormats r) (mPrintFormats r)
    (mPadNull r) (mIgnoreNull r).

Definition set_mAction (v : Action) (r : Records) : Records :=
  mkRecords (mFptr r) (mFptrIsLocal r) (mMode r) (mDelim r) v (mFileType r)
    (mReadAsWhitespace r) (mReadWholeFileBinary r) (mReadWholeRowBinary r)
    (mTypeDescr r) (mNames r) (mOffsets r) (mSizes r) (mNel r) (mTypeNums r)
    (mRowSize r) (mNfields r) (mKeepTypeDescr r) (mKeepId r) (mKeep r)
    (mKeepNfields r) (mNrows r) (mNrowsToRead r) (mRowsToRead r)
    (mReturnObject r) (mData r) (mBuffer r) (mScanFormats r) (mPrintFormats r)
    (mPadNull r) (mIgnoreNull r).

Definition set_mFileType (v : FileType) (r : Records) : Records :=
  mkRecords (mFptr r) (mFptrIsLocal r) (mMode r) (mDelim r) (mAction r) v
    (mReadAsWhitespace r) (mReadWholeFileBinary r) (mReadWholeRowBinary r)
    (mTypeDescr r) (mNames r) (mOffsets r) (mSizes r) (mNel r) (mTypeNums r)
    (mRowSize r) (mNfields r) (mKeepTypeDescr r) (mKeepId r) (mKeep r)
    (mKeepNfields r) (mNrows r) (mNrowsToRead r) (mRowsToRead r)
    (mReturnObject r) (mData r) (mBuffer r) (mScanFormats r) (mPrintFormats r)
    (mPadNull r) (mIgnoreNull r).

Definition set_mReadAsWhitespace (v : bool) (r : Records) : Records :=
  mkRecords (mFptr r) (mFptrIsLocal r) (mMode r) (mDelim r) (mAction r)
    (mFileType r) v (mReadWholeFileBinary r) (mReadWholeRowBinary r)
    (mTypeDescr r) (mNames r) (mOffsets r) (mSizes r) (mNel r) (mTypeNums r)
    (mRowSize r) (mNfields r) (mKeepTypeDescr r) (mKeepId r) (mKeep r)
    (mKeepNfields r) (mNrows r) (mNrowsToRead r) (mRowsToRead r)
    (mReturnObject r) (mData r) (mBuffer r) (mScanFormats r) (mPrintFormats r)
    (mPadNull r) (mIgnoreNull r).

Definition set_mReadWholeFileBinary (v : bool) (r : Records) : Records :=
  mkRecords (mFptr r) (mFptrIsLocal r) (mMode r) (mDelim r) (mAction r)
    (mFileType r) (mReadAsWhitespace r) v (mReadWholeRowBinary r)
    (mTypeDescr r) (mNames r) (mOffsets r) (mSizes r) (mNel r) (mTypeNums r)
    (mRowSize r) (mNfields r) (mKeepTypeDescr r) (mKeepId r) (mKeep r)
    (mKeepNfields r) (mNrows r) (mNrowsToRead r) (mRowsToRead r)
    (mReturnObject r) (mData r) (mBuffer r) (mScanFormats r) (mPrintFormats r)
    (mPadNull r) (mIgnoreNull r).

Definition set_mReadWholeRowBinary (v : bool) (r : Records) : Records :=
  mkRecords (mFptr r) (mFptrIsLocal r) (mMode r) (mDelim r) (mAction r)
    (mFileType r) (mReadAsWhitespace r) (mReadWholeFileBinary r) v
    (mTypeDescr r) (mNames r) (mOffsets r) (mSizes r) (mNel r) (mTypeNums r)
    (mRowSize r) (mNfields r) (mKeepTypeDescr r) (mKeepId r) (mKeep r)
    (mKeepNfields r) (mNrows r) (mNrowsToRead r) (mRowsToRead r)
    (mReturnObject r) (mData r) (mBuffer r) (mScanFormats r) (mPrintFormats r)
    (mPadNull r) (mIgnoreNull r).

Definition set_mTypeDescr (v : option PyArray_Descr) (r : Records) : Records :=
  mkRecords (mFptr r) (mFptrIsLocal r) (mMode r) (mDelim r) (mAction r)
    (mFileType r) (mReadAsWhitespace r) (mReadWholeFileBinary r)
    (mReadWholeRowBinary r) v (mNames r) (mOffsets r) (mSizes r) (mNel r)
    (mTypeNums r) (mRowSize r) (mNfields r) (mKeepTypeDescr r) (mKeepId r)
    (mKeep r) (mKeepNfields r) (mNrows r) (mNrowsToRead r) (mRowsToRead r)
    (mReturnObject r) (mData r) (mBuffer r) (mScanFormats r) (mPrintFormats r)
    (mPadNull r) (mIgnoreNull r).

Definition set_mNames (v : list string) (r : Records) : Records :=
  mkRecords (mFptr r) (mFptrIsLocal r) (mMode r) (mDelim r) (mAction r)
    (mFileType r) (mReadAsWhitespace r) (mReadWholeFileBinary r)
    (mReadWholeRowBinary r) (mTypeDescr r) v (mOffsets r) (mSizes r) (mNel r)
    (mTypeNums r) (mRowSize r) (mNfields r) (mKeepTypeDescr r) (mKeepId r)
    (mKeep r) (mKeepNfields r) (mNrows r) (mNrowsToRead r) (mRowsToRead r)
    (mReturnObject r) (mData r) (mBuffer r) (mScanFormats r) (mPrintFormats r)
    (mPadNull r) (mIgnoreNull r).

Definition set_mOffsets (v : list Z) (r : Records) : Records :=
  mkRecords (mFptr r) (mFptrIsLocal r) (mMode r) (mDelim r) (mAction r)
    (mFileType r) (mReadAsWhitespace r) (mReadWholeFileBinary r)
    (mReadWholeRowBinary r) (mTypeDescr r) (mNames r) v (mSizes r) (mNel r)
    (mTypeNums r) (mRowSize r) (mNfields r) (mKeepTypeDescr r) (mKeepId r)
    (mKeep r) (mKeepNfields r) (mNrows r) (mNrowsToRead r) (mRowsToRead r)
    (mReturnObject r) (mData r) (mBuffer r) (mScanFormats r) (mPrintFormats r)
    (mPadNull r) (mIgnoreNull r).

Definition set_mSizes (v : list Z) (r : Records) : Records :=
  mkRecords (mFptr r) (mFptrIsLocal r) (mMode r) (mDelim r) (mAction r)
    (mFileType r) (mReadAsWhitespace r) (mReadWholeFileBinary r)
    (mReadWholeRowBinary r) (mTypeDescr r) (mNames r) (mOffsets r) v (mNel r)
    (mTypeNums r) (mRowSize r) (mNfields r) (mKeepTypeDescr r) (mKeepId r)
    (mKeep r) (mKeepNfields r) (mNrows r) (mNrowsToRead r) (mRowsToRead r)
    (mReturnObject r) (mData r) (mBuffer r) (mScanFormats r) (mPrintFormats r)
    (mPadNull r) (mIgnoreNull r).

Definition set_mNel (v : list Z) (r : Records) : Records :=
  mkRecords (mFptr r) (mFptrIsLocal r) (mMode r) (mDelim r) (mAction r)
    (mFileType r) (mReadAsWhitespace r) (mReadWholeFileBinary r)
    (mReadWholeRowBinary r) (mTypeDescr r) (mNames r) (mOffsets r) (mSizes r)
    v (mTypeNums r) (mRowSize r) (mNfields r) (mKeepTypeDescr r) (mKeepId r)
    (mKeep r) (mKeepNfields r) (mNrows r) (mNrowsToRead r) (mRowsToRead r)
    (mReturnObject r) (mData r) (mBuffer r) (mScanFormats r) (mPrintFormats r)
    (mPadNull r) (mIgnoreNull r).

Definition set_mTypeNums (v : list Z) (r : Records) : Records :=
  mkRecords (mFptr r) (mFptrIsLocal r) (mMode r) (mDelim r) (mAction r)
    (mFileType r) (mReadAsWhitespace r) (mReadWholeFileBinary r)
    (mReadWholeRowBinary r) (mTypeDescr r) (mNames r) (mOffsets r) (mSizes r)
    (mNel r) v (mRowSize r) (mNfields r) (mKeepTypeDescr r) (mKeepId r)
    (mKeep r) (mKeepNfields r) (mNrows r) (mNrowsToRead r) (mRowsToRead r)
    (mReturnObject r) (mData r) (mBuffer r) (mScanFormats r) (mPrintFormats r)
    (mPadNull r) (mIgnoreNull r).

Definition set_mRowSize (v : Z) (r : Records) : Records :=
  mkRecords (mFptr r) (mFptrIsLocal r) (mMode r) (mDelim r) (mAction r)
    (mFileType r) (mReadAsWhitespace r) (mReadWholeFileBinary r)
    (mReadWholeRowBinary r) (mTypeDescr r) (mNames r) (mOffsets r) (mSizes r)
    (mNel r) (mTypeNums r) v (mNfields r) (mKeepTypeDescr r) (mKeepId r)
    (mKeep r) (mKeepNfields r) (mNrows r) (mNrowsToRead r) (mRowsToRead r)
    (mReturnObject r) (mData r) (mBuffer r) (mScanFormats r) (mPrintFormats r)
    (mPadNull r) (mIgnoreNull r).

Definition set_mNfields (v : Z) (r : Records) : Records :=
  mkRecords (mFptr r) (mFptrIsLocal r) (mMode r) (mDelim r) (mAction r)
    (mFileType r) (mReadAsWhitespace r) (mReadWholeFileBinary r)
    (mReadWholeRowBinary r) (mTypeDescr r) (mNames r) (mOffsets r) (mSizes r)
    (mNel r) (mTypeNums r) (mRowSize r) v (mKeepTypeDescr r) (mKeepId r)
    (mKeep r) (mKeepNfields r) (mNrows r) (mNrowsToRead r) (mRowsToRead r)
    (mReturnObject r) (mData r) (mBuffer r) (mScanFormats r) (mPrintFormats r)
    (mPadNull r) (mIgnoreNull r).

Definition set_mKeepTypeDescr (v : option PyArray_Descr) (r : Records) : Records :=
  mkRecords (mFptr r) (mFptrIsLocal r) (mMode r) (mDelim r) (mAction r)
    (mFileType r) (mReadAsWhitespace r) (mReadWholeFileBinary r)
    (mReadWholeRowBinary r) (mTypeDescr r) (mNames r) (mOffsets r) (mSizes r)
    (mNel r) (mTypeNums r) (mRowSize r) (mNfields r) v (mKeepId r) (mKeep r)
    (mKeepNfields r) (mNrows r) (mNrowsToRead r) (mRowsToRead r)
    (mReturnObject r) (mData r) (mBuffer r) (mScanFormats r) (mPrintFormats r)
    (mPadNull r) (mIgnoreNull r).

Definition set_mKeepId (v : list Z) (r : Records) : Records :=
  mkRecords (mFptr r) (mFptrIsLocal r) (mMode r) (mDelim r) (mAction r)
    (mFileType r) (mReadAsWhitespace r) (mReadWholeFileBinary r)
    (mReadWholeRowBinary r) (mTypeDescr r) (mNames r) (mOffsets r) (mSizes r)
    (mNel r) (mTypeNums r) (mRowSize r) (mNfields r) (mKeepTypeDescr r) v
    (mKeep r) (mKeepNfields r) (mNrows r) (mNrowsToRead r) (mRowsToRead r)
    (mReturnObject r) (mData r) (mBuffer r) (mScanFormats r) (mPrintFormats r)
    (mPadNull r) (mIgnoreNull r).

Definition set_mKeep (v : list Z) (r : Records) : Records :=
  mkRecords (mFptr r) (mFptrIsLocal r) (mMode r) (mDelim r) (mAction r)
    (mFileType r) (mReadAsWhitespace r) (mReadWholeFileBinary r)
    (mReadWholeRowBinary r) (mTypeDescr r) (mNames r) (mOffsets r) (mSizes r)
    (mNel r) (mTypeNums r) (mRowSize r) (mNfields r) (mKeepTypeDescr r)
    (mKeepId r) v (mKeepNfields r) (mNrows r) (mNrowsToRead r) (mRowsToRead r)
    (mReturnObject r) (mData r) (mBuffer r) (mScanFormats r) (mPrintFormats r)
    (mPadNull r) (mIgnoreNull r).

Definition set_mKeepNfields (v : Z) (r : Records) : Records :=
  mkRecords (mFptr r) (mFptrIsLocal r) (mMode r) (mDelim r) (mAction r)
    (mFileType r) (mReadAsWhitespace r) (mReadWholeFileBinary r)
    (mReadWholeRowBinary r) (mTypeDescr r) (mNames r) (mOffsets r) (mSizes r)
    (mNel r) (mTypeNums r) (mRowSize r) (mNfields r) (mKeepTypeDescr r)
    (mKeepId r) (mKeep r) v (mNrows r) (mNrowsToRead r) (mRowsToRead r)
    (mReturnObject r) (mData r) (mBuffer r) (mScanFormats r) (mPrintFormats r)
    (mPadNull r) (mIgnoreNull r).

Definition set_mNrows (v : Z) (r : Records) : Records :=
  mkRecords (mFptr r) (mFptrIsLocal r) (mMode r) (mDelim r) (mAction r)
    (mFileType r) (mReadAsWhitespace r) (mReadWholeFileBinary r)
    (mReadWholeRowBinary r) (mTypeDescr r) (mNames r) (mOffsets r) (mSizes r)
    (mNel r) (mTypeNums r) (mRowSize r) (mNfields r) (mKeepTypeDescr r)
    (mKeepId r) (mKeep r) (mKeepNfields r) v (mNrowsToRead r) (mRowsToRead r)
    (mReturnObject r) (mData r) (mBuffer r) (mScanFormats r) (mPrintFormats r)
    (mPadNull r) (mIgnoreNull r).

Definition set_mNrowsToRead (v : Z) (r : Records) : Records :=
  mkRecords (mFptr r) (mFptrIsLocal r) (mMode r) (mDelim r) (mAction r)
    (mFileType r) (mReadAsWhitespace r) (mReadWholeFileBinary r)
    (mReadWholeRowBinary r) (mTypeDescr r) (mNames r) (mOffsets r) (mSizes r)
    (mNel r) (mTypeNums r) (mRowSize r) (mNfields r) (mKeepTypeDescr r)
    (mKeepId r) (mKeep r) (mKeepNfields r) (mNrows r) v (mRowsToRead r)
    (mReturnObject r) (mData r) (mBuffer r) (mScanFormats r) (mPrintFormats r)
    (mPadNull r) (mIgnoreNull r).

Definition set_mRowsToRead (v : option (list Z)) (r : Records) : Records :=
  mkRecords (mFptr r) (mFptrIsLocal r) (mMode r) (mDelim r) (mAction r)
    (mFileType r) (mReadAsWhitespace r) (mReadWholeFileBinary r)
    (mReadWholeRowBinary r) (mTypeDescr r) (mNames r) (mOffsets r) (mSizes r)
    (mNel r) (mTypeNums r) (mRowSize r) (mNfields r) (mKeepTypeDescr r)
    (mKeepId r) (mKeep r) (mKeepNfields r) (mNrows r) (mNrowsToRead r) v
    (mReturnObject r) (mData r) (mBuffer r) (mScanFormats r) (mPrintFormats r)
    (mPadNull r) (mIgnoreNull r).

Definition set_mReturnObject (v : list ascii) (r : Records) : Records :=
  mkRecords (mFptr r) (mFptrIsLocal r) (mMode r) (mDelim r) (mAction r)
    (mFileType r) (mReadAsWhitespace r) (mReadWholeFileBinary r)
    (mReadWholeRowBinary r) (mTypeDescr r) (mNames r) (mOffsets r) (mSizes r)
    (mNel r) (mTypeNums r) (mRowSize r) (mNfields r) (mKeepTypeDescr r)
    (mKeepId r) (mKeep r) (mKeepNfields r) (mNrows r) (mNrowsToRead r)
    (mRowsToRead r) v (mData r) (mBuffer r) (mScanFormats r) (mPrintFormats r)
    (mPadNull r) (mIgnoreNull r).

Definition set_mData (v : Z) (r : Records) : Records :=
  mkRecords (mFptr r) (mFptrIsLocal r) (mMode r) (mDelim r) (mAction r)
    (mFileType r) (mReadAsWhitespace r) (mReadWholeFileBinary r)
    (mReadWholeRowBinary r) (mTypeDescr r) (mNames r) (mOffsets r) (mSizes r)
    (mNel r) (mTypeNums r) (mRowSize r) (mNfields r) (mKeepTypeDescr r)
    (mKeepId r) (mKeep r) (mKeepNfields r) (mNrows r) (mNrowsToRead r)
    (mRowsToRead r) (mReturnObject r) v (mBuffer r) (mScanFormats r)
    (mPrintFormats r) (mPadNull r) (mIgnoreNull r).

Definition set_mBuffer (v : list ascii) (r : Records) : Records :=
  mkRecords (mFptr r) (mFptrIsLocal r) (mMode r) (mDelim r) (mAction r)
    (mFileType r) (mReadAsWhitespace r) (mReadWholeFileBinary r)
    (mReadWholeRowBinary r) (mTypeDescr r) (mNames r) (mOffsets r) (mSizes r)
    (mNel r) (mTypeNums r) (mRowSize r) (mNfields r) (mKeepTypeDescr r)
    (mKeepId r) (mKeep r) (mKeepNfields r) (mNrows r) (mNrowsToRead r)
    (mRowsToRead r) (mReturnObject r) (mData r) v (mScanFormats r)
    (mPrintFormats r) (mPadNull r) (mIgnoreNull r).

Definition set_mScanFormats (v : list string) (r : Records) : Records :=
  mkRecords (mFptr r) (mFptrIsLocal r) (mMode r) (mDelim r) (mAction r)
    (mFileType r) (mReadAsWhitespace r) (mReadWholeFileBinary r)
    (mReadWholeRowBinary r) (mTypeDescr r) (mNames r) (mOffsets r) (mSizes r)
    (mNel r) (mTypeNums r) (mRowSize r) (mNfields r) (mKeepTypeDescr r)
    (mKeepId r) (mKeep r) (mKeepNfields r) (mNrows r) (mNrowsToRead r)
    (mRowsToRead r) (mReturnObject r) (mData r) (mBuffer r) v
    (mPrintFormats r) (mPadNull r) (mIgnoreNull r).

Definition set_mPrintFormats (v : list string) (r : Records) : Records :=
  mkRecords (mFptr r) (mFptrIsLocal r) (mMode r) (mDelim r) (mAction r)
    (mFileType r) (mReadAsWhitespace r) (mReadWholeFileBinary r)
    (mReadWholeRowBinary r) (mTypeDescr r) (mNames r) (mOffsets r) (mSizes r)
    (mNel r) (mTypeNums r) (mRowSize r) (mNfields r) (mKeepTypeDescr r)
    (mKeepId r) (mKeep r) (mKeepNfields r) (mNrows r) (mNrowsToRead r)
    (mRowsToRead r) (mReturnObject r) (mData r) (mBuffer r) (mScanFormats r) v
    (mPadNull r) (mIgnoreNull r).

Definition set_mPadNull (v : bool) (r : Records) : Records :=
  mkRecords (mFptr r) (mFptrIsLocal r) (mMode r) (mDelim r) (mAction r)
    (mFileType r) (mReadAsWhitespace r) (mReadWholeFileBinary r)
    (mReadWholeRowBinary r) (mTypeDescr r) (mNames r) (mOffsets r) (mSizes r)
    (mNel r) (mTypeNums r) (mRowSize r) (mNfields r) (mKeepTypeDescr r)
    (mKeepId r) (mKeep r) (mKeepNfields r) (mNrows r) (mNrowsToRead r)
    (mRowsToRead r) (mReturnObject r) (mData r) (mBuffer r) (mScanFormats r)
    (mPrintFormats r) v (mIgnoreNull r).

Definition set_mIgnoreNull (v : bool) (r : Records) : Records :=
  mkRecords (mFptr r) (mFptrIsLocal r) (mMode r) (mDelim r) (mAction r)
    (mFileType r) (mReadAsWhitespace r) (mReadWholeFileBinary r)
    (mReadWholeRowBinary r) (mTypeDescr r) (mNames r) (mOffsets r) (mSizes r)
    (mNel r) (mTypeNums r) (mRowSize r) (mNfields r) (mKeepTypeDescr r)
    (mKeepId r) (mKeep r) (mKeepNfields r) (mNrows r) (mNrowsToRead r)
    (mRowsToRead r) (mReturnObject r) (mData r) (mBuffer r) (mScanFormats r)
    (mPrintFormats r) (mPadNull r) v.

(** ** Vector helpers *)

(** [v[i]] on a [vector<long long>]. *)
Definition at_Z (l : list Z) (i : Z) : Z := default 0 (l !! Z.to_nat i).

(** [v[i]] on a [vector<string>]. *)
Definition at_str (l : list string) (i : Z) : string := default "" (l !! Z.to_nat i).

(** [v.resize(n, x)]: truncate, or pad with [x]. *)
Definition resize_vec {A} (n : Z) (x : A) (l : list A) : list A :=
  take (Z.to_nat n) l ++ replicate (Z.to_nat n - length l)%nat x.

(** [0, 1, ..., n-1] as [long long] indices. *)
Definition iota (n : Z) : list Z := seqZ 0 n.

(** The first character of a [std::string]; [s[0]] of the empty string is
    the terminating NUL. *)
Definition first_char (s : string) : ascii :=
  match s with
  | EmptyString => NUL
  | String c _ => c
  end.

Definition chars (s : string) : list ascii := list_ascii_of_string s.

Section Methods.

Context (P : Platform).

(** ** Opening a session *)

Definition InitializeVariables : Records :=
  {| mFptr := None; mFptrIsLocal := false; mMode := ""; mDelim := "";
     mAction := READ; mFileType := BINARY_FILE;
     mReadAsWhitespace := false;
     mReadWholeFileBinary := false; mReadWholeRowBinary := false;
     mTypeDescr := None;
     mNames := []; mOffsets := []; mSizes := []; mNel := []; mTypeNums := [];
     mRowSize := 0; mNfields := 0;
     mKeepTypeDescr := None; mKeepId := []; mKeep := []; mKeepNfields := 0;
     mNrows := 0; mNrowsToRead := 0; mRowsToRead := None;
     mReturnObject := []; mData := 0; mBuffer := [];
     mScanFormats := []; mPrintFormats := [];
     mPadNull := false; mIgnoreNull := false |}.

Definition GetFptr (file_obj : PyObject) (mode : string) (r : Records)
  : result Records :=
  match file_obj with
  | PyString fstr =>
      match fopen P fstr mode with
      | None => Throw ("Could not open file: " +:+ fstr)
      | Some f => Ok (set_mFptrIsLocal true (set_mFptr (Some f) r))
      end
  | PyFile f => Ok (set_mFptrIsLocal false (set_mFptr (Some f) r))
  | _ => Throw "Input must be a file object or a string"
  end.

Definition ProcessDelim (delim_obj : PyObjectPtr) (r : Records) : result Records :=
  do r1 <- match delim_obj with
           | None => Ok (set_mDelim "" r)
           | Some (PyString s) => Ok (set_mDelim s r)
           | Some _ => Throw "delim keyword must be a string"
           end;
  if decide (first_char (mDelim r1) = SPACE)
  then Ok (set_mReadAsWhitespace true r1)
  else Ok (set_mReadAsWhitespace false r1).

Definition SetFileType (r : Records) : Records :=
  if decide (mDelim r = "")
  then set_mFileType BINARY_FILE r
  else set_mFileType ASCII_FILE r.

Definition CopyDescrOrderedNames (descr : PyArray_Descr) : list string :=
  descr_names descr.

(** One iteration of the loop of [CopyDescrOrderedOffsets]: offset, size,
    element count and type number of the field called [name]; all four stay at
    the initial -1 when the dictionary has no well-formed entry. *)
Definition field_info (descr : PyArray_Descr) (name : string) : Z * Z * Z * Z :=
  match descr_fields descr !! name with
  | Some (ItemTuple fdescr offset) =>
      let size := fd_elsize fdescr in
      match fd_subarray fdescr with
      | Some (base, _) =>
          (offset, size, Z.quot size (b_elsize base), b_type_num base)
      | None => (offset, size, 1, fd_type_num fdescr)
      end
  | _ => (-1, -1, -1, -1)
  end.

Definition CopyDescrOrderedOffsets (descr : PyArray_Descr) (names : list string)
  : list Z * list Z * list Z * list Z :=
  let info := map (field_info descr) names in
  (map (fun x => x.1.1.1) info, map (fun x => x.1.1.2) info,
   map (fun x => x.1.2) info, map (fun x => x.2) info).

Definition CopyFieldInfo (descr : PyArray_Descr) (r : Records) : Records :=
  let names := CopyDescrOrderedNames descr in
  let '(offsets, sizes, nel, typenums) := CopyDescrOrderedOffsets descr names in
  set_mRowSize (descr_elsize descr)
    (set_mTypeNums typenums
      (set_mNel nel (set_mSizes sizes (set_mOffsets offsets (set_mNames names r))))).

Definition vec_size {A} (l : list A) : Z := Z.of_nat (length l).

Definition ProcessDescr (descr : PyObjectPtr) (r : Records) : result Records :=
  match descr with
  | None => Throw "Input descr is NULL"
  | Some (PyDescr d) =>
      let r1 := CopyFieldInfo d (set_mTypeDescr (Some d) r) in
      Ok (set_mNfields (vec_size (mNames r1)) r1)
  | Some _ =>
      Throw ("Input descr must be a NumPy type descriptor. e.g. " +:+
             "arr.dtype, or numpy.dtype(typelist)")
  end.

Definition ProcessNrows (nrows : Z) (r : Records) : result Records :=
  if nrows <? 1 then Throw "Input nrows must be >= 1"
  else Ok (set_mNrows nrows r).

(** The constructor [Records(fileobj, mode, delimobj, dtype, nrows)]. *)
Definition Records_new (fileobj : PyObject) (mode : string)
    (delimobj dtype : PyObjectPtr) (nrows : Z) : result Records :=
  let r := set_mMode mode InitializeVariables in
  do r <- GetFptr fileobj mode r;
  do r <- ProcessDelim delimobj r;
  let r := SetFileType r in
  if decide (first_char (mMode r) = "r"%char) then
    if is_NULL dtype || (nrows =? -9999) then
      Throw "You must send the datatype and number of rows when reading"
    else
      let r := set_mAction READ r in
      do r <- ProcessDescr dtype r;
      ProcessNrows nrows r
  else Ok (set_mAction WRITE r).

(** ** Selecting rows and fields *)

Definition Object2IntpArray (obj : PyObjectPtr) : result (option (list Z)) :=
  match obj with
  | None | Some Py_None => Ok None
  | Some o =>
      match PyArray_FromAny_intp o with
      | None => Throw "Could not convert rows keyword to an array of type NPY_INTP"
      | Some arr => Ok (Some arr)
      end
  end.

Definition ProcessRowsToRead (rows : PyObjectPtr) (r : Records) : result Records :=
  do arr <- Object2IntpArray rows;
  let r := set_mRowsToRead arr r in
  match arr with
  | None => Ok (set_mNrowsToRead (mNrows r) r)
  | Some a => Ok (set_mNrowsToRead (vec_size a) r)
  end.

Definition SequenceCheck (obj : PyObjectPtr) : Z :=
  match obj with
  | None => -1
  | Some o => if PySequence_Check o then PySequence_Size o else -1
  end.

(** The strings among the items of the request, in request order. *)
Fixpoint goodones_of (items : list PyObject) : list string :=
  match items with
  | [] => []
  | PyString ts :: rest => ts :: goodones_of rest
  | _ :: rest => goodones_of rest
  end.

(** The loop over [snames] from index [i] on: the indices whose name is found
    among [goodones]. *)
Fixpoint match_loop (snames goodones : list string) (i : Z) : list Z :=
  match snames with
  | [] => []
  | name :: rest =>
      if decide (name ∈ goodones) then i :: match_loop rest goodones (i + 1)
      else match_loop rest goodones (i + 1)
  end.

Definition ListStringMatch (snames : list string) (lst : PyObject)
  : result (list Z) :=
  let len := SequenceCheck (Some lst) in
  do matchids <-
    (if len <=? 0 then Ok (iota (vec_size snames))
     else
       let goodones := goodones_of (take (Z.to_nat len) (sequence_items lst)) in
       if vec_size goodones =? 0
       then Throw "None of the requested fields are in string form"
       else Ok (match_loop snames goodones 0));
  if vec_size matchids =? 0
  then Throw "None of the requested field names matched"
  else Ok matchids.

Definition FieldDescriptorAsTuple (fdescr : FieldDescr) (name : string)
  : DtypeTuple :=
  match fd_subarray fdescr with
  | Some (base, shape) =>
      let typestring :=
        String (b_byteorder base) (String (b_type base)
          (if b_type_num base =? NPY_STRING then pretty (b_elsize base) else "")) in
      mkTuple name typestring (Some shape) fdescr
  | None =>
      let typestring :=
        String (fd_byteorder fdescr) (String (fd_type fdescr)
          (if fd_type_num fdescr =? NPY_STRING then pretty (fd_elsize fdescr) else "")) in
      mkTuple name typestring None fdescr
  end.

(** The loop of [ExtractSubDescr]: the tuples of the names that have a
    well-formed entry in [descr->fields]. *)
Fixpoint ExtractSubDescr_dlist (descr : PyArray_Descr) (names : list string)
  : list DtypeTuple :=
  match names with
  | [] => []
  | name :: rest =>
      match descr_fields descr !! name with
      | Some (ItemTuple fdescr _) =>
          FieldDescriptorAsTuple fdescr name :: ExtractSubDescr_dlist descr rest
      | _ => ExtractSubDescr_dlist descr rest
      end
  end.

Definition ExtractSubDescr (descr : PyArray_Descr) (names : list string)
  : result PyArray_Descr :=
  match PyArray_DescrConverter (ExtractSubDescr_dlist descr names) with
  | None => Throw "data type not understood"
  | Some newdescr => Ok newdescr
  end.

(** [SubDtype]: the new descriptor and [matchids]. *)
Definition SubDtype (descr : PyArray_Descr) (subnamesobj : PyObject)
  : result (PyArray_Descr * list Z) :=
  let names := CopyDescrOrderedNames descr in
  do matchids <-
    (if PyList_Check subnamesobj then ListStringMatch names subnamesobj
     else if PyString_Check subnamesobj
          then ListStringMatch names (PyList [subnamesobj])
          else Throw "fields keyword must be string or list");
  let matchnames := map (at_str names) matchids in
  do newdescr <- ExtractSubDescr descr matchnames;
  Ok (newdescr, matchids).

(** [mKeep[mKeepId[i]] = 1] for [i < mKeepNfields]. *)
Fixpoint mark_keep (ids : list Z) (keep : list Z) : list Z :=
  match ids with
  | [] => keep
  | id :: rest => mark_keep rest (<[Z.to_nat id := 1]> keep)
  end.

(** [mTypeDescr] is set in every session opened for reading; the branch for
    [NULL] stands for what would be a crash. *)
Definition ProcessFieldsToRead (fields : PyObjectPtr) (r : Records)
  : result Records :=
  let r := set_mKeep (resize_vec (mNfields r) 0 (mKeep r)) r in
  do r <-
    match fields with
    | None | Some Py_None =>
        Ok (set_mKeepTypeDescr (mTypeDescr r)
             (set_mKeepId (iota (mNfields r))
               (set_mKeepNfields (mNfields r) r)))
    | Some f =>
        match mTypeDescr r with
        | None => Throw "Input descr is NULL"
        | Some d =>
            do res <- SubDtype d f;
            let '(newdescr, matchids) := res in
            Ok (set_mKeepNfields (vec_size matchids)
                 (set_mKeepId matchids (set_mKeepTypeDescr (Some newdescr) r)))
        end
    end;
  Ok (set_mKeep
        (mark_keep (take (Z.to_nat (mKeepNfields r)) (mKeepId r)) (mKeep r)) r).

(** [PyArray_Zeros]: a zeroed array of [mNrowsToRead] records of the kept
    type; [mData] points to its first byte.  No array comes back without a
    type. *)
Definition CreateOutputArray (r : Records) : result Records :=
  match mKeepTypeDescr r with
  | None => Throw "Could not allocate array"
  | Some d =>
      Ok (set_mData 0
           (set_mReturnObject
              (replicate (Z.to_nat (mNrowsToRead r * descr_elsize d)) NUL) r))
  end.

(** ** The format tables *)

(** [v[i] += s] on a [vector<string>]. *)
Definition append_at (i : Z) (s : string) (v : list string) : list string :=
  alter (fun x => x +:+ s) (Z.to_nat i) v.

(** [v[i] = s] on a [vector<string>]. *)
Definition assign_at (i : Z) (s : string) (v : list string) : list string :=
  <[Z.to_nat i := s]> v.

(** The body of the loop that repairs the [long long] format letters. *)
Definition fix_longlong (fmt : string) : string :=
  let fmt1 := if decide (fmt = "%Ld") then "%lld" else fmt in
  if decide (fmt1 = "%Lu") then "%llu" else fmt1.

(** The body of the loop that adds the delimiter. *)
Definition add_delim_to (delim : string) (fmt : string) : string :=
  if decide (fmt ≠ "%") then fmt +:+ String SPACE delim else fmt.

(** The table before the two loops. *)
Definition base_scan_formats : list string :=
  let v := replicate 24 "%" in
  let v := append_at (NPY_INT8 P) (NPY_INT8_FMT P) v in
  let v := append_at (NPY_UINT8 P) (NPY_UINT8_FMT P) v in
  let v := append_at (NPY_INT16 P) (NPY_INT16_FMT P) v in
  let v := append_at (NPY_UINT16 P) (NPY_UINT16_FMT P) v in
  let v := append_at (NPY_INT32 P) (NPY_INT32_FMT P) v in
  let v := append_at (NPY_UINT32 P) (NPY_UINT32_FMT P) v in
  let v := append_at (NPY_INT64 P) (NPY_INT64_FMT P) v in
  let v := append_at (NPY_UINT64 P) (NPY_UINT64_FMT P) v in
  let v := append_at NPY_FLOAT "f" v in
  let v := append_at NPY_DOUBLE "lf" v in
  if NPY_LONGDOUBLE_defined P then append_at NPY_LONGDOUBLE "Lf" v else v.

Definition MakeScanFormats (add_delim : bool) (r : Records) : Records :=
  let v := map fix_longlong base_scan_formats in
  let v := if negb (mReadAsWhitespace r) && add_delim
           then map (add_delim_to (mDelim r)) v else v in
  set_mScanFormats v r.

Definition MakePrintFormats (r : Records) : Records :=
  let r := MakeScanFormats false r in
  let v := mScanFormats r in
  let v := assign_at NPY_FLOAT "%g" v in
  let v := assign_at NPY_DOUBLE "%15.8e" v in
  let v := assign_at NPY_STRING "%s" v in
  set_mPrintFormats v r.

(** ** Reading *)

(** The stream behind [mFptr]; the methods below run only after [Read] or
    [Write] has checked that it is not [NULL]. *)
Definition fptr (r : Records) : FILE :=
  default (mkFILE [] 0 false false) (mFptr r).

(** [int nread = fread(...)]: a [size_t] narrowed to a 32-bit [int]. *)
Definition to_int (n : Z) : Z := (n + 2 ^ 31) mod 2 ^ 32 - 2 ^ 31.

Definition ReadPrepare (r : Records) : Records :=
  if bool_decide (mFileType r = BINARY_FILE)
     && (mNrowsToRead r =? mNrows r) && (mKeepNfields r =? mNfields r)
  then set_mReadWholeFileBinary true r
  else if bool_decide (mFileType r = BINARY_FILE)
          && (mKeepNfields r =? mNfields r)
  then set_mReadWholeRowBinary true r
  else if bool_decide (mFileType r = ASCII_FILE)
  then MakeScanFormats true r
  else r.

Definition ReadAllAsBinary (r : Records) : result Records :=
  let '(got, n, f) := fread (mRowSize r) (mNrows r) (fptr r) in
  let nread := to_int n in
  if nread =? mNrows r
  then Ok (set_mFptr (Some f)
             (set_mReturnObject (store (mReturnObject r) (mData r) got) r))
  else Throw "Error reading entire file as binary".

Definition ReadWholeRowBinary (r : Records) : result Records :=
  let '(got, n, f) := fread (mRowSize r) 1 (fptr r) in
  let nread := to_int n in
  if nread =? 1
  then Ok (set_mData (mData r + mRowSize r)
            (set_mFptr (Some f)
              (set_mReturnObject (store (mReturnObject r) (mData r) got) r)))
  else Throw "Failed to read row data".

Definition ReadFieldAsBinary (fnum : Z) (r : Records) : result Records :=
  let '(got, n, f) := fread (at_Z (mSizes r) fnum) 1 (fptr r) in
  let nread := to_int n in
  if nread =? 1
  then Ok (set_mData (mData r + at_Z (mSizes r) fnum)
            (set_mFptr (Some f)
              (set_mReturnObject (store (mReturnObject r) (mData r) got) r)))
  else Throw ("Error reading field: " +:+ at_str (mNames r) fnum).

(** The inner loop of [ReadAsciiBytes]: [n] characters into [buf] at [off];
    [None] when [c == EOF]. *)
Fixpoint ReadAsciiBytes_chars (n : nat) (f : FILE) (buf : list ascii) (off : Z)
  : option (FILE * list ascii * Z) :=
  match n with
  | O => Some (f, buf, off)
  | S n' =>
      let '(i, f1) := fgetc f in
      let c := to_char i in
      if c =? EOF then None
      else ReadAsciiBytes_chars n' f1 (store buf off [char_byte c]) (off + 1)
  end.

(** The outer loop of [ReadAsciiBytes], over the elements. *)
Fixpoint ReadAsciiBytes_els (nel : nat) (size_per_el : Z) (f : FILE)
    (buf : list ascii) (off : Z) : option (FILE * list ascii * Z) :=
  match nel with
  | O => Some (f, buf, off)
  | S nel' =>
      match ReadAsciiBytes_chars (Z.to_nat size_per_el) f buf off with
      | None => None
      | Some (f1, buf1, off1) =>
          (* Read the delimiter or EOL *)
          let '(_, f2) := fgetc f1 in
          ReadAsciiBytes_els nel' size_per_el f2 buf1 off1
      end
  end.

Definition keeps (r : Records) (fnum : Z) : bool :=
  negb (at_Z (mKeep r) fnum =? 0).

Definition ReadAsciiBytes (fnum : Z) (r : Records) : result Records :=
  let '(buf, off) :=
    if keeps r fnum then (mReturnObject r, mData r) else (mBuffer r, 0) in
  let size_per_el := Z.quot (at_Z (mSizes r) fnum) (at_Z (mNel r) fnum) in
  match ReadAsciiBytes_els (Z.to_nat (at_Z (mNel r) fnum)) size_per_el
          (fptr r) buf off with
  | None =>
      Throw ("EOF reached unexpectedly reading field: " +:+ at_str (mNames r) fnum)
  | Some (f, buf', _) =>
      Ok (set_mFptr (Some f)
            (if keeps r fnum then set_mReturnObject buf' r
             else set_mBuffer buf' r))
  end.

(** The loop of [ScanVal]: one [fscanf] per element. *)
Fixpoint ScanVal_els (nel : nat) (fmt name : string) (step : Z) (f : FILE)
    (buf : list ascii) (off : Z) : result (FILE * list ascii) :=
  match nel with
  | O => Ok (f, buf)
  | S nel' =>
      let '(ret, bytes, f1) := fscanf P fmt f in
      if ret =? 1
      then ScanVal_els nel' fmt name step f1 (store buf off bytes) (off + step)
      else
        let err := "ScanVal: Error reading field: " +:+ name in
        if feof f1 then Throw (err +:+ ": EOF reached unexpectedly")
        else Throw ": Read error"
  end.

Definition ScanVal (fnum : Z) (r : Records) : result Records :=
  let '(buf, off) :=
    if keeps r fnum then (mReturnObject r, mData r) else (mBuffer r, 0) in
  let type_num := at_Z (mTypeNums r) fnum in
  do res <- ScanVal_els (Z.to_nat (at_Z (mNel r) fnum))
              (at_str (mScanFormats r) type_num) (at_str (mNames r) fnum)
              (Z.quot (at_Z (mSizes r) fnum) (at_Z (mNel r) fnum))
              (fptr r) buf off;
  let '(f, buf') := res in
  Ok (set_mFptr (Some f)
        (if keeps r fnum then set_mReturnObject buf' r else set_mBuffer buf' r)).

Definition ReadFieldAsAscii (fnum : Z) (r : Records) : result Records :=
  do r <-
    (if at_Z (mTypeNums r) fnum =? NPY_STRING then ReadAsciiBytes fnum r
     else
       do r <- ScanVal fnum r;
       (* For whitespace we haven't read the delimiter yet *)
       if mReadAsWhitespace r
       then Ok (set_mFptr (Some (fgetc (fptr r)).2) r)
       else Ok r);
  (* Move the data pointer if we actually read this to the buffer *)
  if keeps r fnum then Ok (set_mData (mData r + at_Z (mSizes r) fnum) r)
  else Ok r.

Definition ReadField (fnum : Z) (r : Records) : result Records :=
  if bool_decide (mFileType r = BINARY_FILE) then ReadFieldAsBinary fnum r
  else ReadFieldAsAscii fnum r.

Definition SkipFieldAsBinary (fnum : Z) (r : Records) : result Records :=
  let '(rc, f) := fseeko (at_Z (mSizes r) fnum) (fptr r) in
  if rc =? 0 then Ok (set_mFptr (Some f) r)
  else Throw ("Error skipping field: " +:+ at_str (mNames r) fnum).

Definition SkipFieldAsAscii (fnum : Z) (r : Records) : result Records :=
  ReadFieldAsAscii fnum r.

Definition SkipField (fnum : Z) (r : Records) : result Records :=
  if bool_decide (mFileType r = BINARY_FILE) then SkipFieldAsBinary fnum r
  else SkipFieldAsAscii fnum r.

Fixpoint ReadFields_loop (fnums : list Z) (r : Records) : result Records :=
  match fnums with
  | [] => Ok r
  | fnum :: rest =>
      do r <- (if keeps r fnum then ReadField fnum r else SkipField fnum r);
      ReadFields_loop rest r
  end.

Definition ReadFields (r : Records) : result Records :=
  ReadFields_loop (iota (mNfields r)) r.

Definition ReadRow (r : Records) : result Records :=
  if mReadWholeRowBinary r then ReadWholeRowBinary r else ReadFields r.

(** The loop of [SkipAsciiRows] over the unread input: the number of
    characters consumed once [nskip] newlines are counted, [None] when
    [c == EOF] comes first. *)
Fixpoint SkipAsciiRows_loop (input : list ascii) (nlines nskip consumed : Z)
  : option Z :=
  if nlines <? nskip then
    match input with
    | [] => None
    | b :: input' =>
        let c := to_char (byte_val b) in
        if c =? EOF then None
        else SkipAsciiRows_loop input'
               (if c =? byte_val NEWLINE then nlines + 1 else nlines)
               nskip (consumed + 1)
    end
  else Some consumed.

Definition SkipAsciiRows (nskip : Z) (r : Records) : result Records :=
  if 0 <? nskip then
    let f := fptr r in
    match (if freadable f then SkipAsciiRows_loop (unread f) 0 nskip 0 else None) with
    | None => Throw "Reached EOF prematurely"
    | Some consumed => Ok (set_mFptr (Some (advance consumed f)) r)
    end
  else Ok r.

Definition SkipBinaryRows (nskip : Z) (r : Records) : result Records :=
  if 0 <? nskip then
    let '(rc, f) := fseeko (mRowSize r * nskip) (fptr r) in
    if rc =? 0 then Ok (set_mFptr (Some f) r) else Throw "Failed to fseek"
  else Ok r.

Definition SkipRows (current_row row2read : Z) (r : Records) : result Records :=
  if bool_decide (mFileType r = BINARY_FILE) then
    let rows2skip := row2read - current_row in
    SkipBinaryRows rows2skip r
  else
    let rows2skip :=
      if mReadAsWhitespace r then row2read - current_row
      else row2read - current_row in
    SkipAsciiRows rows2skip r.

(** The loop of [ReadRows]; [rows] is the data of [mRowsToRead] when a subset
    is read. *)
Fixpoint ReadRows_loop (irows : list Z) (rows : list Z) (current_row : Z)
    (r : Records) : result Records :=
  match irows with
  | [] => Ok r
  | irow :: rest =>
      let row2read :=
        if negb (mNrowsToRead r =? mNrows r) then at_Z rows irow else irow in
      do r <- (if current_row <? row2read
               then SkipRows current_row row2read r else Ok r);
      let current_row := if current_row <? row2read then row2read else current_row in
      do r <- ReadRow r;
      ReadRows_loop rest rows (current_row + 1) r
  end.

Definition ReadRows (r : Records) : result Records :=
  let rows :=
    if negb (mNrowsToRead r =? mNrows r) then default [] (mRowsToRead r) else [] in
  ReadRows_loop (iota (mNrowsToRead r)) rows 0 r.

Definition ReadFromFile (r : Records) : result Records :=
  if mReadWholeFileBinary r then ReadAllAsBinary r else ReadRows r.

(** [Read(rows, fields)] up to the point where the file is touched. *)
Definition Read_setup (rows fields : PyObjectPtr) (r : Records) : result Records :=
  if negb (is_Some_b (mFptr r)) then Throw "File is not open"
  else if negb (bool_decide (mAction r = READ))
  then Throw "File is not open for reading"
  else
    do r <- ProcessRowsToRead rows r;
    do r <- ProcessFieldsToRead fields r;
    do r <- CreateOutputArray r;
    Ok (ReadPrepare r).

Definition Read (rows fields : PyObjectPtr) (r : Records) : result Records :=
  do r <- Read_setup rows fields r;
  ReadFromFile r.

(** ** Writing *)

(** [fwrite(ptr, size, nmemb, f)] of the bytes at [ptr]: the number of items
    written and the stream afterwards. *)
Definition fwrite (bytes : list ascii) (size nmemb : Z) (f : FILE) : Z * FILE :=
  if fwritable f && (0 <? size) && (0 <? nmemb) then
    let out := take (Z.to_nat (size * nmemb)) bytes in
    (Z.of_nat (length out) / size, (fputs out f).2)
  else (0, f).

Definition WriteAllAsBinary (r : Records) : result Records :=
  let '(nwrite, f) :=
    fwrite (drop (Z.to_nat (mData r)) (mReturnObject r))
           (mRowSize r) (mNrows r) (fptr r) in
  if nwrite <? mNrows r then
    Throw ("Error occured writing binary data: Expected " +:+ pretty (mNrows r)
           +:+ " but only wrote " +:+ pretty nwrite)
  else Ok (set_mFptr (Some f) r).

(** [buffer[0]] for a [char*] at offset [off] of the array data. *)
Definition byte_at (buf : list ascii) (off : Z) : ascii :=
  default NUL (buf !! Z.to_nat off).

(** The loop of [WriteStringAsAscii] with [slen - i = n] characters to go;
    [None] when [fputc] fails. *)
Fixpoint WriteStringAsAscii_loop (n : nat) (padnull ignorenull : bool)
    (buf : list ascii) (buffer : Z) (f : FILE) : option FILE :=
  match n with
  | O => Some f
  | S n' =>
      let put (c : ascii) :=
        let '(res, f1) := fputc c f in
        if res =? EOF then None
        else WriteStringAsAscii_loop n' padnull ignorenull buf (buffer + 1) f1 in
      let c := byte_at buf buffer in
      if decide (c = NUL) then
        if ignorenull then Some f          (* break *)
        else put (if padnull then SPACE else c)
      else put c
  end.

Definition WriteStringAsAscii (fnum : Z) (r : Records) : result Records :=
  let slen := Z.quot (at_Z (mSizes r) fnum) (at_Z (mNel r) fnum) in
  match WriteStringAsAscii_loop (Z.to_nat slen) (mPadNull r) (mIgnoreNull r)
          (mReturnObject r) (mData r) (fptr r) with
  | None => Throw "Error occured writing string field"
  | Some f => Ok (set_mFptr (Some f) r)
  end.

(** The [case] labels of the [switch] in [WriteNumberAsAscii]. *)
Definition printable_types : list Z :=
  [NPY_INT8 P; NPY_UINT8 P; NPY_INT16 P; NPY_UINT16 P;
   NPY_INT32 P; NPY_UINT32 P; NPY_INT64 P; NPY_UINT64 P;
   NPY_FLOAT32 P; NPY_FLOAT64 P]
  ++ match NPY_FLOAT128 P with Some t => [t] | None => [] end.

Definition WriteNumberAsAscii (buffer : Z) (type : Z) (r : Records)
  : result Records :=
  if decide (type ∈ printable_types) then
    let text :=
      sprintf P (at_str (mPrintFormats r) type) type
              (drop (Z.to_nat buffer) (mReturnObject r)) in
    let '(res, f) := fputs text (fptr r) in
    if res <? 0 then Throw "Error writing data"
    else Ok (set_mFptr (Some f) r)
  else Throw ("Unsupported type " +:+ pretty type).

Definition WriteField (fnum : Z) (r : Records) : result Records :=
  do r <-
    (if at_Z (mTypeNums r) fnum =? NPY_STRING then WriteStringAsAscii fnum r
     else WriteNumberAsAscii (mData r) (at_Z (mTypeNums r) fnum) r);
  if fnum <? mNfields r - 1
  then Ok (set_mFptr (Some (fputs (chars (mDelim r)) (fptr r)).2) r)
  else Ok r.

(** The loop over the elements of field [fnum]. *)
Fixpoint WriteRows_els (nel : nat) (fnum elsize : Z) (r : Records)
  : result Records :=
  match nel with
  | O => Ok r
  | S nel' =>
      do r <- WriteField fnum r;
      WriteRows_els nel' fnum elsize (set_mData (mData r + elsize) r)
  end.

(** The loop over the fields of one row. *)
Fixpoint WriteRows_fields (fnums : list Z) (r : Records) : result Records :=
  match fnums with
  | [] => Ok r
  | fnum :: rest =>
      let nel := at_Z (mNel r) fnum in
      let elsize := Z.quot (at_Z (mSizes r) fnum) nel in
      do r <- WriteRows_els (Z.to_nat nel) fnum elsize r;
      WriteRows_fields rest r
  end.

(** One iteration of the loop over the rows. *)
Definition WriteRows_row (r : Records) : result Records :=
  do r <- WriteRows_fields (iota (mNfields r)) r;
  (* Write the newline character *)
  Ok (set_mFptr (Some (fputc NEWLINE (fptr r)).2) r).

Fixpoint WriteRows_loop (nrows : nat) (r : Records) : result Records :=
  match nrows with
  | O => Ok r
  | S n => do r <- WriteRows_row r; WriteRows_loop n r
  end.

Definition WriteRows (r : Records) : result Records :=
  WriteRows_loop (Z.to_nat (mNrows r)) (MakePrintFormats r).

Definition Write (obj : PyObject) (padnull ignorenull : bool) (r : Records)
  : result Records :=
  if negb (is_Some_b (mFptr r)) then Throw "File is not open"
  else if negb (bool_decide (mAction r = WRITE))
  then Throw "File is not open for writing"
  else
    match obj with
    | PyArray descr size data =>
        let r := set_mNrows size r in
        let r := set_mIgnoreNull ignorenull (set_mPadNull padnull r) in
        let r := CopyFieldInfo descr r in
        let r := set_mNfields (vec_size (mNames r)) r in
        let r := set_mData 0 (set_mReturnObject data r) in
        if bool_decide (mFileType r = BINARY_FILE) then WriteAllAsBinary r
        else WriteRows r
    | _ => Throw "Input must be a NumPy array object"
    end.

End Methods.

(** ** A concrete platform for the examples

    NumPy's sized aliases as on x86-64 Linux.  No file is opened by name and
    the numeric conversions are inert: the examples pass their own streams
    and use byte-string fields. *)

Definition linux_x86_64 : Platform :=
  {| fopen := fun _ _ => None;
     fscanf := fun _ f => (EOF, [], f);
     sprintf := fun _ _ _ => [];
     NPY_INT8 := 1;   NPY_INT8_FMT := "hhd";
     NPY_UINT8 := 2;  NPY_UINT8_FMT := "hhu";
     NPY_INT16 := 3;  NPY_INT16_FMT := "hd";
     NPY_UINT16 := 4; NPY_UINT16_FMT := "hu";
     NPY_INT32 := 5;  NPY_INT32_FMT := "d";
     NPY_UINT32 := 6; NPY_UINT32_FMT := "u";
     NPY_INT64 := 7;  NPY_INT64_FMT := "ld";
     NPY_UINT64 := 8; NPY_UINT64_FMT := "lu";
     NPY_FLOAT32 := 11;
     NPY_FLOAT64 := 12;
     NPY_FLOAT128 := Some 13;
     NPY_LONGDOUBLE_defined := false |}.

(** A byte-string field of [n] characters, and one of [k] such elements. *)
Definition string_field (n : Z) : FieldDescr :=
  mkField "|" "S" NPY_STRING n None.

Definition string_array_field (n k : Z) : FieldDescr :=
  mkField "|" "V" 20 (n * k) (Some (mkBase "|" "S" NPY_STRING n, [k])).

(** The record type with the given fields packed in order. *)
Definition make_descr (fields : list (string * FieldDescr)) : PyArray_Descr :=
  let dlist := map (fun nf => mkTuple nf.1 "" None nf.2) fields in
  mkDescr (map fst fields) (list_to_map (packed_fields dlist 0))
          (foldr (fun nf acc => fd_elsize nf.2 + acc) 0 fields).

(** The schema [a, b, c] of three one-byte strings. *)
Definition abc_descr : PyArray_Descr :=
  make_descr [("a", string_field 1); ("b", string_field 1); ("c", string_field 1)].

Definition stream_of (s : string) : FILE := mkFILE (chars s) 0 true false.
Definition empty_output : FILE := mkFILE [] 0 false true.

(** ** Notions of the specification *)

(** The three read strategies, and the one a prepared session follows: the
    tests of [ReadFromFile] and [ReadRow]. *)
Inductive Strategy : Type := WholeFileBinary | WholeRowBinary | PerField.

Definition strategy (r : Records) : Strategy :=
  if mReadWholeFileBinary r then WholeFileBinary
  else if mReadWholeRowBinary r then WholeRowBinary
  else PerField.

(** The selection rule in the words of the specification. *)
Definition spec_strategy (binary every_row every_field : bool) : Strategy :=
  if binary && every_row && every_field then WholeFileBinary
  else if binary && every_field then WholeRowBinary
  else PerField.

(** A row request is absent, or lists row indices of the file in strictly
    ascending order. *)
Fixpoint ascending_from (lo : Z) (rows : list Z) : bool :=
  match rows with
  | [] => true
  | x :: rest => (lo <=? x) && ascending_from (x + 1) rest
  end.

Definition valid_rows (nrows : Z) (arr : option (list Z)) : bool :=
  match arr with
  | None => true
  | Some rows => ascending_from 0 rows && forallb (fun x => x <? nrows) rows
  end.

(** Every row is requested: no row list, or the list of all rows. *)
Definition every_row_requested (nrows : Z) (arr : option (list Z)) : bool :=
  match arr with
  | None => true
  | Some rows => bool_decide (rows = iota nrows)
  end.

(** The names a field request asks for; [None] stands for "all": no request,
    or an empty one. *)
Definition requested_names (fields : PyObjectPtr) : option (list string) :=
  match fields with
  | None | Some Py_None => None
  | Some (PyString s) => Some [s]
  | Some (PyList []) => None
  | Some o => Some (goodones_of (sequence_items o))
  end.

(** Every field of the schema is requested. *)
Definition every_field_requested (d : PyArray_Descr) (fields : PyObjectPtr) : bool :=
  match requested_names fields with
  | None => true
  | Some l => bool_decide (Forall (fun name => name ∈ l) (descr_names d))
  end.

(** A record type as NumPy builds them: distinct field names, each with a
    well-formed entry in the dictionary. *)
Definition wf_descr (d : PyArray_Descr) : bool :=
  bool_decide (NoDup (descr_names d))
  && forallb (fun name =>
                match descr_fields d !! name with
                | Some (ItemTuple _ _) => true
                | _ => false
                end) (descr_names d).

(** The C library's [isspace] in the "C" locale. *)
Definition isspace (c : ascii) : bool :=
  bool_decide (c ∈ [SPACE; TAB; NEWLINE; "011"%char; "012"%char; "013"%char]).

(** An output stream positioned at its end. *)
Definition at_end (f : FILE) : bool :=
  fwritable f && (fpos f =? Z.of_nat (length (fdata f))).

(** A byte that [char c = fgetc(f)] does not confuse with [EOF]. *)
Definition plain_byte (b : ascii) : bool := negb (byte_val b =? 255).

(** The characters before the first null byte. *)
Fixpoint before_nul (bytes : list ascii) : list ascii :=
  match bytes with
  | [] => []
  | c :: rest => if decide (c = NUL) then [] else c :: before_nul rest
  end.

(** What the specification says a byte string becomes in ASCII output. *)
Definition spec_string_output (padnull ignorenull : bool) (bytes : list ascii)
  : list ascii :=
  if ignorenull then before_nul bytes
  else if padnull then map (fun c => if decide (c = NUL) then SPACE else c) bytes
  else bytes.

(** The [n] bytes of the array data from offset [off] on. *)
Definition bytes_at (buf : list ascii) (off : Z) (n : nat) : list ascii :=
  map (fun i => byte_at buf (off + Z.of_nat i)) (seq 0 n).

(** What the constructor establishes for a session opened for reading a file
    of [nrows] records of type [d]. *)
Definition opened_for_reading (d : PyArray_Descr) (nrows : Z) (r : Records) : Prop :=
  is_Some (mFptr r)
  /\ mAction r = READ
  /\ (mFileType r = BINARY_FILE <-> mDelim r = "")
  /\ (mFileType r = ASCII_FILE <-> mDelim r <> "")
  /\ mReadAsWhitespace r = bool_decide (first_char (mDelim r) = SPACE)
  /\ mReadWholeFileBinary r = false
  /\ mReadWholeRowBinary r = false
  /\ mTypeDescr r = Some d
  /\ mNames r = descr_names d
  /\ mNfields r = vec_size (descr_names d)
  /\ mRowSize r = descr_elsize d
  /\ mKeep r = []
  /\ mNrows r = nrows
  /\ 1 <= nrows.

(** The state after [ProcessFieldsToRead], given the kept type, the kept ids
    and their number. *)
Definition with_kept (kd : option PyArray_Descr) (ids : list Z) (knf : Z)
    (r : Records) : Records :=
  set_mKeep (mark_keep (take (Z.to_nat knf) ids) (resize_vec (mNfields r) 0 (mKeep r)))
    (set_mKeepNfields knf (set_mKeepId ids (set_mKeepTypeDescr kd r))).

(** The stream after [bs] has been appended at its end. *)
Definition emit (bs : list ascii) (f : FILE) : FILE :=
  mkFILE (fdata f ++ bs) (fpos f + Z.of_nat (length bs)) (freadable f) true.

(** The session with its stream and its data pointer replaced. *)
Definition upd (f : FILE) (off : Z) (r : Records) : Records :=
  set_mData off (set_mFptr (Some f) r).

(** [sep] between consecutive items. *)
Fixpoint join (sep : list ascii) (items : list (list ascii)) : list ascii :=
  match items with
  | [] => []
  | [x] => x
  | x :: rest => x ++ sep ++ join sep rest
  end.

(** The ASCII text of the element of field [fnum] stored at offset [off]. *)
Definition element_text (P : Platform) (r : Records) (fnum off : Z) : list ascii :=
  if at_Z (mTypeNums r) fnum =? NPY_STRING then
    spec_string_output (mPadNull r) (mIgnoreNull r)
      (bytes_at (mReturnObject r) off
         (Z.to_nat (Z.quot (at_Z (mSizes r) fnum) (at_Z (mNel r) fnum))))
  else
    sprintf P (at_str (mPrintFormats r) (at_Z (mTypeNums r) fnum))
            (at_Z (mTypeNums r) fnum) (drop (Z.to_nat off) (mReturnObject r)).

(** The texts of [nel] consecutive elements of field [fnum]. *)
Fixpoint field_elements (P : Platform) (r : Records) (fnum : Z) (nel : nat)
    (off elsize : Z) : list (list ascii) :=
  match nel with
  | O => []
  | S n => element_text P r fnum off :: field_elements P r fnum n (off + elsize) elsize
  end.

Definition field_nel (r : Records) (fnum : Z) : nat := Z.to_nat (at_Z (mNel r) fnum).

Definition field_elsize (r : Records) (fnum : Z) : Z :=
  Z.quot (at_Z (mSizes r) fnum) (at_Z (mNel r) fnum).

(** The texts of all elements of the fields [fnums] of the row at [off]. *)
Fixpoint row_elements (P : Platform) (r : Records) (fnums : list Z) (off : Z)
  : list (list ascii) :=
  match fnums with
  | [] => []
  | fnum :: rest =>
      field_elements P r fnum (field_nel r fnum) off (field_elsize r fnum)
      ++ row_elements P r rest
           (off + Z.of_nat (field_nel r fnum) * field_elsize r fnum)
  end.

(** A field the ASCII writer can render. *)
Definition writable_field (P : Platform) (r : Records) (fnum : Z) : bool :=
  (at_Z (mTypeNums r) fnum =? NPY_STRING)
  || bool_decide (at_Z (mTypeNums r) fnum ∈ printable_types P).

(** What [WriteField] puts after an element of field [fnum]. *)
Definition delim_after (r : Records) (fnum : Z) : list ascii :=
  if fnum <? mNfields r - 1 then chars (mDelim r) else [].

(** The bytes of the row that the fields [fnums] occupy. *)
Fixpoint fields_span (r : Records) (fnums : list Z) : Z :=
  match fnums with
  | [] => 0
  | fnum :: rest =>
      Z.of_nat (field_nel r fnum) * field_elsize r fnum + fields_span r rest
  end.

(** What the loops of [WriteRows] emit for the fields [fnums] of the row at
    [off]. *)
Fixpoint row_output (P : Platform) (r : Records) (fnums : list Z) (off : Z)
  : list ascii :=
  match fnums with
  | [] => []
  | fnum :: rest =>
      concat (map (fun t => t ++ delim_after r fnum)
                  (field_elements P r fnum (field_nel r fnum) off (field_elsize r fnum)))
      ++ row_output P r rest
           (off + Z.of_nat (field_nel r fnum) * field_elsize r fnum)
  end.

(** The row text in the words of the specification: the delimiter between
    consecutive fields only, each field being the run of its elements. *)
Fixpoint spec_field_texts (P : Platform) (r : Records) (fnums : list Z) (off : Z)
  : list (list ascii) :=
  match fnums with
  | [] => []
  | fnum :: rest =>
      concat (field_elements P r fnum (field_nel r fnum) off (field_elsize r fnum))
      :: spec_field_texts P r rest
           (off + Z.of_nat (field_nel r fnum) * field_elsize r fnum)
  end.

Definition spec_row_text (P : Platform) (r : Records) : list ascii :=
  join (chars (mDelim r)) (spec_field_texts P r (iota (mNfields r)) (mData r))
  ++ [NEWLINE].

(** The number of newline characters in a text. *)
Definition newlines (l : list ascii) : Z :=
  Z.of_nat (length (filter (fun c => c = NEWLINE) l)).

(** The input of a byte-string field: each element but the last followed by
    one separator character, the last element followed by nothing. *)
Fixpoint element_stream (els : list (list ascii * ascii)) (last : list ascii)
  : list ascii :=
  match els with
  | [] => last
  | (e, sep) :: rest => e ++ sep :: element_stream rest last
  end.

(** The assignments of [MakeScanFormats] before its two loops, in order. *)
Definition scan_format_updates (P : Platform) : list (Z * string) :=
  [(NPY_INT8 P, NPY_INT8_FMT P); (NPY_UINT8 P, NPY_UINT8_FMT P);
   (NPY_INT16 P, NPY_INT16_FMT P); (NPY_UINT16 P, NPY_UINT16_FMT P);
   (NPY_INT32 P, NPY_INT32_FMT P); (NPY_UINT32 P, NPY_UINT32_FMT P);
   (NPY_INT64 P, NPY_INT64_FMT P); (NPY_UINT64 P, NPY_UINT64_FMT P);
   (NPY_FLOAT, "f"); (NPY_DOUBLE, "lf")]
  ++ (if NPY_LONGDOUBLE_defined P then [(NPY_LONGDOUBLE, "Lf")] else []).

(** The types that are given a scan format on every platform. *)
Definition scan_types (P : Platform) : list Z :=
  [NPY_INT8 P; NPY_UINT8 P; NPY_INT16 P; NPY_UINT16 P;
   NPY_INT32 P; NPY_UINT32 P; NPY_INT64 P; NPY_UINT64 P;
   NPY_FLOAT; NPY_DOUBLE].

(** NumPy's sized integer aliases are numeric type numbers inside the table,
    none of them the string type, and their format letters are not empty. *)
Definition platform_ok (P : Platform) : bool :=
  forallb (fun t => (0 <=? t) && (t <? 24) && negb (t =? NPY_STRING))
    [NPY_INT8 P; NPY_UINT8 P; NPY_INT16 P; NPY_UINT16 P;
     NPY_INT32 P; NPY_UINT32 P; NPY_INT64 P; NPY_UINT64 P]
  && forallb (fun s => negb (String.eqb s ""))
    [NPY_INT8_FMT P; NPY_UINT8_FMT P; NPY_INT16_FMT P; NPY_UINT16_FMT P;
     NPY_INT32_FMT P; NPY_UINT32_FMT P; NPY_INT64_FMT P; NPY_UINT64_FMT P].

(** The scan format in the words of the specification: the delimiter string
    directly after the conversion. *)
Definition spec_delimited_format (fmt delim : string) : string := fmt +:+ delim.

(** The entry of type [t] in the scan-format table built with or without
    the delimiter. *)
Definition scan_format (P : Platform) (add_delim : bool) (r : Records) (t : Z)
  : string :=
  at_str (mScanFormats (MakeScanFormats P add_delim r)) t.

(** One assignment [mScanFormats[i] += s]. *)
Definition apply_update (v : list string) (u : Z * string) : list string :=
  append_at u.1 u.2 v.

(** ** Example sessions *)

(** A session reading three records of type [abc_descr] from the binary file
    [abcdefghi]. *)
Definition abc_file : PyObject := PyFile (stream_of "abcdefghi").

Definition abc_session : Records :=
  match Records_new linux_x86_64 abc_file "r" None (Some (PyDescr abc_descr)) 3 with
  | Ok r => r
  | Throw _ => InitializeVariables
  end.

(** The state in which [WriteStringAsAscii] finds a session that writes one
    byte string, [data], with the given null handling. *)
Definition string_writer (padnull ignorenull : bool) (data : list ascii) : Records :=
  set_mIgnoreNull ignorenull
    (set_mPadNull padnull
      (set_mReturnObject data
        (set_mNel [1]
          (set_mSizes [Z.of_nat (length data)]
            (set_mTypeNums [NPY_STRING]
              (set_mNfields 1
                (set_mFptr (Some empty_output)
                  (set_mFileType ASCII_FILE
                    (set_mDelim "," (set_mAction WRITE InitializeVariables)))))))))).

(** The bytes [ab\0\0cd]. *)
Definition ab00cd : list ascii := chars "ab" ++ [NUL; NUL] ++ chars "cd".

(** One record with a field [x] of two one-byte strings and a field [y] of
    one, and a session writing ASCII with a comma as delimiter. *)
Definition xy_descr : PyArray_Descr :=
  make_descr [("x", string_array_field 1 2); ("y", string_field 1)].

Definition comma_writer : Records :=
  match Records_new linux_x86_64 (PyFile empty_output) "w" (Some (PyString ","))
                    None (-9999) with
  | Ok r => r
  | Throw _ => InitializeVariables
  end.

(** The state in which [Write] enters [WriteRows_row] for the first record of
    an array of type [descr] with data [data], on [comma_writer]. *)
Definition ascii_writer (descr : PyArray_Descr) (data : list ascii) : Records :=
  let r := set_mNrows 1 comma_writer in
  let r := set_mIgnoreNull false (set_mPadNull false r) in
  let r := CopyFieldInfo descr r in
  let r := set_mNfields (vec_size (mNames r)) r in
  let r := set_mData 0 (set_mReturnObject data r) in
  MakePrintFormats linux_x86_64 r.

(** A session skipping rows of the ASCII file [text]; [whitespace] selects
    the delimiter: a space, or a comma. *)
Definition ascii_skipper (whitespace : bool) (text : string) : Records :=
  match Records_new linux_x86_64 (PyFile (stream_of text)) "r"
          (Some (PyString (if whitespace then " " else ",")))
          (Some (PyDescr abc_descr)) 3 with
  | Ok r => r
  | Throw _ => InitializeVariables
  end.

(** A session reading the binary file [text]. *)
Definition binary_skipper (text : string) : Records :=
  match Records_new linux_x86_64 (PyFile (stream_of text)) "r" None
          (Some (PyDescr abc_descr)) 3 with
  | Ok r => r
  | Throw _ => InitializeVariables
  end.

(** A session about to read, from the ASCII input [text], a field of [nel]
    byte strings of [size] characters each into its output array. *)
Definition string_reader (size nel : Z) (text : list ascii) : Records :=
  set_mReturnObject (replicate (Z.to_nat (size * nel)) NUL)
    (set_mKeep [1]
      (set_mNames ["s"]
        (set_mNel [nel]
          (set_mSizes [size * nel]
            (set_mTypeNums [NPY_STRING]
              (set_mNfields 1
                (set_mFptr (Some (mkFILE text 0 true false))
                  (set_mFileType ASCII_FILE
                    (set_mDelim "," InitializeVariables))))))))).

(** Three rows of text with the separator [sep] between the fields, each row
    ended by a newline. *)
Definition text_row (sep a b c : string) : string :=
  a +:+ sep +:+ b +:+ sep +:+ c +:+ String NEWLINE "".

Definition three_rows (sep : string) : string :=
  text_row sep "a" "b" "c" +:+ text_row sep "d" "e" "f" +:+ text_row sep "g" "h" "i".

(** ** What a read delivers *)

(** The session with the stream, the array content and the data pointer
    replaced: the part of the state that reading rows changes. *)
Definition reading (f : FILE) (buf : list ascii) (off : Z) (r : Records) : Records :=
  set_mData off (set_mFptr (Some f) (set_mReturnObject buf r)).

(** [len] bytes of [input] from offset [off] on. *)
Definition file_block (input : list ascii) (off len : Z) : list ascii :=
  take (Z.to_nat len) (drop (Z.to_nat off) input).

(** The array [buf] with [bytes] written from its first byte on. *)
Definition overlay (bytes buf : list ascii) : list ascii :=
  bytes ++ drop (length bytes) buf.

(** The rows a request selects, in the order they are read. *)
Definition selected_rows (nrows : Z) (arr : option (list Z)) : list Z :=
  match arr with None => iota nrows | Some l => l end.

(** The row that the loop of [ReadRows] reads at iteration [irow]; [rows] is
    the data of the row array. *)
Definition row2read (x0 : Records) (rows : list Z) (irow : Z) : Z :=
  if negb (mNrowsToRead x0 =? mNrows x0) then at_Z rows irow else irow.

(** The row after the last of the rows [targets], [cur] when there is none. *)
Fixpoint rows_end (cur : Z) (targets : list Z) : Z :=
  match targets with
  | [] => cur
  | t :: rest => rows_end (t + 1) rest
  end.

(** The bytes the fields [fnums] occupy, one after another. *)
Fixpoint sizes_span (r : Records) (fnums : list Z) : Z :=
  match fnums with
  | [] => 0
  | fnum :: rest => at_Z (mSizes r) fnum + sizes_span r rest
  end.

(** The bytes of the kept ones among the fields [fnums], which lie one after
    another in [row]. *)
Fixpoint kept_bytes (r : Records) (fnums : list Z) (row : list ascii) : list ascii :=
  match fnums with
  | [] => []
  | fnum :: rest =>
      let size := Z.to_nat (at_Z (mSizes r) fnum) in
      (if keeps r fnum then take size row else [])
        ++ kept_bytes r rest (drop size row)
  end.

(** The fields of a record lie one after another and fill it: every field
    has a positive size and the sizes add up to the record size. *)
Definition packed (r : Records) : bool :=
  forallb (fun fnum => 0 <? at_Z (mSizes r) fnum) (iota (mNfields r))
  && (sizes_span r (iota (mNfields r)) =? mRowSize r).

(** The stream holds the [nrows] records the session was opened for. *)
Definition complete_file (r : Records) : bool :=
  freadable (fptr r) && (0 <=? fpos (fptr r)) && (0 <? mRowSize r)
  && (mRowSize r * mNrows r <=? Z.of_nat (length (unread (fptr r)))).

(** What each strategy delivers from the unread [input] of the stream:
    the first [nrows] records as one block; the block of each selected row;
    the kept fields of each selected row. *)
Definition spec_whole_file (r : Records) (input : list ascii) : list ascii :=
  file_block input 0 (mRowSize r * mNrows r).

Definition spec_whole_rows (r : Records) (input : list ascii) (sel : list Z)
  : list ascii :=
  concat (map (fun i => file_block input (i * mRowSize r) (mRowSize r)) sel).

Definition spec_fields (r : Records) (input : list ascii) (sel : list Z)
  : list ascii :=
  concat (map (fun i => kept_bytes r (iota (mNfields r))
                          (file_block input (i * mRowSize r) (mRowSize r))) sel).

(** The bytes the kept ones among the fields [fnums] take in the array. *)
Fixpoint kept_span (r : Records) (fnums : list Z) : Z :=
  match fnums with
  | [] => 0
  | fnum :: rest =>
      (if keeps r fnum then at_Z (mSizes r) fnum else 0) + kept_span r rest
  end.

(** [abc_session] as [Read] prepares it for the given request. *)
Definition abc_prepared (rows fields : PyObjectPtr) : Records :=
  match Read_setup linux_x86_64 rows fields abc_session with
  | Ok r => r
  | Throw _ => InitializeVariables
  end.

(** The comma-delimited session on the three rows [a,b,c], [d,e,f] and
    [g,h,i], as [Read] prepares it when nothing is requested. *)
Definition comma_prepared : Records :=
  match Read_setup linux_x86_64 None None (ascii_skipper false (three_rows ","))
  with
  | Ok r => r
  | Throw _ => InitializeVariables
  end.

(** Field [j] of the schema is among those a request asks for. *)
Definition field_requested (d : PyArray_Descr) (fields : PyObjectPtr) (j : Z)
  : bool :=
  match requested_names fields with
  | None => true
  | Some l => bool_decide (at_str (descr_names d) j ∈ l)
  end.

(** ** Closing a session *)

(** [Close]: a stream the session opened itself is closed and forgotten; a
    stream handed in by the caller is left alone. *)
Definition Close (r : Records) : Records :=
  if mFptrIsLocal r && is_Some_b (mFptr r) then set_mFptr None r else r.

(** The file argument yields a stream. *)
Definition file_ok (P : Platform) (fileobj : PyObject) (mode : string) : Prop :=
  (exists f, fileobj = PyFile f)
  \/ (exists name f, fileobj = PyString name /\ fopen P name mode = Some f).

(** The delimiter argument is absent or a string. *)
Definition delim_ok (delimobj : PyObjectPtr) : Prop :=
  delimobj = None \/ exists s, delimobj = Some (PyString s).


(** The platform [linux_x86_64] with one file on disk: [fopen] finds [f]
    under [name] and nothing else. *)
Definition with_file (name : string) (f : FILE) : Platform :=
  {| fopen := fun n _ => if decide (n = name) then Some f else None;
     fscanf := fscanf linux_x86_64;
     sprintf := sprintf linux_x86_64;
     NPY_INT8 := 1;   NPY_INT8_FMT := "hhd";
     NPY_UINT8 := 2;  NPY_UINT8_FMT := "hhu";
     NPY_INT16 := 3;  NPY_INT16_FMT := "hd";
     NPY_UINT16 := 4; NPY_UINT16_FMT := "hu";
     NPY_INT32 := 5;  NPY_INT32_FMT := "d";
     NPY_UINT32 := 6; NPY_UINT32_FMT := "u";
     NPY_INT64 := 7;  NPY_INT64_FMT := "ld";
     NPY_UINT64 := 8; NPY_UINT64_FMT := "lu";
     NPY_FLOAT32 := 11;
     NPY_FLOAT64 := 12;
     NPY_FLOAT128 := Some 13;
     NPY_LONGDOUBLE_defined := false |}.

(** ** Reads of all fields *)

(** The number of rows a row request selects. *)
Definition requested_count (nrows : Z) (arr : option (list Z)) : Z :=
  match arr with None => nrows | Some a => vec_size a end.

(** The session as [Read] leaves it before [ReadPrepare] when every field is
    kept: the request recorded, every field marked, a zeroed output array. *)
Definition prepared (d : PyArray_Descr) (arr : option (list Z)) (r : Records)
  : Records :=
  set_mData 0
    (set_mReturnObject
       (replicate (Z.to_nat (requested_count (mNrows r) arr * descr_elsize d)) NUL)
       (with_kept (Some d) (iota (mNfields r)) (mNfields r)
          (set_mNrowsToRead (requested_count (mNrows r) arr)
             (set_mRowsToRead arr r)))).

Definition absent (o : PyObjectPtr) : Prop := o = None \/ o = Some Py_None.

(** ** Writing an array *)

(** The state in which [Write] hands the array [(descr, size, data)] to
    [WriteAllAsBinary] or [WriteRows]. *)
Definition write_state (descr : PyArray_Descr) (size : Z) (data : list ascii)
    (padnull ignorenull : bool) (r : Records) : Records :=
  let r := set_mNrows size r in
  let r := set_mIgnoreNull ignorenull (set_mPadNull padnull r) in
  let r := CopyFieldInfo descr r in
  let r := set_mNfields (vec_size (mNames r)) r in
  set_mData 0 (set_mReturnObject data r).

(** A read session on the bytes [content], as a file opened afresh. *)
Definition reopen (content : list ascii) : PyObject :=
  PyFile (mkFILE content 0 true false).

(** [abc_session] after it has read the whole file, and as a second [Read],
    of row 0 alone, finds it prepared. *)
Definition abc_read : Records :=
  match Read linux_x86_64 None None abc_session with
  | Ok r => r
  | Throw _ => InitializeVariables
  end.

Definition abc_second : Records :=
  match Read_setup linux_x86_64 (Some (PyList [PyInt 0])) None abc_read with
  | Ok r => r
  | Throw _ => InitializeVariables
  end.

(** * Properties *)

Lemma rbind_ok {A B} (m : result A) (k : A -> result B) (b : B) :
  rbind m k = Ok b <-> exists a, m = Ok a /\ k a = Ok b.
Proof.
  destruct m as [a|msg]; simpl; split.
  - intros H; exists a; auto.
  - intros (a' & Ha & Hk); congruence.
  - discriminate.
  - intros (a' & Ha & _); discriminate.
Qed.

(** ** Sessions *)

Ltac inv_bind H :=
  let a := fresh "r" in
  let Ha := fresh "H" a in
  apply rbind_ok in H; destruct H as (a & Ha & H).

Ltac inv_bind_as H a Ha :=
  apply rbind_ok in H; destruct H as (a & Ha & H).

Lemma GetFptr_ok (P : Platform) fileobj mode r r' :
  GetFptr P fileobj mode r = Ok r' ->
  exists f isloc, r' = set_mFptrIsLocal isloc (set_mFptr (Some f) r).
Proof.
  unfold GetFptr; intros H.
  destruct fileobj; try discriminate.
  - destruct (fopen P s mode); inversion H; eauto.
  - inversion H; eauto.
Qed.

Lemma ProcessDelim_ok delimobj r r' :
  ProcessDelim delimobj r = Ok r' ->
  exists d, r' = set_mReadAsWhitespace (bool_decide (first_char d = SPACE))
                   (set_mDelim d r).
Proof.
  unfold ProcessDelim; intros H; inv_bind H.
  assert (exists d, r0 = set_mDelim d r) as [d ->].
  { destruct delimobj as [[]|]; inversion Hr0; eauto. }
  exists d. simpl in H.
  destruct (decide (first_char d = SPACE)) as [Hd|Hd].
  - rewrite bool_decide_eq_true_2 by done. by inversion H.
  - rewrite bool_decide_eq_false_2 by done. by inversion H.
Qed.

Lemma Records_new_read (P : Platform) fileobj mode delimobj d nrows r :
  first_char mode = "r"%char ->
  Records_new P fileobj mode delimobj (Some (PyDescr d)) nrows = Ok r ->
  opened_for_reading d nrows r.
Proof.
  intros Hmode H. unfold Records_new in H.
  inv_bind H. apply GetFptr_ok in Hr0 as (f & isloc & ->).
  inv_bind H. apply ProcessDelim_ok in Hr0 as (dl & ->).
  assert (Hm : mMode (SetFileType
            (set_mReadAsWhitespace (bool_decide (first_char dl = SPACE))
               (set_mDelim dl (set_mFptrIsLocal isloc
                  (set_mFptr (Some f) (set_mMode mode InitializeVariables))))))
          = mode).
  { unfold SetFileType; simpl. destruct (decide (dl = "")); reflexivity. }
  rewrite Hm in H. destruct (decide (first_char mode = "r"%char)); [|done].
  simpl in H. destruct (nrows =? -9999) eqn:E9; [discriminate|].
  unfold ProcessNrows in H. destruct (nrows <? 1) eqn:E1; [discriminate|].
  inversion H; subst r; clear H.
  apply Z.ltb_ge in E1.
  unfold opened_for_reading, SetFileType, CopyFieldInfo, CopyDescrOrderedOffsets,
    CopyDescrOrderedNames; simpl.
  destruct (decide (dl = "")) as [Hd|Hd]; simpl;
    repeat split; try done; try lia; eauto.
Qed.

Lemma abc_session_opened :
  Records_new linux_x86_64 abc_file "r" None (Some (PyDescr abc_descr)) 3
  = Ok abc_session.
Proof. vm_compute. reflexivity. Qed.

(** ** File kind and whitespace mode *)

Lemma ProcessDelim_delim (delimobj : PyObjectPtr) (r r' : Records) :
  ProcessDelim delimobj r = Ok r' ->
  (delimobj = None -> mDelim r' = "")
  /\ (forall s, delimobj = Some (PyString s) -> mDelim r' = s).
Proof.
  intros H. unfold ProcessDelim in H.
  destruct delimobj as [[s| | | | | | |]|]; simpl in H; try discriminate.
  - destruct (decide (first_char s = SPACE)); inversion H; subst r'; simpl;
      (split; [discriminate|intros s' Hs; by inversion Hs]).
  - destruct (decide (first_char "" = SPACE)); inversion H; subst r'; simpl;
      (split; [done|discriminate]).
Qed.

(** C8 (amended).  In every session the file kind follows from the delimiter
    alone: the empty delimiter (or none at all) gives a binary file, any
    other an ASCII file; the whitespace-tokenized mode is selected exactly
    when the first character of the delimiter is the space character. *)
Theorem file_kind_from_delimiter (P : Platform) (fileobj : PyObject)
    (mode : string) (delimobj dtype : PyObjectPtr) (nrows : Z) (r : Records) :
  Records_new P fileobj mode delimobj dtype nrows = Ok r ->
  (delimobj = None -> mDelim r = "")
  /\ (forall s, delimobj = Some (PyString s) -> mDelim r = s)
  /\ (mFileType r = BINARY_FILE <-> mDelim r = "")
  /\ (mFileType r = ASCII_FILE <-> mDelim r <> "")
  /\ (mReadAsWhitespace r = true <-> first_char (mDelim r) = SPACE).
Proof.
  intros H. unfold Records_new in H.
  inv_bind_as H r1 Hr1. apply GetFptr_ok in Hr1 as (f & isloc & ->).
  inv_bind_as H r2 Hr2.
  destruct (ProcessDelim_delim _ _ _ Hr2) as [Hnone Hstr].
  apply ProcessDelim_ok in Hr2 as (dl & ->).
  set (r2 := SetFileType _) in H.
  assert (Hr2 : mDelim r2 = dl
                /\ mFileType r2 = (if decide (dl = "") then BINARY_FILE else ASCII_FILE)
                /\ mReadAsWhitespace r2 = bool_decide (first_char dl = SPACE)).
  { unfold r2, SetFileType; simpl. by destruct (decide (dl = "")). }
  assert (Hsame : mDelim r = mDelim r2 /\ mFileType r = mFileType r2
                  /\ mReadAsWhitespace r = mReadAsWhitespace r2).
  { destruct (decide (first_char (mMode r2) = "r"%char)).
    - destruct (is_NULL dtype || (nrows =? -9999)); [discriminate|].
      inv_bind_as H r3 Hr3. unfold ProcessDescr in Hr3.
      destruct dtype as [[| | | | | |d|]|]; try discriminate.
      inversion Hr3; subst r3. unfold ProcessNrows in H.
      destruct (nrows <? 1); [discriminate|]. inversion H.
      unfold CopyFieldInfo, CopyDescrOrderedOffsets. repeat split.
    - inversion H. repeat split. }
  destruct Hsame as (S1 & S2 & S3). destruct Hr2 as (Hd & Hft & Hws).
  simpl in Hnone, Hstr. rewrite S1, S2, S3, Hft, Hws, Hd. clearbody r2.
  split; [exact Hnone|]. split; [exact Hstr|].
  rewrite bool_decide_eq_true.
  destruct (decide (dl = "")) as [Hdl|Hdl]; repeat split; intros; done.
Qed.

(** Without a delimiter the session is binary; with a comma it reads ASCII
    with a literal delimiter; with a blank it reads ASCII in whitespace
    mode. *)
Lemma file_kind_from_delimiter_witness :
  mFileType abc_session = BINARY_FILE
  /\ (mFileType (ascii_skipper false (three_rows ",")) = ASCII_FILE
      /\ mReadAsWhitespace (ascii_skipper false (three_rows ",")) = false)
  /\ (mFileType (ascii_skipper true (three_rows " ")) = ASCII_FILE
      /\ mReadAsWhitespace (ascii_skipper true (three_rows " ")) = true).
Proof.
  split; [|split].
  - destruct (file_kind_from_delimiter linux_x86_64 abc_file "r" None
                (Some (PyDescr abc_descr)) 3 abc_session abc_session_opened)
      as (Hnone & _ & Hbin & _).
    apply Hbin, Hnone. reflexivity.
  - destruct (file_kind_from_delimiter linux_x86_64
                (PyFile (stream_of (three_rows ","))) "r" (Some (PyString ","))
                (Some (PyDescr abc_descr)) 3 (ascii_skipper false (three_rows ",")))
      as (_ & Hstr & _ & Hasc & Hws); [vm_compute; reflexivity|].
    rewrite (Hstr "," eq_refl) in Hasc, Hws. split.
    + apply Hasc. discriminate.
    + destruct (mReadAsWhitespace _); [|reflexivity].
      assert (Habs : first_char "," = SPACE) by (by apply Hws). discriminate.
  - destruct (file_kind_from_delimiter linux_x86_64
                (PyFile (stream_of (three_rows " "))) "r" (Some (PyString " "))
                (Some (PyDescr abc_descr)) 3 (ascii_skipper true (three_rows " ")))
      as (_ & Hstr & _ & Hasc & Hws); [vm_compute; reflexivity|].
    rewrite (Hstr " " eq_refl) in Hasc, Hws. split.
    + apply Hasc. discriminate.
    + apply Hws. reflexivity.
Defined.

(** C8, as stated, fails: a session opened with a tab as delimiter is an
    ASCII session whose delimiter starts with a whitespace character, and it
    is not in whitespace mode. *)
Lemma tab_delimiter_is_not_whitespace_mode :
  exists r,
    Records_new linux_x86_64 (PyFile (stream_of "abc")) "r"
                (Some (PyString (String TAB ""))) (Some (PyDescr abc_descr)) 1
      = Ok r
    /\ mFileType r = ASCII_FILE
    /\ isspace (first_char (mDelim r)) = true
    /\ mReadAsWhitespace r = false.
Proof. eexists; split; [vm_compute; reflexivity|]. vm_compute. repeat split. Qed.

(** ** Matching requested names against the schema *)

Lemma goodones_of_strings (l : list string) : goodones_of (PyString <$> l) = l.
Proof. induction l as [|s l IH]; simpl; [done|]. f_equal. exact IH. Qed.

Lemma at_str_middle (pre : list string) (name : string) (rest : list string) :
  at_str (pre ++ name :: rest) (Z.of_nat (length pre)) = name.
Proof. unfold at_str. by rewrite Nat2Z.id, list_lookup_middle. Qed.

(** The matched indices name the schema fields that are requested, in schema
    order. *)
Lemma match_loop_names (pre rest good : list string) :
  map (at_str (pre ++ rest)) (match_loop rest good (Z.of_nat (length pre)))
  = filter (fun n => n ∈ good) rest.
Proof.
  revert pre; induction rest as [|name rest IH]; intros pre; [done|].
  simpl. rewrite filter_cons.
  assert (Hstep : match_loop rest good (Z.of_nat (length pre) + 1)
                  = match_loop rest good (Z.of_nat (length (pre ++ [name])))).
  { f_equal. rewrite length_app; simpl. lia. }
  assert (Hrec : map (at_str (pre ++ name :: rest))
                     (match_loop rest good (Z.of_nat (length pre) + 1))
                 = filter (fun n => n ∈ good) rest).
  { rewrite Hstep, <- (IH (pre ++ [name])). by rewrite <- app_assoc. }
  destruct (decide (name ∈ good)); simpl.
  - by rewrite at_str_middle, Hrec.
  - exact Hrec.
Qed.

Lemma match_loop_length (names good : list string) (i : Z) :
  length (match_loop names good i) = length (filter (fun n => n ∈ good) names).
Proof.
  revert i; induction names as [|name names IH]; intros i; [done|].
  simpl. rewrite filter_cons. destruct (decide (name ∈ good)); simpl; by rewrite IH.
Qed.

Lemma filter_nil_Forall (good names : list string) :
  filter (fun n => n ∈ good) names = [] <-> Forall (fun n => n ∉ good) names.
Proof.
  induction names as [|name names IH]; [by split; auto|].
  rewrite filter_cons, Forall_cons. destruct (decide (name ∈ good)).
  - split; [discriminate|]. intros [? _]; done.
  - rewrite IH. tauto.
Qed.

Lemma filter_all_Forall (good names : list string) :
  length (filter (fun n => n ∈ good) names) = length names
  <-> Forall (fun n => n ∈ good) names.
Proof.
  induction names as [|name names IH]; [by split; auto|].
  rewrite filter_cons, Forall_cons.
  pose proof (length_filter (fun n => n ∈ good) names) as Hle.
  destruct (decide (name ∈ good)); simpl.
  - split; [intros H; split; [done|apply IH; lia]|].
    intros [_ H]. apply IH in H. lia.
  - split; [lia|tauto].
Qed.

(** Only membership in the request matters, not its order. *)
Lemma match_loop_ext (names good good' : list string) (i : Z) :
  (forall n, n ∈ good <-> n ∈ good') ->
  match_loop names good i = match_loop names good' i.
Proof.
  intros Hiff; revert i; induction names as [|name names IH]; intros i; [done|].
  simpl.
  destruct (decide (name ∈ good)) as [H1|H1], (decide (name ∈ good')) as [H2|H2];
    [by rewrite IH | exfalso; apply H2, Hiff, H1
    | exfalso; apply H1, Hiff, H2 | by rewrite IH].
Qed.

Lemma ListStringMatch_names (names : list string) (items : list PyObject) :
  goodones_of items <> [] ->
  ListStringMatch names (PyList items)
  = if decide (Forall (fun n => n ∉ goodones_of items) names)
    then Throw "None of the requested field names matched"
    else Ok (match_loop names (goodones_of items) 0).
Proof.
  intros Hgood. unfold ListStringMatch, SequenceCheck; simpl.
  assert (Hlen : (0 < length items)%nat).
  { destruct items; simpl in *; [done|lia]. }
  replace (Z.of_nat (length items) <=? 0) with false
    by (symmetry; apply Z.leb_gt; lia).
  rewrite Nat2Z.id, firstn_all.
  replace (vec_size (goodones_of items) =? 0) with false.
  2:{ symmetry; apply Z.eqb_neq. unfold vec_size.
      destruct (goodones_of items); simpl; [done|lia]. }
  simpl.
  pose proof (match_loop_length names (goodones_of items) 0) as Hl.
  pose proof (filter_nil_Forall (goodones_of items) names) as Hnil.
  destruct (decide (Forall (fun n => n ∉ goodones_of items) names)) as [Hno|Hsome].
  - apply Hnil in Hno. rewrite Hno in Hl.
    destruct (match_loop names (goodones_of items) 0); [done|discriminate].
  - destruct (match_loop names (goodones_of items) 0) eqn:E.
    + exfalso. apply Hsome, Hnil.
      destruct (filter _ names); [done|discriminate].
    + unfold vec_size; simpl.
      replace (Z.of_nat (S (length l)) =? 0) with false; [done|].
      symmetry; apply Z.eqb_neq; lia.
Qed.

(** ** The reduced type descriptor *)

Lemma wf_descr_spec (d : PyArray_Descr) :
  wf_descr d = true ->
  NoDup (descr_names d)
  /\ Forall (fun n => exists fd off, descr_fields d !! n = Some (ItemTuple fd off))
            (descr_names d).
Proof.
  unfold wf_descr. intros H. apply andb_true_iff in H as [Hnd Hall].
  split; [by apply bool_decide_eq_true in Hnd|].
  apply Forall_forall. intros n Hn.
  rewrite forallb_forall in Hall. specialize (Hall n).
  rewrite <- list_elem_of_In in Hall. specialize (Hall Hn).
  destruct (descr_fields d !! n) as [[fd off|]|]; try discriminate. eauto.
Qed.

Lemma FieldDescriptorAsTuple_name fd name :
  tup_name (FieldDescriptorAsTuple fd name) = name.
Proof. unfold FieldDescriptorAsTuple. by destruct (fd_subarray fd) as [[]|]. Qed.

Lemma FieldDescriptorAsTuple_descr fd name :
  tup_descr (FieldDescriptorAsTuple fd name) = fd.
Proof. unfold FieldDescriptorAsTuple. by destruct (fd_subarray fd) as [[]|]. Qed.

Lemma ExtractSubDescr_dlist_names (d : PyArray_Descr) (names : list string) :
  Forall (fun n => exists fd off, descr_fields d !! n = Some (ItemTuple fd off)) names ->
  map tup_name (ExtractSubDescr_dlist d names) = names.
Proof.
  induction 1 as [|n names (fd & off & Hn) _ IH]; [done|].
  simpl. rewrite Hn. simpl. by rewrite FieldDescriptorAsTuple_name, IH.
Qed.

Lemma ExtractSubDescr_dlist_elem (d : PyArray_Descr) (names : list string) n fd off :
  n ∈ names -> descr_fields d !! n = Some (ItemTuple fd off) ->
  FieldDescriptorAsTuple fd n ∈ ExtractSubDescr_dlist d names.
Proof.
  intros Hin Hn. induction names as [|m names IH]; [by apply elem_of_nil in Hin|].
  apply elem_of_cons in Hin as [->|Hin]; simpl.
  - rewrite Hn. apply elem_of_cons; by left.
  - destruct (descr_fields d !! m) as [[]|]; auto.
    apply elem_of_cons; right; auto.
Qed.

Lemma packed_fields_fst (l : list DtypeTuple) (o : Z) :
  (packed_fields l o).*1 = map tup_name l.
Proof. revert o; induction l as [|t l IH]; intros o; simpl; [done|by rewrite IH]. Qed.

Lemma packed_fields_elem (l : list DtypeTuple) (o : Z) (t : DtypeTuple) :
  t ∈ l -> exists off, (tup_name t, ItemTuple (tup_descr t) off) ∈ packed_fields l o.
Proof.
  revert o; induction l as [|u l IH]; intros o Hin; [by apply elem_of_nil in Hin|].
  apply elem_of_cons in Hin as [->|Hin]; simpl.
  - exists o. apply elem_of_cons; by left.
  - destruct (IH (o + fd_elsize (tup_descr u)) Hin) as [off Hoff].
    exists off. apply elem_of_cons; by right.
Qed.

(** Extracting a selection of the schema's fields: the new type has exactly
    the selected names, in the order given, each with its original field
    descriptor. *)
Lemma ExtractSubDescr_ok (d : PyArray_Descr) (names : list string) :
  NoDup names ->
  Forall (fun n => exists fd off, descr_fields d !! n = Some (ItemTuple fd off)) names ->
  exists newdescr,
    ExtractSubDescr d names = Ok newdescr
    /\ descr_names newdescr = names
    /\ forall n fd off, n ∈ names ->
         descr_fields d !! n = Some (ItemTuple fd off) ->
         exists off', descr_fields newdescr !! n = Some (ItemTuple fd off').
Proof.
  intros Hnd Hall. unfold ExtractSubDescr, PyArray_DescrConverter.
  pose proof (ExtractSubDescr_dlist_names d names Hall) as Hnames.
  rewrite Hnames. destruct (decide (NoDup names)); [|done].
  eexists; split; [reflexivity|]. split; [done|].
  intros m fd off Hin Hn. simpl.
  pose proof (ExtractSubDescr_dlist_elem d names m fd off Hin Hn) as Ht.
  apply (packed_fields_elem _ 0) in Ht as [off' Hoff'].
  rewrite FieldDescriptorAsTuple_name, FieldDescriptorAsTuple_descr in Hoff'.
  exists off'. apply elem_of_list_to_map_1; [|done].
  by rewrite packed_fields_fst, Hnames.
Qed.

Lemma SubDtype_list (d : PyArray_Descr) (items : list PyObject) :
  wf_descr d = true ->
  goodones_of items <> [] ->
  let good := goodones_of items in
  let kept := filter (fun n => n ∈ good) (descr_names d) in
  (Forall (fun n => n ∉ good) (descr_names d) ->
     SubDtype d (PyList items) = Throw "None of the requested field names matched")
  /\ (Exists (fun n => n ∈ good) (descr_names d) ->
     exists newdescr,
       SubDtype d (PyList items) = Ok (newdescr, match_loop (descr_names d) good 0)
       /\ descr_names newdescr = kept
       /\ forall n fd off, n ∈ kept ->
            descr_fields d !! n = Some (ItemTuple fd off) ->
            exists off', descr_fields newdescr !! n = Some (ItemTuple fd off')).
Proof.
  intros Hwf Hgood good kept.
  apply wf_descr_spec in Hwf as [Hnd Hall].
  unfold SubDtype, CopyDescrOrderedNames; cbn [PyList_Check].
  rewrite ListStringMatch_names by done. fold good.
  split.
  - intros Hno. by destruct (decide (Forall (fun n => n ∉ good) (descr_names d))).
  - intros Hsome.
    destruct (decide (Forall (fun n => n ∉ good) (descr_names d))) as [Hno|_].
    { exfalso. apply Exists_exists in Hsome as (n & Hn & Hg).
      rewrite Forall_forall in Hno. by apply (Hno n). }
    cbn [rbind].
    pose proof (match_loop_names [] (descr_names d) good) as Hm.
    change (match_loop (descr_names d) good (Z.of_nat (length (@nil string))))
      with (match_loop (descr_names d) good 0) in Hm.
    change ([] ++ descr_names d) with (descr_names d) in Hm.
    rewrite Hm. fold kept.
    destruct (ExtractSubDescr_ok d kept) as (nd & Hnd' & Hnames & Hfields).
    + by apply NoDup_filter.
    + apply Forall_forall. intros n Hn. rewrite Forall_forall in Hall.
      apply Hall. by apply list_elem_of_filter in Hn as [_ ?].
    + exists nd. rewrite Hnd'. simpl. auto.
Qed.

Lemma SubDtype_same_members (d : PyArray_Descr) (l l' : list string) :
  l <> [] -> (forall n, n ∈ l <-> n ∈ l') ->
  SubDtype d (PyList (PyString <$> l')) = SubDtype d (PyList (PyString <$> l)).
Proof.
  intros Hl Hiff.
  assert (Hl' : l' <> []).
  { destruct l as [|x l]; [done|]. intros ->.
    assert (Hx : x ∈ @nil string) by (apply Hiff, elem_of_cons; by left).
    by apply elem_of_nil in Hx. }
  unfold SubDtype, CopyDescrOrderedNames; cbn [PyList_Check].
  rewrite !ListStringMatch_names by (by rewrite goodones_of_strings).
  rewrite !goodones_of_strings.
  rewrite (match_loop_ext (descr_names d) l' l 0) by (intros n; by rewrite Hiff).
  destruct (decide (Forall (fun n => n ∉ l') (descr_names d))) as [H1|H1],
           (decide (Forall (fun n => n ∉ l) (descr_names d))) as [H2|H2];
    try reflexivity; exfalso.
  - apply H2. eapply Forall_impl; [exact H1|]. intros n Hn Hin. by apply Hn, Hiff.
  - apply H1. eapply Forall_impl; [exact H2|]. intros n Hn Hin. by apply Hn, Hiff.
Qed.

(** C2.  For a schema and a non-empty list of requested names of which at
    least one is a schema field, field subsetting succeeds and the reduced
    schema has exactly the requested schema fields, each with its original
    field descriptor, in the order of the original schema; the order (and
    repetition) of the names in the request has no influence. *)
Theorem field_subset_keeps_schema_order (d : PyArray_Descr) (l : list string) :
  wf_descr d = true ->
  l <> [] ->
  Exists (fun n => n ∈ l) (descr_names d) ->
  exists newdescr matchids,
    SubDtype d (PyList (PyString <$> l)) = Ok (newdescr, matchids)
    /\ descr_names newdescr = filter (fun n => n ∈ l) (descr_names d)
    /\ map (at_str (descr_names d)) matchids = descr_names newdescr
    /\ (forall n fd off,
          n ∈ descr_names newdescr ->
          descr_fields d !! n = Some (ItemTuple fd off) ->
          exists off', descr_fields newdescr !! n = Some (ItemTuple fd off'))
    /\ (forall l', l' ≡ₚ l ->
          SubDtype d (PyList (PyString <$> l')) = Ok (newdescr, matchids)).
Proof.
  intros Hwf Hl Hsome.
  destruct (SubDtype_list d (PyString <$> l) Hwf) as [_ Hok].
  { by rewrite goodones_of_strings. }
  rewrite goodones_of_strings in Hok.
  destruct (Hok Hsome) as (nd & Hsub & Hnames & Hfields).
  exists nd, (match_loop (descr_names d) l 0).
  split; [exact Hsub|]. split; [exact Hnames|]. split.
  { rewrite Hnames. apply (match_loop_names [] (descr_names d) l). }
  split.
  { intros n fd off Hin. apply Hfields. by rewrite <- Hnames. }
  intros l' Hperm. rewrite <- Hsub. apply SubDtype_same_members; [done|].
  intros n. by rewrite Hperm.
Qed.

(** Requesting ["c"; "a"] from the schema [a, b, c] yields the fields
    [a, c]. *)
Lemma field_subset_keeps_schema_order_witness :
  exists newdescr matchids,
    SubDtype abc_descr (PyList [PyString "c"; PyString "a"])
      = Ok (newdescr, matchids)
    /\ descr_names newdescr = ["a"; "c"].
Proof.
  destruct (field_subset_keeps_schema_order abc_descr ["c"; "a"])
    as (nd & ids & Hsub & Hnames & _).
  - reflexivity.
  - discriminate.
  - apply Exists_cons_hd, elem_of_cons; right. apply elem_of_cons; by left.
  - exists nd, ids. split; [exact Hsub|]. rewrite Hnames. reflexivity.
Defined.

(** ** Preparing a read *)

Lemma ProcessRowsToRead_ok (rows : PyObjectPtr) (arr : option (list Z)) (r : Records) :
  Object2IntpArray rows = Ok arr ->
  ProcessRowsToRead rows r
  = Ok (set_mNrowsToRead (match arr with None => mNrows r | Some a => vec_size a end)
          (set_mRowsToRead arr r)).
Proof. unfold ProcessRowsToRead. intros ->. by destruct arr. Qed.

Lemma ProcessFieldsToRead_absent (fields : PyObjectPtr) (r : Records) :
  fields = None \/ fields = Some Py_None ->
  ProcessFieldsToRead fields r
  = Ok (with_kept (mTypeDescr r) (iota (mNfields r)) (mNfields r) r).
Proof. intros [->| ->]; reflexivity. Qed.

Lemma ProcessFieldsToRead_present (f : PyObject) (d : PyArray_Descr) (r : Records) :
  f <> Py_None -> mTypeDescr r = Some d ->
  ProcessFieldsToRead (Some f) r
  = do res <- SubDtype d f;
    Ok (with_kept (Some res.1) res.2 (vec_size res.2) r).
Proof.
  intros Hf Hd. unfold ProcessFieldsToRead.
  destruct f; try done; cbn [mTypeDescr set_mKeep]; rewrite Hd;
    (destruct (SubDtype d _) as [[nd ids]|msg]; [reflexivity|reflexivity]).
Qed.

Lemma Read_setup_unfold (P : Platform) (rows fields : PyObjectPtr)
    (arr : option (list Z)) (d : PyArray_Descr) (nrows : Z) (r : Records) :
  opened_for_reading d nrows r ->
  Object2IntpArray rows = Ok arr ->
  Read_setup P rows fields r
  = do r2 <- ProcessFieldsToRead fields
               (set_mNrowsToRead
                  (match arr with None => mNrows r | Some a => vec_size a end)
                  (set_mRowsToRead arr r));
    do r3 <- CreateOutputArray r2;
    Ok (ReadPrepare P r3).
Proof.
  intros (Hf & Ha & _) Harr. unfold Read_setup.
  destruct Hf as [f Hf]. rewrite Hf, Ha. cbn [is_Some_b negb].
  rewrite bool_decide_eq_true_2 by done. cbn [negb].
  by rewrite (ProcessRowsToRead_ok rows arr r Harr).
Qed.

Lemma ReadPrepare_keeps (P : Platform) (x : Records) :
  mKeepTypeDescr (ReadPrepare P x) = mKeepTypeDescr x
  /\ mKeepId (ReadPrepare P x) = mKeepId x
  /\ mKeepNfields (ReadPrepare P x) = mKeepNfields x.
Proof.
  unfold ReadPrepare.
  repeat match goal with |- context [if ?b then _ else _] => destruct b end;
    repeat split.
Qed.

(** C9.  In a session opened for reading, a request that lists field names
    none of which is a schema field makes [Read] fail with the
    no-matching-fields error; when at least one listed name is a schema field
    the preparation of the read succeeds, keeping exactly the listed schema
    fields and dropping the other names. *)
Theorem unmatched_field_names (P : Platform) (fileobj : PyObject) (mode : string)
    (delimobj rows : PyObjectPtr) (arr : option (list Z))
    (d : PyArray_Descr) (nrows : Z) (r : Records) (l : list string) :
  first_char mode = "r"%char ->
  Records_new P fileobj mode delimobj (Some (PyDescr d)) nrows = Ok r ->
  wf_descr d = true ->
  Object2IntpArray rows = Ok arr ->
  l <> [] ->
  (Forall (fun n => n ∉ l) (descr_names d) ->
     Read P rows (Some (PyList (PyString <$> l))) r
     = Throw "None of the requested field names matched")
  /\ (Exists (fun n => n ∈ l) (descr_names d) ->
     exists r' kd,
       Read_setup P rows (Some (PyList (PyString <$> l))) r = Ok r'
       /\ mKeepTypeDescr r' = Some kd
       /\ descr_names kd = filter (fun n => n ∈ l) (descr_names d)
       /\ map (at_str (descr_names d)) (mKeepId r') = descr_names kd
       /\ mKeepNfields r' = vec_size (descr_names kd)).
Proof.
  intros Hmode Hnew Hwf Harr Hl.
  pose proof (Records_new_read P _ _ _ _ _ _ Hmode Hnew) as Hopen.
  assert (Hd : mTypeDescr r = Some d) by apply Hopen.
  destruct (SubDtype_list d (PyString <$> l) Hwf) as [Hno Hok].
  { by rewrite goodones_of_strings. }
  rewrite goodones_of_strings in Hno, Hok.
  split.
  - intros Hnone. unfold Read.
    rewrite (Read_setup_unfold P rows _ arr d nrows r Hopen Harr).
    rewrite (ProcessFieldsToRead_present _ d) by done.
    by rewrite (Hno Hnone).
  - intros Hsome. destruct (Hok Hsome) as (nd & Hsub & Hnames & _).
    rewrite (Read_setup_unfold P rows _ arr d nrows r Hopen Harr).
    rewrite (ProcessFieldsToRead_present _ d) by done.
    rewrite Hsub. cbn [rbind fst snd].
    eexists; exists nd. split; [reflexivity|].
    match goal with
    | |- context [ReadPrepare P ?x] =>
        destruct (ReadPrepare_keeps P x) as (K1 & K2 & K3)
    end.
    rewrite K1, K2, K3. cbn.
    split; [reflexivity|]. split; [exact Hnames|].
    pose proof (match_loop_names [] (descr_names d) l) as Hm.
    split.
    + rewrite Hnames. exact Hm.
    + unfold vec_size. rewrite Hnames, match_loop_length. reflexivity.
Qed.

(** On the schema [a, b, c]: requesting [x, y] fails, requesting [x, b]
    keeps [b]. *)
Lemma unmatched_field_names_witness :
  Read linux_x86_64 None (Some (PyList [PyString "x"; PyString "y"])) abc_session
    = Throw "None of the requested field names matched"
  /\ exists r' kd,
       Read_setup linux_x86_64 None (Some (PyList [PyString "x"; PyString "b"]))
                  abc_session = Ok r'
       /\ mKeepTypeDescr r' = Some kd
       /\ descr_names kd = ["b"].
Proof.
  split.
  - apply (unmatched_field_names linux_x86_64 abc_file "r" None None None
             abc_descr 3 abc_session ["x"; "y"]);
      [reflexivity | exact abc_session_opened | reflexivity | reflexivity
      | discriminate | ].
    repeat constructor; intros H; vm_compute in H;
      repeat (apply elem_of_cons in H as [H|H]; [discriminate|]);
      by apply elem_of_nil in H.
  - destruct (unmatched_field_names linux_x86_64 abc_file "r" None None None
                abc_descr 3 abc_session ["x"; "b"]) as [_ Hok];
      [reflexivity | exact abc_session_opened | reflexivity | reflexivity
      | discriminate | ].
    destruct Hok as (r' & kd & Hset & Hkd & Hnames & _).
    + apply Exists_cons_tl, Exists_cons_hd.
      apply elem_of_cons; right. apply elem_of_cons; by left.
    + exists r', kd. split; [exact Hset|]. split; [exact Hkd|].
      rewrite Hnames. reflexivity.
Defined.

(** ** Strategy selection *)

Lemma ascending_length (lo hi : Z) (rows : list Z) :
  ascending_from lo rows = true ->
  Forall (fun x => x < hi) rows ->
  Z.of_nat (length rows) <= Z.max 0 (hi - lo).
Proof.
  revert lo; induction rows as [|x rest IH]; intros lo Hasc Hall; simpl; [lia|].
  simpl in Hasc. apply andb_true_iff in Hasc as [Hlo Hrest].
  apply Z.leb_le in Hlo. apply Forall_cons in Hall as [Hx Hall].
  specialize (IH (x + 1) Hrest Hall). lia.
Qed.

(** A strictly ascending list of [n] indices below [lo + n], none smaller
    than [lo], lists them all. *)
Lemma ascending_full (lo n : Z) (rows : list Z) :
  ascending_from lo rows = true ->
  Forall (fun x => x < lo + n) rows ->
  Z.of_nat (length rows) = n ->
  rows = seqZ lo n.
Proof.
  revert lo n; induction rows as [|x rest IH]; intros lo n Hasc Hall Hlen.
  - simpl in Hlen. by subst n.
  - simpl in Hasc, Hlen. apply andb_true_iff in Hasc as [Hlo Hrest].
    apply Z.leb_le in Hlo. apply Forall_cons in Hall as [Hx Hall].
    pose proof (ascending_length (x + 1) (lo + n) rest Hrest Hall) as Hle.
    assert (x = lo) as -> by lia.
    rewrite seqZ_cons by lia. f_equal.
    apply IH; [exact Hrest | | lia].
    eapply Forall_impl; [exact Hall|]. simpl. intros; lia.
Qed.

Lemma all_rows_by_count (nrows : Z) (arr : option (list Z)) :
  1 <= nrows ->
  valid_rows nrows arr = true ->
  (match arr with None => nrows | Some a => vec_size a end =? nrows)
  = every_row_requested nrows arr.
Proof.
  intros Hn Hvalid. destruct arr as [rows|]; simpl; [|apply Z.eqb_refl].
  simpl in Hvalid. apply andb_true_iff in Hvalid as [Hasc Hall].
  destruct (decide (rows = iota nrows)) as [Heq|Hne].
  - rewrite bool_decide_eq_true_2 by done. apply Z.eqb_eq.
    unfold vec_size. rewrite Heq. unfold iota. rewrite length_seqZ. lia.
  - rewrite bool_decide_eq_false_2 by done. apply Z.eqb_neq.
    intros Hlen. apply Hne. unfold iota. apply ascending_full; [done| |done].
    apply Forall_forall. intros x Hx. rewrite forallb_forall in Hall.
    apply list_elem_of_In, Hall in Hx. apply Z.ltb_lt in Hx. lia.
Qed.

Lemma ListStringMatch_no_strings (names : list string) (items : list PyObject) :
  items <> [] -> goodones_of items = [] ->
  ListStringMatch names (PyList items)
  = Throw "None of the requested fields are in string form".
Proof.
  intros Hitems Hgood. unfold ListStringMatch, SequenceCheck; simpl.
  replace (Z.of_nat (length items) <=? 0) with false.
  2:{ symmetry; apply Z.leb_gt. destruct items; simpl in *; [done|lia]. }
  by rewrite Nat2Z.id, firstn_all, Hgood.
Qed.

Lemma match_loop_count (names good : list string) :
  (vec_size (match_loop names good 0) =? vec_size names)
  = bool_decide (Forall (fun n => n ∈ good) names).
Proof.
  unfold vec_size. rewrite match_loop_length.
  pose proof (filter_all_Forall good names) as Hall.
  destruct (decide (Forall (fun n => n ∈ good) names)) as [H|H].
  - rewrite bool_decide_eq_true_2 by done. apply Z.eqb_eq. apply Hall in H. lia.
  - rewrite bool_decide_eq_false_2 by done. apply Z.eqb_neq.
    intros Hlen. apply H, Hall. lia.
Qed.

(** The kept fields are all the fields exactly when every schema field is
    requested. *)
Lemma SubDtype_all_fields (d : PyArray_Descr) (f : PyObject) nd ids :
  SubDtype d f = Ok (nd, ids) ->
  (vec_size ids =? vec_size (descr_names d)) = every_field_requested d (Some f).
Proof.
  unfold SubDtype, CopyDescrOrderedNames. intros H. inv_bind H.
  assert (ids = r) as ->.
  { destruct (ExtractSubDescr d _); simpl in H; congruence. }
  clear H. unfold every_field_requested.
  destruct f as [s|n|items| | | | |]; simpl in Hr; try discriminate.
  - rewrite ListStringMatch_names in Hr by (simpl; discriminate). simpl in Hr.
    destruct (decide _) in Hr; [discriminate|]. inversion Hr; subst r.
    simpl. apply match_loop_count.
  - destruct items as [|i items].
    + simpl. unfold ListStringMatch in Hr; simpl in Hr.
      destruct (vec_size (iota (vec_size (descr_names d))) =? 0); [discriminate|].
      inversion Hr; subst r. apply Z.eqb_eq.
      unfold vec_size, iota. rewrite length_seqZ. lia.
    + destruct (goodones_of (i :: items)) eqn:Hgood.
      * rewrite ListStringMatch_no_strings in Hr by done. discriminate.
      * rewrite ListStringMatch_names in Hr by (rewrite Hgood; discriminate).
        destruct (decide _) in Hr; [discriminate|]. inversion Hr; subst r.
        change (requested_names (Some (PyList (i :: items))))
          with (Some (goodones_of (i :: items))).
        cbv iota beta. apply match_loop_count.
Qed.

Lemma strategy_ReadPrepare (P : Platform) (x : Records) :
  mReadWholeFileBinary x = false ->
  mReadWholeRowBinary x = false ->
  strategy (ReadPrepare P x)
  = spec_strategy (bool_decide (mFileType x = BINARY_FILE))
                  (mNrowsToRead x =? mNrows x) (mKeepNfields x =? mNfields x).
Proof.
  intros H1 H2. unfold ReadPrepare, spec_strategy, strategy.
  destruct (bool_decide (mFileType x = BINARY_FILE)),
           (mNrowsToRead x =? mNrows x), (mKeepNfields x =? mNfields x);
    simpl; rewrite ?H1, ?H2; try reflexivity;
    destruct (bool_decide (mFileType x = ASCII_FILE)); simpl;
    by rewrite ?H1, ?H2.
Qed.

Lemma Read_setup_shape (P : Platform) (rows fields : PyObjectPtr)
    (arr : option (list Z)) (d : PyArray_Descr) (nrows : Z) (r r' : Records) :
  opened_for_reading d nrows r ->
  Object2IntpArray rows = Ok arr ->
  Read_setup P rows fields r = Ok r' ->
  exists kd kd' ids knf,
    let r1 := with_kept kd' ids knf
                (set_mNrowsToRead
                   (match arr with None => mNrows r | Some a => vec_size a end)
                   (set_mRowsToRead arr r)) in
    r' = ReadPrepare P
           (set_mData 0
              (set_mReturnObject
                 (replicate (Z.to_nat (mNrowsToRead r1 * descr_elsize kd)) NUL) r1))
    /\ (knf =? mNfields r) = every_field_requested d fields.
Proof.
  intros Hopen Harr Hset.
  rewrite (Read_setup_unfold P rows fields arr d nrows r Hopen Harr) in Hset.
  destruct Hopen as (_ & _ & _ & _ & _ & _ & _ & Hd & _ & Hnf & _).
  inv_bind_as Hset r2 Hr2. inv_bind_as Hset r3 Hr3.
  inversion Hset; subst r'; clear Hset.
  assert (Hcreate : exists kd,
            r3 = set_mData 0
                   (set_mReturnObject
                      (replicate (Z.to_nat (mNrowsToRead r2 * descr_elsize kd)) NUL)
                      r2)).
  { unfold CreateOutputArray in Hr3.
    destruct (mKeepTypeDescr r2) as [kd|]; [|discriminate].
    inversion Hr3. by exists kd. }
  destruct Hcreate as [kd ->]. exists kd.
  destruct fields as [f|].
  - assert (f = Py_None \/ f <> Py_None) as [->|Hf]
      by (destruct f; (by left) || (by right)).
    + rewrite ProcessFieldsToRead_absent in Hr2 by auto.
      inversion Hr2. do 3 eexists. split; [reflexivity|].
      simpl. apply Z.eqb_refl.
    + rewrite (ProcessFieldsToRead_present f d) in Hr2 by done.
      inv_bind_as Hr2 res Hres. destruct res as [nd ids]. inversion Hr2.
      do 3 eexists. split; [reflexivity|].
      simpl. rewrite Hnf. by apply (SubDtype_all_fields d f nd ids).
  - rewrite ProcessFieldsToRead_absent in Hr2 by auto.
    inversion Hr2. do 3 eexists. split; [reflexivity|].
    simpl. apply Z.eqb_refl.
Qed.

Lemma ReadPrepare_rows (P : Platform) (x : Records) :
  mRowsToRead (ReadPrepare P x) = mRowsToRead x
  /\ mNrowsToRead (ReadPrepare P x) = mNrowsToRead x
  /\ mNrows (ReadPrepare P x) = mNrows x
  /\ mFileType (ReadPrepare P x) = mFileType x
  /\ mReturnObject (ReadPrepare P x) = mReturnObject x.
Proof.
  unfold ReadPrepare.
  repeat match goal with |- context [if ?b then _ else _] => destruct b end;
    repeat split.
Qed.

(** ** The two bulk reads *)

Lemma to_int_small (n : Z) : 0 <= n < 2 ^ 31 -> to_int n = n.
Proof. intros H. unfold to_int. rewrite Z.mod_small by lia. lia. Qed.

Lemma fread_enough (size nmemb : Z) (f : FILE) :
  freadable f = true -> 0 < size -> 0 < nmemb ->
  size * nmemb <= Z.of_nat (length (unread f)) ->
  fread size nmemb f
  = (take (Z.to_nat (size * nmemb)) (unread f), nmemb, advance (size * nmemb) f).
Proof.
  intros Hr Hs Hn Hlen. unfold fread. rewrite Hr.
  replace (0 <? size) with true by (symmetry; apply Z.ltb_lt; lia).
  replace (0 <? nmemb) with true by (symmetry; apply Z.ltb_lt; lia).
  cbn [andb]. rewrite length_take.
  replace (Z.of_nat (Z.to_nat (size * nmemb) `min` length (unread f)))
    with (nmemb * size) by nia.
  rewrite Z.div_mul by lia. do 2 f_equal. lia.
Qed.

(** The whole-file strategy: one [fread] takes [mNrows * mRowSize] bytes from
    the file into the array. *)
Lemma ReadAllAsBinary_whole_file (r : Records) :
  freadable (fptr r) = true ->
  0 < mRowSize r -> 0 < mNrows r < 2 ^ 31 ->
  mRowSize r * mNrows r <= Z.of_nat (length (unread (fptr r))) ->
  exists r',
    ReadAllAsBinary r = Ok r'
    /\ fpos (fptr r') = fpos (fptr r) + mRowSize r * mNrows r
    /\ mReturnObject r'
       = store (mReturnObject r) (mData r)
               (take (Z.to_nat (mRowSize r * mNrows r)) (unread (fptr r))).
Proof.
  intros Hr Hs Hn Hlen. unfold ReadAllAsBinary.
  rewrite fread_enough by (done || lia). rewrite to_int_small by lia.
  rewrite Z.eqb_refl. eexists. split; [reflexivity|]. by destruct r.
Qed.

(** The whole-row strategy: one [fread] takes the [mRowSize] bytes of a row
    and the data pointer moves on by as much. *)
Lemma ReadWholeRowBinary_block (r : Records) :
  freadable (fptr r) = true ->
  0 < mRowSize r ->
  mRowSize r <= Z.of_nat (length (unread (fptr r))) ->
  exists r',
    ReadWholeRowBinary r = Ok r'
    /\ fpos (fptr r') = fpos (fptr r) + mRowSize r
    /\ mData r' = mData r + mRowSize r
    /\ mReturnObject r'
       = store (mReturnObject r) (mData r)
               (take (Z.to_nat (mRowSize r)) (unread (fptr r))).
Proof.
  intros Hr Hs Hlen. unfold ReadWholeRowBinary.
  rewrite fread_enough by (done || lia). rewrite to_int_small by lia.
  rewrite Z.eqb_refl, Z.mul_1_r. eexists. split; [reflexivity|]. by destruct r.
Qed.

(** ** Row selection *)

Lemma ReadPrepare_not_whole_file (P : Platform) (x : Records) :
  mReadWholeFileBinary x = false ->
  (mNrowsToRead x =? mNrows x) = false ->
  mReadWholeFileBinary (ReadPrepare P x) = false.
Proof.
  intros Hflag Hrows. unfold ReadPrepare. rewrite Hrows, andb_false_r.
  cbn [andb].
  repeat match goal with |- context [if ?b then _ else _] => destruct b end;
    simpl; exact Hflag.
Qed.




(** ** Writing to a stream positioned at its end *)

Lemma store_at_end (buf bs : list ascii) :
  store buf (Z.of_nat (length buf)) bs = buf ++ bs.
Proof.
  destruct bs as [|b bs]; [by rewrite app_nil_r|].
  unfold store. rewrite Nat2Z.id, firstn_all, Nat.sub_diag. simpl.
  rewrite drop_ge by lia. by rewrite app_nil_r.
Qed.

Lemma at_end_spec (f : FILE) :
  at_end f = true <-> fwritable f = true /\ fpos f = Z.of_nat (length (fdata f)).
Proof.
  unfold at_end. rewrite andb_true_iff, Z.eqb_eq. tauto.
Qed.

Lemma at_end_emit (bs : list ascii) (f : FILE) :
  at_end f = true -> at_end (emit bs f) = true.
Proof.
  rewrite !at_end_spec. intros [_ Hpos]. simpl. split; [done|].
  rewrite length_app. lia.
Qed.

Lemma emit_nil (f : FILE) : at_end f = true -> emit [] f = f.
Proof.
  rewrite at_end_spec. intros [Hw _]. destruct f as [dat pos rd wr].
  simpl in Hw. subst wr. unfold emit; simpl. by rewrite app_nil_r, Z.add_0_r.
Qed.

Lemma emit_emit (a b : list ascii) (f : FILE) :
  emit b (emit a f) = emit (a ++ b) f.
Proof.
  unfold emit; simpl. rewrite <- app_assoc, length_app. f_equal. lia.
Qed.

Lemma fputs_at_end (bs : list ascii) (f : FILE) :
  at_end f = true -> fputs bs f = (Z.of_nat (length bs), emit bs f).
Proof.
  rewrite at_end_spec. intros [Hw Hpos]. unfold fputs, emit.
  by rewrite Hw, Hpos, store_at_end.
Qed.

Lemma fputc_at_end (c : ascii) (f : FILE) :
  at_end f = true -> fputc c f = (byte_val c, emit [c] f).
Proof.
  rewrite at_end_spec. intros [Hw Hpos]. unfold fputc, emit.
  by rewrite Hw, Hpos, store_at_end.
Qed.

Lemma byte_val_not_EOF (c : ascii) : (byte_val c =? EOF) = false.
Proof. apply Z.eqb_neq. unfold byte_val, EOF. lia. Qed.

Lemma bytes_at_S (buf : list ascii) (off : Z) (n : nat) :
  bytes_at buf off (S n) = byte_at buf off :: bytes_at buf (off + 1) n.
Proof.
  unfold bytes_at. simpl. rewrite Z.add_0_r. f_equal.
  rewrite <- seq_shift, map_map. apply map_ext. intros i. f_equal. lia.
Qed.

(** The loop of [WriteStringAsAscii] appends what the specification
    describes. *)
Lemma WriteStringAsAscii_loop_spec (n : nat) (padnull ignorenull : bool)
    (buf : list ascii) (off : Z) (f : FILE) :
  at_end f = true ->
  WriteStringAsAscii_loop n padnull ignorenull buf off f
  = Some (emit (spec_string_output padnull ignorenull (bytes_at buf off n)) f).
Proof.
  revert off f; induction n as [|n IH]; intros off f Hend.
  - simpl. unfold spec_string_output, bytes_at; simpl.
    destruct ignorenull, padnull; by rewrite emit_nil.
  - rewrite bytes_at_S. cbn [WriteStringAsAscii_loop].
    destruct (decide (byte_at buf off = NUL)) as [Hc|Hc].
    + destruct ignorenull.
      * unfold spec_string_output; simpl. rewrite Hc.
        destruct (decide (NUL = NUL)); [|done]. by rewrite emit_nil.
      * rewrite fputc_at_end by done. rewrite byte_val_not_EOF.
        rewrite IH by (by apply at_end_emit). rewrite emit_emit. f_equal. f_equal.
        unfold spec_string_output. destruct padnull; simpl.
        -- rewrite Hc. by destruct (decide (NUL = NUL)).
        -- done.
    + rewrite fputc_at_end by done. rewrite byte_val_not_EOF.
      rewrite IH by (by apply at_end_emit). rewrite emit_emit. f_equal. f_equal.
      unfold spec_string_output. destruct ignorenull; simpl.
      * by destruct (decide (byte_at buf off = NUL)).
      * destruct padnull; simpl; [|done].
        by destruct (decide (byte_at buf off = NUL)).
Qed.

Lemma before_nul_prefix (bytes : list ascii) :
  exists rest,
    bytes = before_nul bytes ++ rest
    /\ (NUL ∉ before_nul bytes)
    /\ (rest = [] \/ exists rest', rest = NUL :: rest').
Proof.
  induction bytes as [|c bytes (rest & Heq & Hnot & Hrest)]; simpl.
  - exists []. split; [done|]. split; [apply not_elem_of_nil|by left].
  - destruct (decide (c = NUL)) as [->|Hc].
    + exists (NUL :: bytes). split; [done|]. split; [apply not_elem_of_nil|].
      right; eauto.
    + exists rest. split; [simpl; by rewrite <- Heq|]. split; [|done].
      intros Hin. apply elem_of_cons in Hin as [Hin|Hin]; [by subst c|done].
Qed.

(** C6.  A byte-string element written in ASCII mode is appended to the
    output as follows.  With ignore-nulls enabled the characters before the
    first null byte are written and nothing after it.  Otherwise every
    character is written, a null byte as a space when pad-nulls is enabled and
    as it is when neither option is. *)
Theorem string_null_handling (fnum : Z) (r : Records) :
  at_end (fptr r) = true ->
  let bytes := bytes_at (mReturnObject r) (mData r) (Z.to_nat (field_elsize r fnum)) in
  exists r' out,
    WriteStringAsAscii fnum r = Ok r'
    /\ fdata (fptr r') = fdata (fptr r) ++ out
    /\ (mIgnoreNull r = true ->
          (NUL ∉ out)
          /\ exists rest, bytes = out ++ rest
                          /\ (rest = [] \/ exists rest', rest = NUL :: rest'))
    /\ (mIgnoreNull r = false -> mPadNull r = true ->
          out = map (fun c => if decide (c = NUL) then SPACE else c) bytes)
    /\ (mIgnoreNull r = false -> mPadNull r = false -> out = bytes).
Proof.
  intros Hend bytes. unfold WriteStringAsAscii.
  rewrite WriteStringAsAscii_loop_spec by done.
  eexists; eexists. split; [reflexivity|].
  split; [reflexivity|]. fold (field_elsize r fnum). fold bytes.
  unfold spec_string_output. repeat split.
  - rewrite H. by destruct (before_nul_prefix bytes) as (rest & _ & Hnot & _).
  - rewrite H. destruct (before_nul_prefix bytes) as (rest & Heq & _ & Hrest).
    eauto.
  - intros -> ->. reflexivity.
  - intros -> ->. reflexivity.
Qed.

(** Writing [ab\0\0cd]: with pad-nulls the output is [ab  cd], with
    ignore-nulls it is [ab]. *)
Lemma string_null_handling_witness :
  (exists r', WriteStringAsAscii 0 (string_writer true false ab00cd) = Ok r'
              /\ fdata (fptr r') = chars "ab  cd")
  /\ (exists r', WriteStringAsAscii 0 (string_writer false true ab00cd) = Ok r'
                 /\ fdata (fptr r') = chars "ab")
  /\ (exists r', WriteStringAsAscii 0 (string_writer true true ab00cd) = Ok r'
                 /\ fdata (fptr r') = chars "ab")
  /\ (exists r', WriteStringAsAscii 0 (string_writer false false ab00cd) = Ok r'
                 /\ fdata (fptr r') = ab00cd).
Proof.
  split; [|split; [|split]].
  - destruct (string_null_handling 0 (string_writer true false ab00cd) eq_refl)
      as (r' & out & Hw & Hdata & _ & Hpad & _).
    exists r'. split; [exact Hw|]. rewrite Hdata, (Hpad eq_refl eq_refl).
    reflexivity.
  - destruct (string_null_handling 0 (string_writer false true ab00cd) eq_refl)
      as (r' & out & Hw & Hdata & _).
    exists r'. split; [exact Hw|].
    vm_compute in Hw. inversion Hw; subst r'. reflexivity.
  - destruct (string_null_handling 0 (string_writer true true ab00cd) eq_refl)
      as (r' & out & Hw & Hdata & _).
    exists r'. split; [exact Hw|].
    vm_compute in Hw. inversion Hw; subst r'. reflexivity.
  - destruct (string_null_handling 0 (string_writer false false ab00cd) eq_refl)
      as (r' & out & Hw & Hdata & _ & _ & Hraw).
    exists r'. split; [exact Hw|]. rewrite Hdata, (Hraw eq_refl eq_refl).
    reflexivity.
Defined.

(** ** Writing a row as ASCII *)

Lemma at_end_fptr (r : Records) :
  at_end (fptr r) = true -> r = upd (fptr r) (mData r) r.
Proof.
  unfold fptr. destruct r as [[f|]]; simpl; [reflexivity|discriminate].
Qed.

Lemma WriteField_spec (P : Platform) (fnum : Z) (f : FILE) (off : Z) (r0 : Records) :
  at_end f = true ->
  writable_field P r0 fnum = true ->
  WriteField P fnum (upd f off r0)
  = Ok (upd (emit (element_text P r0 fnum off ++ delim_after r0 fnum) f) off r0).
Proof.
  intros Hend Hw. unfold WriteField, element_text, delim_after, writable_field in *.
  destruct r0; cbn -[fputs fputc emit WriteStringAsAscii_loop] in *.
  destruct (at_Z mTypeNums0 fnum =? NPY_STRING) eqn:Hty.
  - unfold WriteStringAsAscii; cbn -[fputs fputc emit WriteStringAsAscii_loop].
    rewrite WriteStringAsAscii_loop_spec by done.
    cbn -[fputs fputc emit WriteStringAsAscii_loop].
    destruct (fnum <? mNfields0 - 1); cbn -[fputs fputc emit].
    + rewrite fputs_at_end by (by apply at_end_emit). cbn -[emit].
      by rewrite emit_emit.
    + by rewrite app_nil_r.
  - cbn in Hw. apply bool_decide_eq_true in Hw.
    unfold WriteNumberAsAscii; cbn -[fputs fputc emit].
    rewrite fputs_at_end by done.
    destruct (decide _) as [_|Hn]; [|done].
    match goal with
    | |- context [Z.of_nat ?n <? 0] =>
        replace (Z.of_nat n <? 0) with false by (symmetry; apply Z.ltb_ge; lia)
    end.
    cbn -[fputs fputc emit]. destruct (fnum <? mNfields0 - 1); cbn -[fputs fputc emit].
    + rewrite fputs_at_end by (by apply at_end_emit). cbn -[emit].
      by rewrite emit_emit.
    + by rewrite app_nil_r.
Qed.

Lemma WriteRows_els_spec (P : Platform) (n : nat) (fnum elsize : Z) (f : FILE)
    (off : Z) (r0 : Records) :
  at_end f = true ->
  writable_field P r0 fnum = true ->
  WriteRows_els P n fnum elsize (upd f off r0)
  = Ok (upd (emit (concat (map (fun t => t ++ delim_after r0 fnum)
                               (field_elements P r0 fnum n off elsize))) f)
            (off + Z.of_nat n * elsize) r0).
Proof.
  intros Hend Hw. revert f off Hend; induction n as [|n IH]; intros f off Hend.
  - cbn. rewrite emit_nil by done. by rewrite Z.add_0_r.
  - cbn [WriteRows_els]. rewrite WriteField_spec by done. cbn [rbind].
    replace (set_mData _ _)
      with (upd (emit (element_text P r0 fnum off ++ delim_after r0 fnum) f)
                (off + elsize) r0) by (by destruct r0).
    rewrite IH by (by apply at_end_emit).
    rewrite emit_emit. cbn [field_elements map concat].
    f_equal. f_equal. lia.
Qed.

Lemma WriteRows_fields_spec (P : Platform) (fnums : list Z) (f : FILE) (off : Z)
    (r0 : Records) :
  at_end f = true ->
  forallb (writable_field P r0) fnums = true ->
  WriteRows_fields P fnums (upd f off r0)
  = Ok (upd (emit (row_output P r0 fnums off) f) (off + fields_span r0 fnums) r0).
Proof.
  revert f off; induction fnums as [|fnum rest IH]; intros f off Hend Hall.
  - cbn. rewrite emit_nil by done. by rewrite Z.add_0_r.
  - cbn in Hall. apply andb_true_iff in Hall as [Hw Hall].
    cbn [WriteRows_fields].
    replace (at_Z (mNel (upd f off r0)) fnum) with (at_Z (mNel r0) fnum)
      by (by destruct r0).
    replace (at_Z (mSizes (upd f off r0)) fnum) with (at_Z (mSizes r0) fnum)
      by (by destruct r0).
    rewrite WriteRows_els_spec by done. cbn [rbind].
    rewrite IH by (done || by apply at_end_emit).
    rewrite emit_emit. cbn [row_output fields_span].
    unfold field_nel, field_elsize. f_equal. f_equal. lia.
Qed.

Lemma join_snoc (sep : list ascii) (items : list (list ascii)) (x : list ascii) :
  join sep (items ++ [x]) = concat (map (fun t => t ++ sep) items) ++ x.
Proof.
  induction items as [|a items IH]; [done|].
  change ((a :: items) ++ [x]) with (a :: (items ++ [x])).
  cbn [map concat]. rewrite <- !app_assoc, <- IH.
  destruct items; reflexivity.
Qed.

Lemma row_elements_app (P : Platform) (r : Records) (l1 l2 : list Z) (off : Z) :
  row_elements P r (l1 ++ l2) off
  = row_elements P r l1 off ++ row_elements P r l2 (off + fields_span r l1).
Proof.
  revert off; induction l1 as [|fnum l1 IH]; intros off; cbn.
  - by rewrite Z.add_0_r.
  - rewrite IH, <- app_assoc. do 3 f_equal. lia.
Qed.

Lemma row_output_app (P : Platform) (r : Records) (l1 l2 : list Z) (off : Z) :
  row_output P r (l1 ++ l2) off
  = row_output P r l1 off ++ row_output P r l2 (off + fields_span r l1).
Proof.
  revert off; induction l1 as [|fnum l1 IH]; intros off; cbn.
  - by rewrite Z.add_0_r.
  - rewrite IH, <- app_assoc. do 3 f_equal. lia.
Qed.

(** Before the last field every element is followed by the delimiter. *)
Lemma row_output_inner (P : Platform) (r : Records) (l : list Z) (off : Z) :
  Forall (fun fnum => fnum < mNfields r - 1) l ->
  row_output P r l off
  = concat (map (fun t => t ++ chars (mDelim r)) (row_elements P r l off)).
Proof.
  intros Hall; revert off; induction Hall as [|fnum l Hlt _ IH]; intros off; [done|].
  cbn. rewrite map_app, concat_app, IH. f_equal.
  unfold delim_after. by replace (fnum <? mNfields r - 1) with true
    by (symmetry; apply Z.ltb_lt; lia).
Qed.

Lemma iota_snoc (n : Z) : 1 <= n -> iota n = iota (n - 1) ++ [n - 1].
Proof.
  intros Hn. unfold iota.
  replace n with ((n - 1) + 1) at 1 by lia.
  rewrite seqZ_app by lia. f_equal.
Qed.

(** C4 (amended).  Writing a row as ASCII appends the texts of all elements
    of all fields in schema order, with the delimiter string between
    consecutive elements and none after the last one, then a single newline;
    here the last field of the row holds one element. *)
Theorem ascii_row_delimiters (P : Platform) (r : Records) :
  at_end (fptr r) = true ->
  1 <= mNfields r ->
  forallb (writable_field P r) (iota (mNfields r)) = true ->
  field_nel r (mNfields r - 1) = 1%nat ->
  exists r',
    WriteRows_row P r = Ok r'
    /\ fdata (fptr r')
       = fdata (fptr r)
         ++ join (chars (mDelim r))
                 (row_elements P r (iota (mNfields r)) (mData r))
         ++ [NEWLINE].
Proof.
  intros Hend Hnf Hall Hlast. unfold WriteRows_row.
  pose proof (at_end_fptr r Hend) as Hr.
  replace (WriteRows_fields P (iota (mNfields r)) r)
    with (WriteRows_fields P (iota (mNfields r)) (upd (fptr r) (mData r) r))
    by (by rewrite <- Hr).
  rewrite WriteRows_fields_spec by done. cbn [rbind].
  eexists. split; [reflexivity|].
  replace (fptr (upd _ _ r)) with (emit (row_output P r (iota (mNfields r)) (mData r)) (fptr r))
    by (by destruct r).
  rewrite fputc_at_end by (by apply at_end_emit).
  replace (fptr (set_mFptr _ _)) with
    (emit [NEWLINE] (emit (row_output P r (iota (mNfields r)) (mData r)) (fptr r)))
    by (by destruct r).
  cbn [emit fdata]. rewrite <- app_assoc. do 2 f_equal.
  rewrite (iota_snoc (mNfields r)) by done.
  rewrite row_output_app, row_elements_app.
  rewrite row_output_inner.
  2:{ apply Forall_forall. intros x Hx. unfold iota in Hx.
      apply elem_of_seqZ in Hx. lia. }
  cbn [row_output row_elements]. rewrite Hlast. cbn [field_elements map concat].
  rewrite !app_nil_r. unfold delim_after.
  rewrite Z.ltb_irrefl. rewrite app_nil_r.
  symmetry. apply join_snoc.
Qed.

(** A record with the two-element field [x] = (a, b) and the field [y] = c
    is written as [a,b,c] and a newline. *)
Lemma ascii_row_delimiters_witness :
  exists r',
    WriteRows_row linux_x86_64 (ascii_writer xy_descr (chars "abc")) = Ok r'
    /\ fdata (fptr r') = chars "a,b,c" ++ [NEWLINE].
Proof.
  destruct (ascii_row_delimiters linux_x86_64 (ascii_writer xy_descr (chars "abc")))
    as (r' & Hw & Hdata); [reflexivity | vm_compute; discriminate
                          | reflexivity | reflexivity | ].
  exists r'. split; [exact Hw|]. rewrite Hdata. reflexivity.
Defined.

(** C4, as stated, fails: the delimiter is not confined to field boundaries.
    The record above has two fields, and its row carries two delimiters, one
    of them between the two elements of [x]. *)
Lemma delimiter_inside_a_field :
  exists r',
    Write linux_x86_64 (PyArray xy_descr 1 (chars "abc")) false false comma_writer
      = Ok r'
    /\ fdata (fptr r') = chars "a,b,c" ++ [NEWLINE]
    /\ spec_row_text linux_x86_64 (ascii_writer xy_descr (chars "abc"))
       = chars "ab,c" ++ [NEWLINE]
    /\ fdata (fptr r')
       <> spec_row_text linux_x86_64 (ascii_writer xy_descr (chars "abc")).
Proof.
  eexists. split; [vm_compute; reflexivity|].
  split; [reflexivity|]. split; [reflexivity|]. discriminate.
Qed.

Lemma Write_enters_rows :
  Write linux_x86_64 (PyArray xy_descr 1 (chars "abc")) false false comma_writer
  = WriteRows_loop linux_x86_64 1 (ascii_writer xy_descr (chars "abc")).
Proof. vm_compute. reflexivity. Qed.

(** ** Characters read with [fgetc] *)

Lemma byte_val_range (b : ascii) : 0 <= byte_val b < 256.
Proof.
  unfold byte_val. pose proof (N_ascii_bounded b) as H. lia.
Qed.

Lemma byte_val_inj (a b : ascii) : byte_val a = byte_val b -> a = b.
Proof.
  unfold byte_val. intros H. apply N2Z.inj in H.
  rewrite <- (ascii_N_embedding a), <- (ascii_N_embedding b). by rewrite H.
Qed.

Lemma to_char_small (v : Z) : 0 <= v < 128 -> to_char v = v.
Proof. intros H. unfold to_char. rewrite Z.mod_small by lia. lia. Qed.

Lemma to_char_large (v : Z) : 128 <= v < 256 -> to_char v = v - 256.
Proof.
  intros H. unfold to_char.
  replace (v + 128) with (v - 128 + 1 * 256) by lia.
  rewrite Z_mod_plus_full, Z.mod_small by lia. lia.
Qed.

(** [c == EOF] holds of the byte 255 and of no other byte. *)
Lemma to_char_EOF (b : ascii) :
  (to_char (byte_val b) =? EOF) = negb (plain_byte b).
Proof.
  unfold plain_byte. rewrite negb_involutive.
  pose proof (byte_val_range b) as Hr. unfold EOF.
  destruct (Z_lt_dec (byte_val b) 128).
  - rewrite to_char_small by lia.
    transitivity false; [apply Z.eqb_neq; lia|symmetry; apply Z.eqb_neq; lia].
  - rewrite to_char_large by lia.
    destruct (Z.eq_dec (byte_val b) 255) as [->|Hne]; [reflexivity|].
    transitivity false; [apply Z.eqb_neq; lia|symmetry; apply Z.eqb_neq; lia].
Qed.

Lemma to_char_newline (b : ascii) :
  (to_char (byte_val b) =? byte_val NEWLINE) = bool_decide (b = NEWLINE).
Proof.
  pose proof (byte_val_range b) as Hr.
  change (byte_val NEWLINE) with 10.
  destruct (decide (b = NEWLINE)) as [->|Hne].
  - rewrite bool_decide_eq_true_2 by done. reflexivity.
  - rewrite bool_decide_eq_false_2 by done. apply Z.eqb_neq. intros Heq.
    apply Hne, byte_val_inj. change (byte_val NEWLINE) with 10.
    destruct (Z_lt_dec (byte_val b) 128).
    + rewrite to_char_small in Heq by lia. exact Heq.
    + rewrite to_char_large in Heq by lia. lia.
Qed.

(** ** Skipping rows *)

Lemma SkipAsciiRows_loop_done (input : list ascii) (nlines nskip consumed : Z) :
  nskip <= nlines -> SkipAsciiRows_loop input nlines nskip consumed = Some consumed.
Proof.
  intros H. destruct input; simpl;
    by replace (nlines <? nskip) with false by (symmetry; apply Z.ltb_ge; lia).
Qed.

Lemma newlines_cons (b : ascii) (l : list ascii) :
  newlines (b :: l) = (if decide (b = NEWLINE) then 1 else 0) + newlines l.
Proof.
  unfold newlines. rewrite filter_cons.
  destruct (decide (b = NEWLINE)); simpl; lia.
Qed.

Lemma newlines_nonneg (l : list ascii) : 0 <= newlines l.
Proof. unfold newlines. lia. Qed.

(** The loop stops right after the newline that completes the count. *)
Lemma SkipAsciiRows_loop_counts (body rest : list ascii) (nlines nskip consumed : Z) :
  Forall (fun b => plain_byte b = true) body ->
  nlines + newlines body = nskip - 1 ->
  SkipAsciiRows_loop (body ++ NEWLINE :: rest) nlines nskip consumed
  = Some (consumed + Z.of_nat (length body) + 1).
Proof.
  intros Hplain; revert nlines consumed.
  induction Hplain as [|b body Hb _ IH]; intros nlines consumed Hcount.
  - change (newlines []) with 0 in Hcount. simpl.
    replace (nlines <? nskip) with true by (symmetry; apply Z.ltb_lt; lia).
    rewrite SkipAsciiRows_loop_done by lia. f_equal. lia.
  - rewrite newlines_cons in Hcount. pose proof (newlines_nonneg body) as Hnn.
    cbn [app SkipAsciiRows_loop].
    replace (nlines <? nskip) with true
      by (symmetry; apply Z.ltb_lt; destruct (decide (b = NEWLINE)); lia).
    rewrite to_char_EOF, Hb. cbn [negb]. rewrite to_char_newline.
    destruct (decide (b = NEWLINE)) as [Hnl|Hnl].
    + rewrite bool_decide_eq_true_2 by done. rewrite IH by lia.
      f_equal. cbn [length]. lia.
    + rewrite bool_decide_eq_false_2 by done. rewrite IH by lia.
      f_equal. cbn [length]. lia.
Qed.

(** With too few newlines left the loop runs into the end of the input. *)
Lemma SkipAsciiRows_loop_eof (input : list ascii) (nlines nskip consumed : Z) :
  nlines + newlines input < nskip ->
  SkipAsciiRows_loop input nlines nskip consumed = None.
Proof.
  revert nlines consumed; induction input as [|b input IH];
    intros nlines consumed Hcount.
  - change (newlines []) with 0 in Hcount. simpl.
    by replace (nlines <? nskip) with true by (symmetry; apply Z.ltb_lt; lia).
  - rewrite newlines_cons in Hcount. pose proof (newlines_nonneg input) as Hnn.
    cbn [SkipAsciiRows_loop].
    replace (nlines <? nskip) with true
      by (symmetry; apply Z.ltb_lt; destruct (decide (b = NEWLINE)); lia).
    destruct (to_char (byte_val b) =? EOF); [reflexivity|].
    rewrite to_char_newline.
    destruct (decide (b = NEWLINE)) as [Hnl|Hnl].
    + rewrite bool_decide_eq_true_2 by done. apply IH. lia.
    + rewrite bool_decide_eq_false_2 by done. apply IH. lia.
Qed.

Lemma unread_advance (n : nat) (f : FILE) :
  0 <= fpos f -> unread (advance (Z.of_nat n) f) = drop n (unread f).
Proof.
  intros Hpos. unfold unread, advance; simpl.
  rewrite drop_drop. f_equal. lia.
Qed.

(** C7.  Skipping [k] rows seeks forward [rowSize * k] bytes on a binary
    file.  On an ASCII file, in whitespace mode or not, it consumes the input
    up to and including the [k]-th newline, and fails with the end-of-file
    error when fewer than [k] newlines are left.  The skipped text is plain
    ASCII text (it holds no byte 255). *)
Theorem skip_rows (r : Records) (current_row k : Z) :
  0 < k ->
  0 <= fpos (fptr r) ->
  (mFileType r = BINARY_FILE -> 0 <= mRowSize r ->
     exists r',
       SkipRows current_row (current_row + k) r = Ok r'
       /\ fdata (fptr r') = fdata (fptr r)
       /\ fpos (fptr r') = fpos (fptr r) + mRowSize r * k)
  /\ (mFileType r = ASCII_FILE -> freadable (fptr r) = true ->
      forall body rest,
        unread (fptr r) = body ++ NEWLINE :: rest ->
        newlines body = k - 1 ->
        Forall (fun b => plain_byte b = true) body ->
        exists r',
          SkipRows current_row (current_row + k) r = Ok r'
          /\ fdata (fptr r') = fdata (fptr r)
          /\ fpos (fptr r') = fpos (fptr r) + Z.of_nat (length body) + 1
          /\ unread (fptr r') = rest)
  /\ (mFileType r = ASCII_FILE ->
      newlines (unread (fptr r)) < k ->
      SkipRows current_row (current_row + k) r = Throw "Reached EOF prematurely").
Proof.
  intros Hk Hpos.
  assert (Hskip : current_row + k - current_row = k) by lia.
  split; [|split].
  - intros Hbin Hsize. unfold SkipRows. rewrite Hbin.
    rewrite bool_decide_eq_true_2 by done. rewrite Hskip.
    unfold SkipBinaryRows, fseeko.
    replace (0 <? k) with true by (symmetry; apply Z.ltb_lt; lia).
    replace (fpos (fptr r) + mRowSize r * k <? 0) with false
      by (symmetry; apply Z.ltb_ge; nia).
    cbn [Z.eqb]. eexists. split; [reflexivity|].
    replace (fptr (set_mFptr _ r)) with (advance (mRowSize r * k) (fptr r))
      by (by destruct r).
    split; reflexivity.
  - intros Hasc Hread body rest Hunread Hcount Hplain.
    unfold SkipRows. rewrite Hasc.
    rewrite bool_decide_eq_false_2 by done.
    assert (Hboth : (if mReadAsWhitespace r
                     then current_row + k - current_row
                     else current_row + k - current_row) = k)
      by (by destruct (mReadAsWhitespace r)).
    rewrite Hboth. unfold SkipAsciiRows.
    replace (0 <? k) with true by (symmetry; apply Z.ltb_lt; lia).
    rewrite Hread, Hunread.
    rewrite SkipAsciiRows_loop_counts by (done || lia).
    eexists. split; [reflexivity|].
    replace (fptr (set_mFptr _ r))
      with (advance (0 + Z.of_nat (length body) + 1) (fptr r)) by (by destruct r).
    split; [reflexivity|]. split; [simpl; lia|].
    replace (0 + Z.of_nat (length body) + 1) with (Z.of_nat (S (length body))) by lia.
    rewrite unread_advance by done. rewrite Hunread.
    replace (S (length body)) with (length (body ++ [NEWLINE]))
      by (rewrite length_app; simpl; lia).
    replace (body ++ NEWLINE :: rest) with ((body ++ [NEWLINE]) ++ rest)
      by (by rewrite <- app_assoc).
    apply drop_app_length.
  - intros Hasc Hcount. unfold SkipRows. rewrite Hasc.
    rewrite bool_decide_eq_false_2 by done.
    assert (Hboth : (if mReadAsWhitespace r
                     then current_row + k - current_row
                     else current_row + k - current_row) = k)
      by (by destruct (mReadAsWhitespace r)).
    rewrite Hboth. unfold SkipAsciiRows.
    replace (0 <? k) with true by (symmetry; apply Z.ltb_lt; lia).
    rewrite SkipAsciiRows_loop_eof by lia.
    by destruct (freadable (fptr r)).
Qed.

(** Skipping two rows: six bytes of the binary file [abcdefghi]; twelve
    characters of three comma-separated or blank-separated rows; with a single
    row left the end of the file is reached. *)
Lemma skip_rows_witness :
  (exists r', SkipRows 0 2 (binary_skipper "abcdefghi") = Ok r'
              /\ fpos (fptr r') = 6)
  /\ (exists r', SkipRows 0 2 (ascii_skipper false (three_rows ",")) = Ok r'
                 /\ fpos (fptr r') = 12
                 /\ unread (fptr r') = chars (text_row "," "g" "h" "i"))
  /\ (exists r', SkipRows 0 2 (ascii_skipper true (three_rows " ")) = Ok r'
                 /\ fpos (fptr r') = 12
                 /\ unread (fptr r') = chars (text_row " " "g" "h" "i"))
  /\ SkipRows 0 2 (ascii_skipper false (text_row "," "a" "b" "c"))
     = Throw "Reached EOF prematurely".
Proof.
  split; [|split; [|split]].
  - destruct (skip_rows (binary_skipper "abcdefghi") 0 2) as (Hbin & _);
      [lia | vm_compute; discriminate | ].
    destruct Hbin as (r' & Hs & _ & Hpos); [reflexivity | vm_compute; discriminate | ].
    exists r'. split; [exact Hs|]. rewrite Hpos. reflexivity.
  - destruct (skip_rows (ascii_skipper false (three_rows ",")) 0 2) as (_ & Hasc & _);
      [lia | vm_compute; discriminate | ].
    destruct (Hasc eq_refl eq_refl
                (chars (text_row "," "a" "b" "c") ++ chars "d,e,f")
                (chars (text_row "," "g" "h" "i")))
      as (r' & Hs & _ & Hpos & Hrest);
      [reflexivity | reflexivity | by repeat constructor | ].
    exists r'. split; [exact Hs|]. split; [rewrite Hpos; reflexivity|exact Hrest].
  - destruct (skip_rows (ascii_skipper true (three_rows " ")) 0 2) as (_ & Hasc & _);
      [lia | vm_compute; discriminate | ].
    destruct (Hasc eq_refl eq_refl
                (chars (text_row " " "a" "b" "c") ++ chars "d e f")
                (chars (text_row " " "g" "h" "i")))
      as (r' & Hs & _ & Hpos & Hrest);
      [reflexivity | reflexivity | by repeat constructor | ].
    exists r'. split; [exact Hs|]. split; [rewrite Hpos; reflexivity|exact Hrest].
  - destruct (skip_rows (ascii_skipper false (text_row "," "a" "b" "c")) 0 2)
      as (_ & _ & Heof); [lia | vm_compute; discriminate | ].
    apply Heof; [reflexivity | vm_compute; reflexivity].
Defined.

(** ** Reading byte strings from ASCII input *)

Lemma advance_0 (f : FILE) : advance 0 f = f.
Proof. destruct f; unfold advance; simpl. by rewrite Z.add_0_r. Qed.

Lemma advance_advance (a b : Z) (f : FILE) :
  advance b (advance a f) = advance (a + b) f.
Proof. unfold advance; simpl. f_equal. lia. Qed.

Lemma fgetc_cons (f : FILE) (c : ascii) (rest : list ascii) :
  freadable f = true -> 0 <= fpos f -> unread f = c :: rest ->
  fgetc f = (byte_val c, advance 1 f) /\ unread (advance 1 f) = rest.
Proof.
  intros Hr Hpos Hun. unfold fgetc. rewrite Hr, Hun. split; [done|].
  pose proof (unread_advance 1 f Hpos) as H1.
  change (Z.of_nat 1) with 1 in H1. rewrite H1, Hun. reflexivity.
Qed.

Lemma fgetc_nil (f : FILE) : unread f = [] -> fgetc f = (EOF, f).
Proof. intros Hun. unfold fgetc. rewrite Hun. by destruct (freadable f). Qed.

Lemma char_byte_to_char (c : ascii) : char_byte (to_char (byte_val c)) = c.
Proof.
  pose proof (byte_val_range c) as Hr. unfold char_byte.
  assert (Hmod : to_char (byte_val c) mod 256 = byte_val c).
  { destruct (Z_lt_dec (byte_val c) 128).
    - rewrite to_char_small by lia. apply Z.mod_small; lia.
    - rewrite to_char_large by lia.
      replace (byte_val c - 256) with (byte_val c + (-1) * 256) by lia.
      rewrite Z_mod_plus_full. apply Z.mod_small; lia. }
  rewrite Hmod. unfold byte_val. rewrite N2Z.id. apply ascii_N_embedding.
Qed.

Lemma store_app (buf : list ascii) (off : Z) (a b : list ascii) :
  0 <= off ->
  store (store buf off a) (off + Z.of_nat (length a)) b = store buf off (a ++ b).
Proof.
  intros Hoff. destruct a as [|a0 a]; [simpl; by rewrite Z.add_0_r|].
  destruct b as [|b0 b]; [by rewrite app_nil_r|].
  set (A := a0 :: a). set (B := b0 :: b).
  assert (HA : store buf off A
               = (take (Z.to_nat off) buf
                    ++ replicate (Z.to_nat off - length buf)%nat NUL ++ A)
                 ++ drop (Z.to_nat off + length A)%nat buf).
  { unfold store, A. by rewrite <- !app_assoc. }
  set (pre := take (Z.to_nat off) buf
                ++ replicate (Z.to_nat off - length buf)%nat NUL ++ A) in *.
  assert (Hpre : length pre = (Z.to_nat off + length A)%nat).
  { unfold pre. rewrite !length_app, length_take, length_replicate. lia. }
  assert (Hto : Z.to_nat (off + Z.of_nat (length A)) = length pre)
    by (rewrite Hpre; lia).
  unfold store at 1. unfold B at 1. fold B. rewrite Hto, HA.
  rewrite take_app_length.
  rewrite length_app.
  replace (length pre - (length pre + length (drop (Z.to_nat off + length A) buf)))%nat
    with 0%nat by lia.
  rewrite drop_app_add, drop_drop. cbn [replicate app].
  assert (Hs : store buf off (A ++ B)
               = take (Z.to_nat off) buf
                   ++ replicate (Z.to_nat off - length buf)%nat NUL
                   ++ (A ++ B) ++ drop (Z.to_nat off + length (A ++ B))%nat buf)
    by reflexivity.
  rewrite Hs. unfold pre. rewrite <- !app_assoc, length_app, Nat.add_assoc.
  reflexivity.
Qed.

Lemma ReadAsciiBytes_chars_ok (data rest : list ascii) (f : FILE)
    (buf : list ascii) (off : Z) :
  freadable f = true -> 0 <= fpos f -> 0 <= off ->
  unread f = data ++ rest ->
  Forall (fun b => plain_byte b = true) data ->
  ReadAsciiBytes_chars (length data) f buf off
  = Some (advance (Z.of_nat (length data)) f, store buf off data,
          off + Z.of_nat (length data)).
Proof.
  intros Hr Hpos Hoff Hun Hplain. revert f buf off Hr Hpos Hoff Hun.
  induction Hplain as [|c data Hc _ IH]; intros f buf off Hr Hpos Hoff Hun.
  - simpl. by rewrite advance_0, Z.add_0_r.
  - cbn [length ReadAsciiBytes_chars].
    destruct (fgetc_cons f c (data ++ rest) Hr Hpos Hun) as [Hget Hun'].
    rewrite Hget. rewrite to_char_EOF, Hc. cbn [negb].
    rewrite char_byte_to_char.
    rewrite (IH (advance 1 f) (store buf off [c]) (off + 1));
      [ | exact Hr | simpl; lia | lia | exact Hun'].
    rewrite advance_advance.
    pose proof (store_app buf off [c] data Hoff) as Hst.
    cbn [length app] in Hst. change (Z.of_nat 1) with 1 in Hst. rewrite Hst.
    replace (Z.of_nat (S (length data))) with (1 + Z.of_nat (length data)) by lia.
    by rewrite Z.add_assoc.
Qed.

(** The input ends inside the data characters: [c == EOF] is hit. *)
Lemma ReadAsciiBytes_chars_eof (data : list ascii) (n : nat) (f : FILE)
    (buf : list ascii) (off : Z) :
  0 <= fpos f -> unread f = data -> (length data < n)%nat ->
  ReadAsciiBytes_chars n f buf off = None.
Proof.
  revert n f buf off; induction data as [|c data IH];
    intros n f buf off Hpos Hun Hlen.
  - destruct n as [|n]; [simpl in Hlen; lia|].
    cbn [ReadAsciiBytes_chars]. by rewrite (fgetc_nil f Hun).
  - destruct n as [|n]; [simpl in Hlen; lia|].
    cbn [ReadAsciiBytes_chars]. unfold fgetc. rewrite Hun.
    destruct (freadable f); [|reflexivity].
    destruct (to_char (byte_val c) =? EOF); [reflexivity|].
    apply IH; [simpl; lia | | simpl in Hlen; lia].
    pose proof (unread_advance 1 f Hpos) as H1.
    change (Z.of_nat 1) with 1 in H1. by rewrite H1, Hun.
Qed.

Lemma element_stream_length (els : list (list ascii * ascii)) (last : list ascii) :
  length (element_stream els last)
  = (length (concat (map fst els)) + length els + length last)%nat.
Proof.
  induction els as [|[e sep] els IH]; simpl; [lia|].
  rewrite !length_app. simpl. rewrite IH. lia.
Qed.

Lemma ReadAsciiBytes_els_ok (n : nat) (els : list (list ascii * ascii))
    (last : list ascii) (f : FILE) (buf : list ascii) (off : Z) :
  freadable f = true -> 0 <= fpos f -> 0 <= off ->
  unread f = element_stream els last ->
  Forall (fun e => length e.1 = n /\ Forall (fun b => plain_byte b = true) e.1) els ->
  length last = n -> Forall (fun b => plain_byte b = true) last ->
  exists off',
    ReadAsciiBytes_els (S (length els)) (Z.of_nat n) f buf off
    = Some (advance (Z.of_nat (length (element_stream els last))) f,
            store buf off (concat (map fst els) ++ last), off').
Proof.
  intros Hr Hpos Hoff Hun Hels Hlast Hplain.
  revert f buf off Hr Hpos Hoff Hun.
  induction Hels as [|[e sep] els [He Hpe] _ IH]; intros f buf off Hr Hpos Hoff Hun.
  - cbn [length ReadAsciiBytes_els element_stream map concat app] in *.
    rewrite Nat2Z.id, <- Hlast.
    rewrite (ReadAsciiBytes_chars_ok last [] f buf off) by (by rewrite ?app_nil_r).
    rewrite fgetc_nil.
    2:{ rewrite unread_advance by done. rewrite Hun. apply drop_all. }
    eauto.
  - cbn [length element_stream map concat fst] in *. subst n.
    assert (Hun1 : unread (advance (Z.of_nat (length e)) f)
                   = sep :: element_stream els last).
    { rewrite unread_advance by done. rewrite Hun. apply drop_app_length. }
    destruct (fgetc_cons (advance (Z.of_nat (length e)) f) sep
                (element_stream els last)) as [Hget Hun2];
      [done | simpl; lia | done | ].
    rewrite advance_advance in Hun2.
    destruct (IH (advance (Z.of_nat (length e) + 1) f) (store buf off e)
                 (off + Z.of_nat (length e))) as [off' Hrec];
      [done | simpl; lia | lia | done | ].
    exists off'.
    change (ReadAsciiBytes_els (S (S (length els))) (Z.of_nat (length e)) f buf off)
      with (match ReadAsciiBytes_chars (Z.to_nat (Z.of_nat (length e))) f buf off with
            | None => None
            | Some (f1, buf1, off1) =>
                let '(_, f2) := fgetc f1 in
                ReadAsciiBytes_els (S (length els)) (Z.of_nat (length e)) f2 buf1 off1
            end).
    rewrite Nat2Z.id.
    rewrite (ReadAsciiBytes_chars_ok e (sep :: element_stream els last) f buf off)
      by done.
    rewrite Hget, advance_advance, Hrec, advance_advance.
    rewrite store_app by done. rewrite <- app_assoc.
    replace (Z.of_nat (length (e ++ sep :: element_stream els last)))
      with (Z.of_nat (length e) + 1 + Z.of_nat (length (element_stream els last)))
      by (rewrite length_app; cbn [length]; lia).
    reflexivity.
Qed.

Lemma ReadAsciiBytes_els_eof (n : nat) (els : list (list ascii * ascii))
    (last : list ascii) (f : FILE) (buf : list ascii) (off : Z) :
  freadable f = true -> 0 <= fpos f -> 0 <= off ->
  unread f = element_stream els last ->
  Forall (fun e => length e.1 = n /\ Forall (fun b => plain_byte b = true) e.1) els ->
  (length last < n)%nat ->
  ReadAsciiBytes_els (S (length els)) (Z.of_nat n) f buf off = None.
Proof.
  intros Hr Hpos Hoff Hun Hels Hlast.
  revert f buf off Hr Hpos Hoff Hun.
  induction Hels as [|[e sep] els [He Hpe] _ IH]; intros f buf off Hr Hpos Hoff Hun.
  - cbn [length ReadAsciiBytes_els element_stream] in *. rewrite Nat2Z.id.
    by rewrite (ReadAsciiBytes_chars_eof last n f buf off Hpos Hun Hlast).
  - cbn [length element_stream fst] in *. subst n.
    assert (Hun1 : unread (advance (Z.of_nat (length e)) f)
                   = sep :: element_stream els last).
    { rewrite unread_advance by done. rewrite Hun. apply drop_app_length. }
    destruct (fgetc_cons (advance (Z.of_nat (length e)) f) sep
                (element_stream els last)) as [Hget Hun2];
      [done | simpl; lia | done | ].
    change (ReadAsciiBytes_els (S (S (length els))) (Z.of_nat (length e)) f buf off)
      with (match ReadAsciiBytes_chars (Z.to_nat (Z.of_nat (length e))) f buf off with
            | None => None
            | Some (f1, buf1, off1) =>
                let '(_, f2) := fgetc f1 in
                ReadAsciiBytes_els (S (length els)) (Z.of_nat (length e)) f2 buf1 off1
            end).
    rewrite Nat2Z.id.
    rewrite (ReadAsciiBytes_chars_ok e (sep :: element_stream els last) f buf off)
      by done.
    rewrite Hget. apply IH; [done | simpl; lia | lia | done].
Qed.

(** C10.  In an ASCII read of a byte-string field the end-of-input check
    guards the data characters only.  When the input ends right after the
    last data character of the last element, so that its separator is
    missing, the field is read without error; when the input ends inside the
    data characters of an element, the read fails with the end-of-file error
    of that field.  The input is plain ASCII text (it holds no byte 255). *)
Theorem string_field_at_end_of_input (fnum : Z) (r : Records) (n : nat)
    (els : list (list ascii * ascii)) (last : list ascii) :
  freadable (fptr r) = true ->
  0 <= fpos (fptr r) ->
  0 <= mData r ->
  field_nel r fnum = S (length els) ->
  field_elsize r fnum = Z.of_nat n ->
  Forall (fun e => length e.1 = n /\ Forall (fun b => plain_byte b = true) e.1) els ->
  Forall (fun b => plain_byte b = true) last ->
  unread (fptr r) = element_stream els last ->
  (length last = n ->
     exists r',
       ReadAsciiBytes fnum r = Ok r'
       /\ fdata (fptr r') = fdata (fptr r)
       /\ fpos (fptr r')
          = fpos (fptr r) + Z.of_nat (length (element_stream els last))
       /\ unread (fptr r') = []
       /\ (keeps r fnum = true ->
             mReturnObject r'
             = store (mReturnObject r) (mData r) (concat (map fst els) ++ last)))
  /\ ((length last < n)%nat ->
      ReadAsciiBytes fnum r
      = Throw ("EOF reached unexpectedly reading field: " +:+ at_str (mNames r) fnum)).
Proof.
  intros Hr Hpos Hdata Hnel Hsize Hels Hplain Hun.
  unfold field_nel, field_elsize in Hnel, Hsize.
  split.
  - intros Hlast. unfold ReadAsciiBytes. rewrite Hnel, Hsize.
    destruct (keeps r fnum) eqn:Hkeep.
    + destruct (ReadAsciiBytes_els_ok n els last (fptr r) (mReturnObject r) (mData r))
        as [off' Hok]; try done.
      rewrite Hok. eexists. split; [reflexivity|].
      replace (fptr (set_mFptr _ _))
        with (advance (Z.of_nat (length (element_stream els last))) (fptr r))
        by (by destruct r).
      split; [reflexivity|]. split; [reflexivity|]. split.
      * rewrite unread_advance by done. rewrite Hun. apply drop_all.
      * intros _. by destruct r.
    + destruct (ReadAsciiBytes_els_ok n els last (fptr r) (mBuffer r) 0)
        as [off' Hok]; try done.
      rewrite Hok. eexists. split; [reflexivity|].
      replace (fptr (set_mFptr _ _))
        with (advance (Z.of_nat (length (element_stream els last))) (fptr r))
        by (by destruct r).
      split; [reflexivity|]. split; [reflexivity|]. split.
      * rewrite unread_advance by done. rewrite Hun. apply drop_all.
      * discriminate.
  - intros Hlast. unfold ReadAsciiBytes. rewrite Hnel, Hsize.
    destruct (keeps r fnum).
    + by rewrite (ReadAsciiBytes_els_eof n els last (fptr r) (mReturnObject r) (mData r)).
    + by rewrite (ReadAsciiBytes_els_eof n els last (fptr r) (mBuffer r) 0).
Qed.

(** A field of two two-character strings: the input [ab,cd] ends right after
    [cd] and is read as [abcd]; the input [ab,c] ends inside the second
    string and fails. *)
Lemma string_field_at_end_of_input_witness :
  (exists r',
     ReadAsciiBytes 0 (string_reader 2 2 (chars "ab,cd")) = Ok r'
     /\ unread (fptr r') = []
     /\ mReturnObject r' = chars "abcd")
  /\ ReadAsciiBytes 0 (string_reader 2 2 (chars "ab,c"))
     = Throw "EOF reached unexpectedly reading field: s".
Proof.
  split.
  - destruct (string_field_at_end_of_input 0 (string_reader 2 2 (chars "ab,cd")) 2
                [(chars "ab", ","%char)] (chars "cd")) as [Hok _];
      [reflexivity | vm_compute; discriminate | vm_compute; discriminate
      | reflexivity | reflexivity | by repeat constructor | by repeat constructor
      | reflexivity | ].
    destruct (Hok eq_refl) as (r' & Hread & _ & _ & Hun & Hbuf).
    exists r'. split; [exact Hread|]. split; [exact Hun|].
    rewrite (Hbuf eq_refl). reflexivity.
  - destruct (string_field_at_end_of_input 0 (string_reader 2 2 (chars "ab,c")) 2
                [(chars "ab", ","%char)] (chars "c")) as [_ Heof];
      [reflexivity | vm_compute; discriminate | vm_compute; discriminate
      | reflexivity | reflexivity | by repeat constructor | by repeat constructor
      | reflexivity | ].
    apply Heof. simpl. lia.
Defined.

(** ** The scan-format table *)

Lemma base_scan_formats_foldl (P : Platform) :
  base_scan_formats P = foldl apply_update (replicate 24 "%") (scan_format_updates P).
Proof.
  unfold base_scan_formats, scan_format_updates.
  by destruct (NPY_LONGDOUBLE_defined P).
Qed.

Lemma length_append_at (i : Z) (s : string) (v : list string) :
  length (append_at i s v) = length v.
Proof. unfold append_at. apply length_alter. Qed.

Lemma length_updates (us : list (Z * string)) (v : list string) :
  length (foldl apply_update v us) = length v.
Proof.
  revert v; induction us as [|u us IH]; intros v; simpl; [done|].
  rewrite IH. apply length_append_at.
Qed.

Lemma at_str_append_at (i j : Z) (s : string) (v : list string) :
  at_str (append_at i s v) j
  = if decide (Z.to_nat i = Z.to_nat j /\ (Z.to_nat j < length v)%nat)
    then at_str v j +:+ s else at_str v j.
Proof.
  unfold at_str, append_at.
  destruct (decide (Z.to_nat i = Z.to_nat j /\ (Z.to_nat j < length v)%nat))
    as [[Heq Hlt]|Hno].
  - rewrite Heq, list_lookup_alter_eq.
    destruct (lookup_lt_is_Some_2 v (Z.to_nat j) Hlt) as [x Hx].
    rewrite Hx. reflexivity.
  - destruct (decide (Z.to_nat i = Z.to_nat j)) as [Heq|Hne].
    + rewrite Heq, list_lookup_alter_eq.
      rewrite (lookup_ge_None_2 v (Z.to_nat j)) by lia. reflexivity.
    + by rewrite list_lookup_alter_ne.
Qed.

Lemma string_length_app (s1 s2 : string) :
  String.length (s1 +:+ s2) = (String.length s1 + String.length s2)%nat.
Proof. induction s1 as [|c s1 IH]; simpl; [done|by rewrite IH]. Qed.

(** An update never shortens an entry. *)
Lemma updates_grow (us : list (Z * string)) (v : list string) (j : Z) :
  (String.length (at_str v j) <= String.length (at_str (foldl apply_update v us) j))%nat.
Proof.
  revert v; induction us as [|[i s] us IH]; intros v; simpl; [lia|].
  etransitivity; [|apply IH]. unfold apply_update; simpl.
  rewrite at_str_append_at. destruct (decide _); [|lia].
  rewrite string_length_app. lia.
Qed.

(** An update of entry [j] with a non-empty string makes it longer. *)
Lemma updates_hit (us : list (Z * string)) (v : list string) (j : Z) (s : string) :
  (j, s) ∈ us -> (Z.to_nat j < length v)%nat -> s <> "" ->
  (String.length (at_str v j) < String.length (at_str (foldl apply_update v us) j))%nat.
Proof.
  revert v; induction us as [|[i t] us IH]; intros v Hin Hlt Hs;
    [by apply elem_of_nil in Hin|].
  apply elem_of_cons in Hin as [Heq|Hin]; simpl.
  - inversion Heq; subst i t.
    eapply Nat.lt_le_trans; [|apply updates_grow].
    unfold apply_update; simpl. rewrite at_str_append_at.
    destruct (decide _) as [_|Hno]; [|exfalso; apply Hno; by split].
    rewrite string_length_app. destruct s; [done|simpl; lia].
  - eapply Nat.le_lt_trans;
      [|apply IH; [done|unfold apply_update; by rewrite length_append_at|done]].
    unfold apply_update; simpl. rewrite at_str_append_at.
    destruct (decide _); [|lia]. rewrite string_length_app. lia.
Qed.

(** An entry that no update addresses keeps its value. *)
Lemma updates_miss (us : list (Z * string)) (v : list string) (j : Z) :
  Forall (fun u => Z.to_nat u.1 <> Z.to_nat j) us ->
  at_str (foldl apply_update v us) j = at_str v j.
Proof.
  intros Hall; revert v; induction Hall as [|[i s] us Hne _ IH]; intros v; [done|].
  simpl. rewrite IH. unfold apply_update; simpl. rewrite at_str_append_at.
  destruct (decide _) as [[Heq _]|_]; [by simpl in Hne|done].
Qed.

Lemma at_str_replicate (j : Z) :
  (Z.to_nat j < 24)%nat -> at_str (replicate 24 "%") j = "%".
Proof. intros H. unfold at_str. by rewrite lookup_replicate_2. Qed.

Lemma at_str_map (g : string -> string) (v : list string) (j : Z) :
  (Z.to_nat j < length v)%nat -> at_str (map g v) j = g (at_str v j).
Proof.
  intros Hlt. unfold at_str. rewrite list_lookup_fmap.
  destruct (lookup_lt_is_Some_2 v (Z.to_nat j) Hlt) as [x Hx]. by rewrite Hx.
Qed.

Lemma fix_longlong_percent (fmt : string) :
  (fix_longlong fmt = "%" <-> fmt = "%").
Proof.
  unfold fix_longlong.
  destruct (decide (fmt = "%Ld")) as [->|H1].
  - destruct (decide ("%lld" = "%Lu")); split; discriminate.
  - destruct (decide (fmt = "%Lu")) as [->|H2]; [split; discriminate|done].
Qed.

Lemma platform_ok_spec (P : Platform) :
  platform_ok P = true ->
  (forall t, t ∈ [NPY_INT8 P; NPY_UINT8 P; NPY_INT16 P; NPY_UINT16 P;
                  NPY_INT32 P; NPY_UINT32 P; NPY_INT64 P; NPY_UINT64 P] ->
             0 <= t < 24 /\ t <> NPY_STRING)
  /\ (forall s, s ∈ [NPY_INT8_FMT P; NPY_UINT8_FMT P; NPY_INT16_FMT P;
                     NPY_UINT16_FMT P; NPY_INT32_FMT P; NPY_UINT32_FMT P;
                     NPY_INT64_FMT P; NPY_UINT64_FMT P] -> s <> "").
Proof.
  unfold platform_ok. intros H. apply andb_true_iff in H as [Ht Hs].
  rewrite forallb_forall in Ht. rewrite forallb_forall in Hs. split.
  - intros t Hin. apply list_elem_of_In, Ht in Hin.
    apply andb_true_iff in Hin as [Hin Hne]. apply andb_true_iff in Hin as [H0 H24].
    apply negb_true_iff, Z.eqb_neq in Hne. lia.
  - intros s Hin. apply list_elem_of_In, Hs in Hin.
    apply negb_true_iff, String.eqb_neq in Hin. exact Hin.
Qed.

Ltac in_list :=
  solve [repeat first [apply list_elem_of_here | apply list_elem_of_further]].

(** Every type of [scan_types] is assigned a format letter inside the
    table. *)
Lemma scan_types_updated (P : Platform) (t : Z) :
  platform_ok P = true -> t ∈ scan_types P ->
  0 <= t < 24 /\ exists s, s <> "" /\ (t, s) ∈ scan_format_updates P.
Proof.
  intros Hok Hin. destruct (platform_ok_spec P Hok) as [Ht Hs].
  unfold scan_types in Hin. unfold scan_format_updates.
  repeat (apply elem_of_cons in Hin as [->|Hin]);
    try (by apply elem_of_nil in Hin).
  - split; [apply Ht; in_list|]. exists (NPY_INT8_FMT P).
    split; [apply Hs; in_list|apply elem_of_app; left; in_list].
  - split; [apply Ht; in_list|]. exists (NPY_UINT8_FMT P).
    split; [apply Hs; in_list|apply elem_of_app; left; in_list].
  - split; [apply Ht; in_list|]. exists (NPY_INT16_FMT P).
    split; [apply Hs; in_list|apply elem_of_app; left; in_list].
  - split; [apply Ht; in_list|]. exists (NPY_UINT16_FMT P).
    split; [apply Hs; in_list|apply elem_of_app; left; in_list].
  - split; [apply Ht; in_list|]. exists (NPY_INT32_FMT P).
    split; [apply Hs; in_list|apply elem_of_app; left; in_list].
  - split; [apply Ht; in_list|]. exists (NPY_UINT32_FMT P).
    split; [apply Hs; in_list|apply elem_of_app; left; in_list].
  - split; [apply Ht; in_list|]. exists (NPY_INT64_FMT P).
    split; [apply Hs; in_list|apply elem_of_app; left; in_list].
  - split; [apply Ht; in_list|]. exists (NPY_UINT64_FMT P).
    split; [apply Hs; in_list|apply elem_of_app; left; in_list].
  - split; [unfold NPY_FLOAT; lia|]. exists "f".
    split; [discriminate|apply elem_of_app; left; in_list].
  - split; [unfold NPY_DOUBLE; lia|]. exists "lf".
    split; [discriminate|apply elem_of_app; left; in_list].
Qed.

Lemma string_not_updated (P : Platform) :
  platform_ok P = true ->
  Forall (fun u => Z.to_nat u.1 <> Z.to_nat NPY_STRING) (scan_format_updates P).
Proof.
  intros Hok. destruct (platform_ok_spec P Hok) as [Ht _].
  assert (Hne : forall t, t ∈ [NPY_INT8 P; NPY_UINT8 P; NPY_INT16 P; NPY_UINT16 P;
                  NPY_INT32 P; NPY_UINT32 P; NPY_INT64 P; NPY_UINT64 P] ->
                Z.to_nat t <> Z.to_nat NPY_STRING).
  { intros t Hin. destruct (Ht t Hin) as [Hr Hn]. unfold NPY_STRING in *. lia. }
  unfold scan_format_updates. apply Forall_app. split.
  - repeat (apply Forall_cons; split;
            [cbn [fst]; first [apply Hne; in_list | vm_compute; discriminate]|]).
    constructor.
  - destruct (NPY_LONGDOUBLE_defined P); repeat constructor.
    vm_compute; discriminate.
Qed.

Lemma scan_format_unfold (P : Platform) (add_delim : bool) (r : Records) (t : Z) :
  0 <= t < 24 ->
  scan_format P add_delim r t
  = let fmt := fix_longlong (at_str (base_scan_formats P) t) in
    if negb (mReadAsWhitespace r) && add_delim
    then add_delim_to (mDelim r) fmt else fmt.
Proof.
  intros Ht. unfold scan_format, MakeScanFormats.
  assert (Hlen : length (base_scan_formats P) = 24%nat).
  { rewrite base_scan_formats_foldl, length_updates. reflexivity. }
  replace (mScanFormats (set_mScanFormats _ r))
    with (if negb (mReadAsWhitespace r) && add_delim
          then map (add_delim_to (mDelim r)) (map fix_longlong (base_scan_formats P))
          else map fix_longlong (base_scan_formats P)) by (by destruct r).
  cbv zeta. destruct (negb (mReadAsWhitespace r) && add_delim).
  - rewrite !at_str_map; [done| |]; rewrite ?length_map, Hlen; lia.
  - rewrite at_str_map; [done|]. rewrite Hlen; lia.
Qed.

(** C5 (amended).  When the session is not in whitespace mode, the table
    built for ASCII reading gives every type that has a scan format, the
    integer and floating-point types, that format followed by a space and the
    delimiter string; the entry of the string type, which has no scan format,
    is left as it is, as is every other entry without a format. *)
Theorem delimiter_in_scan_formats (P : Platform) (r : Records) :
  platform_ok P = true ->
  mReadAsWhitespace r = false ->
  (forall t, t ∈ scan_types P ->
     scan_format P false r t <> "%"
     /\ scan_format P true r t
        = scan_format P false r t +:+ String SPACE (mDelim r))
  /\ scan_format P false r NPY_STRING = "%"
  /\ scan_format P true r NPY_STRING = "%"
  /\ (forall t, 0 <= t < 24 -> scan_format P false r t = "%" ->
        scan_format P true r t = "%").
Proof.
  intros Hok Hws.
  assert (Hstr : at_str (base_scan_formats P) NPY_STRING = "%").
  { rewrite base_scan_formats_foldl, updates_miss by (by apply string_not_updated).
    apply at_str_replicate. unfold NPY_STRING. lia. }
  split; [|split; [|split]].
  - intros t Hin.
    destruct (scan_types_updated P t Hok Hin) as (Ht & s & Hs & Hup).
    rewrite !scan_format_unfold by done. rewrite Hws. cbn [negb andb]. cbv zeta.
    assert (Hbase : fix_longlong (at_str (base_scan_formats P) t) <> "%").
    { rewrite fix_longlong_percent. intros Heq.
      pose proof (updates_hit (scan_format_updates P) (replicate 24 "%") t s Hup) as Hlt.
      rewrite <- base_scan_formats_foldl, Heq, at_str_replicate in Hlt by lia.
      specialize (Hlt ltac:(rewrite length_replicate; lia) Hs). simpl in Hlt. lia. }
    split; [exact Hbase|]. unfold add_delim_to.
    by destruct (decide (fix_longlong (at_str (base_scan_formats P) t) <> "%")).
  - rewrite scan_format_unfold by (unfold NPY_STRING; lia).
    rewrite Hws, Hstr. reflexivity.
  - rewrite scan_format_unfold by (unfold NPY_STRING; lia).
    rewrite Hws, Hstr. reflexivity.
  - intros t Ht. rewrite !scan_format_unfold by done. rewrite Hws.
    cbn [negb andb]. cbv zeta. intros ->. reflexivity.
Qed.

(** With a comma as delimiter the 32-bit integer format is [%d ,], the
    double format [%lf ,], and the string entry stays [%]. *)
Lemma delimiter_in_scan_formats_witness :
  scan_format linux_x86_64 true (ascii_skipper false (three_rows ",")) 5 = "%d ,"
  /\ scan_format linux_x86_64 true (ascii_skipper false (three_rows ",")) NPY_DOUBLE
     = "%lf ,"
  /\ scan_format linux_x86_64 true (ascii_skipper false (three_rows ",")) NPY_STRING
     = "%".
Proof.
  destruct (delimiter_in_scan_formats linux_x86_64
              (ascii_skipper false (three_rows ",")) eq_refl eq_refl)
    as (Hnum & _ & Hstr & _).
  split; [|split].
  - destruct (Hnum 5) as [_ H]; [in_list|]. rewrite H. reflexivity.
  - destruct (Hnum NPY_DOUBLE) as [_ H]; [in_list|]. rewrite H. reflexivity.
  - exact Hstr.
Defined.

(** C5, as stated, fails: in the table prepared for reading comma-separated
    rows the delimiter does not come directly after the conversion; the
    format of a 32-bit integer is [%d ,], with a space in between. *)
Lemma delimiter_not_directly_after_value :
  exists r',
    Read_setup linux_x86_64 None None (ascii_skipper false (three_rows ",")) = Ok r'
    /\ mDelim r' = ","
    /\ mReadAsWhitespace r' = false
    /\ scan_format linux_x86_64 false r' (NPY_INT32 linux_x86_64) = "%d"
    /\ at_str (mScanFormats r') (NPY_INT32 linux_x86_64) = "%d ,"
    /\ at_str (mScanFormats r') (NPY_INT32 linux_x86_64)
       <> spec_delimited_format "%d" ",".
Proof.
  eexists. split; [vm_compute; reflexivity|].
  vm_compute. repeat split. discriminate.
Qed.

(** ** The strategies at work *)

Lemma reading_reading (f f' : FILE) (buf buf' : list ascii) (off off' : Z)
    (x : Records) :
  reading f' buf' off' (reading f buf off x) = reading f' buf' off' x.
Proof. by destruct x. Qed.

Lemma reading_self (x : Records) (f : FILE) :
  mFptr x = Some f -> reading f (mReturnObject x) (mData x) x = x.
Proof. destruct x; simpl. by intros ->. Qed.

Lemma reading_fptr (f : FILE) (buf : list ascii) (off : Z) (x : Records) :
  fptr (reading f buf off x) = f.
Proof. by destruct x. Qed.

Lemma reading_dynamic (f : FILE) (buf : list ascii) (off : Z) (x : Records) :
  mReturnObject (reading f buf off x) = buf /\ mData (reading f buf off x) = off.
Proof. by destruct x. Qed.

Lemma reading_static (f : FILE) (buf : list ascii) (off : Z) (x : Records) :
  mFileType (reading f buf off x) = mFileType x
  /\ mRowSize (reading f buf off x) = mRowSize x
  /\ mNrows (reading f buf off x) = mNrows x
  /\ mNrowsToRead (reading f buf off x) = mNrowsToRead x
  /\ mReadWholeRowBinary (reading f buf off x) = mReadWholeRowBinary x
  /\ mNfields (reading f buf off x) = mNfields x
  /\ mSizes (reading f buf off x) = mSizes x
  /\ mKeep (reading f buf off x) = mKeep x
  /\ mNames (reading f buf off x) = mNames x.
Proof. by destruct x. Qed.

Lemma reading_store (f f' : FILE) (buf buf' : list ascii) (off off' : Z)
    (x : Records) :
  set_mData off'
    (set_mFptr (Some f') (set_mReturnObject buf' (reading f buf off x)))
  = reading f' buf' off' x.
Proof. by destruct x. Qed.

Lemma reading_seek (f f' : FILE) (buf : list ascii) (off : Z) (x : Records) :
  set_mFptr (Some f') (reading f buf off x) = reading f' buf off x.
Proof. by destruct x. Qed.

Lemma keeps_reading (f : FILE) (buf : list ascii) (off : Z) (x : Records)
    (fnum : Z) :
  keeps (reading f buf off x) fnum = keeps x fnum.
Proof. by destruct x. Qed.

Lemma overlay_nil (buf : list ascii) : overlay [] buf = buf.
Proof. reflexivity. Qed.

(** Storing at the end of what is written so far extends it. *)
Lemma store_overlay (w bs buf0 : list ascii) :
  store (overlay w buf0) (Z.of_nat (length w)) bs = overlay (w ++ bs) buf0.
Proof.
  unfold overlay. destruct bs as [|b bs]; [by rewrite app_nil_r|].
  unfold store. rewrite Nat2Z.id.
  rewrite take_app_length.
  replace (length w - length (w ++ drop (length w) buf0))%nat with 0%nat
    by (rewrite length_app; lia).
  rewrite drop_app_ge by lia.
  replace (length w + length (b :: bs) - length w)%nat with (length (b :: bs))
    by lia.
  rewrite drop_drop, length_app. cbn [replicate app].
  by rewrite <- app_assoc.
Qed.

Lemma unread_advance_Z (k : Z) (f : FILE) :
  0 <= k -> 0 <= fpos f ->
  unread (advance k f) = drop (Z.to_nat k) (unread f).
Proof.
  intros Hk Hp. rewrite <- (unread_advance (Z.to_nat k) f Hp).
  by rewrite Z2Nat.id.
Qed.

Lemma advance_keeps (k : Z) (f : FILE) :
  freadable (advance k f) = freadable f /\ fpos (advance k f) = fpos f + k.
Proof. done. Qed.

(** *** One row as a block *)

Lemma ReadWholeRowBinary_reading (f : FILE) (w buf0 : list ascii) (x0 : Records) :
  freadable f = true -> 0 < mRowSize x0 ->
  mRowSize x0 <= Z.of_nat (length (unread f)) ->
  let block := take (Z.to_nat (mRowSize x0)) (unread f) in
  ReadWholeRowBinary (reading f (overlay w buf0) (Z.of_nat (length w)) x0)
  = Ok (reading (advance (mRowSize x0) f) (overlay (w ++ block) buf0)
          (Z.of_nat (length (w ++ block))) x0).
Proof.
  intros Hr Hs Hlen block. unfold ReadWholeRowBinary.
  destruct (reading_static f (overlay w buf0) (Z.of_nat (length w)) x0)
    as (_ & -> & _).
  destruct (reading_dynamic f (overlay w buf0) (Z.of_nat (length w)) x0)
    as (-> & ->).
  rewrite reading_fptr.
  rewrite fread_enough by (done || lia). rewrite Z.mul_1_r.
  change (to_int 1 =? 1) with true. cbv iota. fold block.
  rewrite reading_store, store_overlay. do 2 f_equal.
  rewrite length_app. unfold block. rewrite length_take. lia.
Qed.

(** *** One row field by field, on a binary file *)

Lemma ReadFields_loop_binary (P : Platform) (x0 : Records) (buf0 : list ascii) :
  mFileType x0 = BINARY_FILE ->
  forall (fnums : list Z) (f : FILE) (w row rest : list ascii),
    freadable f = true -> 0 <= fpos f ->
    unread f = row ++ rest ->
    Forall (fun fnum => 0 < at_Z (mSizes x0) fnum) fnums ->
    Z.of_nat (length row) = sizes_span x0 fnums ->
    ReadFields_loop P fnums (reading f (overlay w buf0) (Z.of_nat (length w)) x0)
    = Ok (reading (advance (sizes_span x0 fnums) f)
            (overlay (w ++ kept_bytes x0 fnums row) buf0)
            (Z.of_nat (length (w ++ kept_bytes x0 fnums row))) x0).
Proof.
  intros Hbin fnums.
  induction fnums as [|fnum fnums IH]; intros f w row rest Hr Hp Hun Hsz Hlen.
  - cbn [ReadFields_loop sizes_span kept_bytes]. by rewrite advance_0, app_nil_r.
  - apply Forall_cons in Hsz as [Hs Hsz]. cbn [sizes_span] in Hlen.
    set (s := at_Z (mSizes x0) fnum) in *.
    assert (Hspan : 0 <= sizes_span x0 fnums).
    { clear -Hsz. induction Hsz; cbn [sizes_span]; lia. }
    assert (Hun1 : unread (advance s f) = drop (Z.to_nat s) row ++ rest).
    { rewrite unread_advance_Z by lia. rewrite Hun.
      rewrite drop_app_le by lia. reflexivity. }
    assert (Hlen1 : Z.of_nat (length (drop (Z.to_nat s) row)) = sizes_span x0 fnums).
    { rewrite length_drop. lia. }
    cbn [ReadFields_loop sizes_span kept_bytes]. fold s.
    rewrite keeps_reading. destruct (keeps x0 fnum) eqn:Hk.
    + unfold ReadField.
      destruct (reading_static f (overlay w buf0) (Z.of_nat (length w)) x0)
        as (-> & _). rewrite Hbin, bool_decide_eq_true_2 by done.
      unfold ReadFieldAsBinary.
      destruct (reading_static f (overlay w buf0) (Z.of_nat (length w)) x0)
        as (_ & _ & _ & _ & _ & _ & -> & _).
      destruct (reading_dynamic f (overlay w buf0) (Z.of_nat (length w)) x0)
        as (-> & ->).
      rewrite reading_fptr. fold s.
      rewrite fread_enough by (done || rewrite ?Hun, ?length_app; lia).
      rewrite Z.mul_1_r. change (to_int 1 =? 1) with true. cbv iota.
      rewrite reading_store, store_overlay. cbn [rbind].
      replace (take (Z.to_nat s) (unread f)) with (take (Z.to_nat s) row)
        by (rewrite Hun, take_app_le by lia; reflexivity).
      replace (Z.of_nat (length w) + s)
        with (Z.of_nat (length (w ++ take (Z.to_nat s) row)))
        by (rewrite length_app, length_take; lia).
      rewrite (IH (advance s f) (w ++ take (Z.to_nat s) row)
                 (drop (Z.to_nat s) row) rest); try done.
      * by rewrite advance_advance, <- app_assoc.
      * cbn. lia.
    + unfold SkipField.
      destruct (reading_static f (overlay w buf0) (Z.of_nat (length w)) x0)
        as (-> & _). rewrite Hbin, bool_decide_eq_true_2 by done.
      unfold SkipFieldAsBinary.
      destruct (reading_static f (overlay w buf0) (Z.of_nat (length w)) x0)
        as (_ & _ & _ & _ & _ & _ & -> & _).
      rewrite reading_fptr. fold s. unfold fseeko.
      replace (fpos f + s <? 0) with false by (symmetry; apply Z.ltb_ge; lia).
      change (0 =? 0) with true. cbv iota.
      rewrite reading_seek. cbn [rbind].
      rewrite (IH (advance s f) w (drop (Z.to_nat s) row) rest); try done.
      * by rewrite advance_advance.
      * cbn. lia.
Qed.

(** *** The loop over the selected rows of a binary file *)

Lemma file_block_advance (f0 : FILE) (t rs : Z) :
  0 <= t -> 0 <= rs -> 0 <= fpos f0 ->
  take (Z.to_nat rs) (unread (advance (t * rs) f0))
  = file_block (unread f0) (t * rs) rs.
Proof.
  intros Ht Hrs Hp. unfold file_block. by rewrite unread_advance_Z by nia.
Qed.

Section RowsLoop.

Context (P : Platform) (x0 : Records) (rows : list Z) (buf0 : list ascii)
        (f0 : FILE) (rowfun : list ascii -> list ascii) (nrows : Z).

Hypothesis Hbin : mFileType x0 = BINARY_FILE.
Hypothesis Hrs : 0 < mRowSize x0.
Hypothesis Hf0 : freadable f0 = true.
Hypothesis Hp0 : 0 <= fpos f0.
Hypothesis Hfile : mRowSize x0 * nrows <= Z.of_nat (length (unread f0)).
Hypothesis Hrow : forall (f : FILE) (w : list ascii),
  freadable f = true -> 0 <= fpos f ->
  mRowSize x0 <= Z.of_nat (length (unread f)) ->
  ReadRow P (reading f (overlay w buf0) (Z.of_nat (length w)) x0)
  = Ok (reading (advance (mRowSize x0) f)
          (overlay (w ++ rowfun (take (Z.to_nat (mRowSize x0)) (unread f))) buf0)
          (Z.of_nat
             (length (w ++ rowfun (take (Z.to_nat (mRowSize x0)) (unread f)))))
          x0).

Lemma ReadRows_loop_binary (irows : list Z) (cur : Z) (w : list ascii) :
  0 <= cur ->
  ascending_from cur (map (row2read x0 rows) irows) = true ->
  Forall (fun t => t < nrows) (map (row2read x0 rows) irows) ->
  let blocks :=
    concat (map (fun t => rowfun (file_block (unread f0) (t * mRowSize x0)
                                             (mRowSize x0)))
                (map (row2read x0 rows) irows)) in
  ReadRows_loop P irows rows cur
    (reading (advance (cur * mRowSize x0) f0) (overlay w buf0)
             (Z.of_nat (length w)) x0)
  = Ok (reading
          (advance (rows_end cur (map (row2read x0 rows) irows) * mRowSize x0) f0)
          (overlay (w ++ blocks) buf0) (Z.of_nat (length (w ++ blocks))) x0).
Proof.
  revert cur w. induction irows as [|irow irows IH]; intros cur w Hcur Hasc Hall.
  - cbn. by rewrite app_nil_r.
  - cbn [map ascending_from] in Hasc. apply andb_true_iff in Hasc as [Hlo Hasc].
    apply Z.leb_le in Hlo. cbn [map] in Hall. apply Forall_cons in Hall as [Ht Hall].
    set (t := row2read x0 rows irow) in *. set (rs := mRowSize x0) in *.
    cbv zeta. cbn [map rows_end concat]. fold t.
    cbn [ReadRows_loop].
    destruct (reading_static (advance (cur * rs) f0) (overlay w buf0)
                (Z.of_nat (length w)) x0) as (_ & _ & -> & -> & _).
    fold (row2read x0 rows irow). fold t.
    (* the skip *)
    assert (Hskip :
      (if cur <? t
       then SkipRows cur t
              (reading (advance (cur * rs) f0) (overlay w buf0)
                       (Z.of_nat (length w)) x0)
       else Ok (reading (advance (cur * rs) f0) (overlay w buf0)
                        (Z.of_nat (length w)) x0))
      = Ok (reading (advance (t * rs) f0) (overlay w buf0)
                    (Z.of_nat (length w)) x0)).
    { destruct (cur <? t) eqn:E.
      - apply Z.ltb_lt in E. unfold SkipRows.
        destruct (reading_static (advance (cur * rs) f0) (overlay w buf0)
                    (Z.of_nat (length w)) x0) as (-> & _).
        rewrite Hbin, bool_decide_eq_true_2 by done. unfold SkipBinaryRows.
        replace (0 <? t - cur) with true by (symmetry; apply Z.ltb_lt; lia).
        destruct (reading_static (advance (cur * rs) f0) (overlay w buf0)
                    (Z.of_nat (length w)) x0) as (_ & -> & _).
        rewrite reading_fptr. fold rs. unfold fseeko.
        replace (fpos (advance (cur * rs) f0) + rs * (t - cur) <? 0) with false
          by (symmetry; apply Z.ltb_ge; cbn [fpos advance]; nia).
        change (0 =? 0) with true. cbv iota.
        rewrite reading_seek, advance_advance. do 3 f_equal. lia.
      - apply Z.ltb_ge in E. by replace t with cur by lia. }
    rewrite Hskip. cbn [rbind].
    replace (if cur <? t then t else cur) with t
      by (destruct (cur <? t) eqn:E; [done|apply Z.ltb_ge in E; lia]).
    (* the row *)
    assert (Hlen : rs <= Z.of_nat (length (unread (advance (t * rs) f0)))).
    { rewrite unread_advance_Z by nia. rewrite length_drop. nia. }
    rewrite Hrow by (done || cbn [fpos advance]; nia). cbn [rbind].
    rewrite file_block_advance by lia.
    replace (advance rs (advance (t * rs) f0)) with (advance ((t + 1) * rs) f0)
      by (rewrite advance_advance; f_equal; lia).
    rewrite IH by (done || lia).
    by rewrite <- !app_assoc.
Qed.

End RowsLoop.

(** *** The prepared session *)

Lemma ReadPrepare_static (P : Platform) (x : Records) :
  mFptr (ReadPrepare P x) = mFptr x
  /\ mRowSize (ReadPrepare P x) = mRowSize x
  /\ mNfields (ReadPrepare P x) = mNfields x
  /\ mSizes (ReadPrepare P x) = mSizes x
  /\ mData (ReadPrepare P x) = mData x.
Proof.
  unfold ReadPrepare, MakeScanFormats.
  repeat match goal with |- context [if ?b then _ else _] => destruct b end;
    repeat split.
Qed.

Lemma Read_setup_static (P : Platform) (rows fields : PyObjectPtr)
    (arr : option (list Z)) (d : PyArray_Descr) (nrows : Z) (r r' : Records) :
  opened_for_reading d nrows r ->
  Object2IntpArray rows = Ok arr ->
  Read_setup P rows fields r = Ok r' ->
  mFptr r' = mFptr r
  /\ mFileType r' = mFileType r
  /\ mRowSize r' = mRowSize r
  /\ mNrows r' = nrows
  /\ mNrowsToRead r' = vec_size (selected_rows nrows arr)
  /\ mRowsToRead r' = arr
  /\ mNfields r' = mNfields r
  /\ mSizes r' = mSizes r
  /\ mData r' = 0.
Proof.
  intros Hopen Harr Hset.
  destruct (Read_setup_shape P rows fields arr d nrows r r' Hopen Harr Hset)
    as (kd & kd' & ids & knf & -> & _).
  destruct Hopen as (_ & _ & _ & _ & _ & _ & _ & _ & _ & _ & _ & _ & Hnr & Hn1).
  match goal with |- context [ReadPrepare P ?x] =>
    destruct (ReadPrepare_static P x) as (-> & -> & -> & -> & ->);
    destruct (ReadPrepare_rows P x) as (-> & -> & -> & -> & _)
  end.
  assert (Hsel : match arr with None => mNrows r | Some a => vec_size a end
                 = vec_size (selected_rows nrows arr)).
  { destruct arr as [l|]; [reflexivity|]. cbn [selected_rows]. unfold iota, vec_size.
    rewrite length_seqZ. lia. }
  rewrite <- Hsel, <- Hnr. by destruct r.
Qed.

(** The rows the loop of [ReadRows] visits are the selected rows. *)
Lemma map_at_Z (l : list Z) : map (at_Z l) (iota (vec_size l)) = l.
Proof.
  unfold iota, vec_size. apply list_eq. intros i.
  rewrite list_lookup_fmap. destruct (l !! i) as [x|] eqn:E.
  - assert (Hi : (i < length l)%nat) by (by apply lookup_lt_Some in E).
    rewrite lookup_seqZ_lt by lia. cbn. unfold at_Z.
    replace (Z.to_nat (0 + Z.of_nat i)) with i by lia. by rewrite E.
  - assert (Hi : (length l <= i)%nat) by (by apply lookup_ge_None in E).
    rewrite lookup_seqZ_ge by lia. reflexivity.
Qed.

Lemma ascending_iota (lo n : Z) : ascending_from lo (seqZ lo n) = true.
Proof.
  destruct (Z_le_gt_dec n 0) as [Hn|Hn]; [by rewrite seqZ_nil by lia|].
  rewrite <- (Z2Nat.id n) by lia. generalize (Z.to_nat n) as k. clear.
  intros k. revert lo. induction k as [|k IH]; intros lo; [done|].
  rewrite Nat2Z.inj_succ, seqZ_cons by lia. cbn [ascending_from].
  rewrite Z.leb_refl. cbn [andb].
  replace (Z.pred (Z.succ (Z.of_nat k))) with (Z.of_nat k) by lia.
  replace (Z.succ lo) with (lo + 1) by lia. apply IH.
Qed.

Lemma selected_rows_valid (nrows : Z) (arr : option (list Z)) :
  valid_rows nrows arr = true ->
  ascending_from 0 (selected_rows nrows arr) = true
  /\ Forall (fun t => t < nrows) (selected_rows nrows arr).
Proof.
  destruct arr as [l|]; cbn [valid_rows selected_rows].
  - intros H. apply andb_true_iff in H as [Ha Hb]. split; [exact Ha|].
    apply Forall_forall. intros x Hx. rewrite forallb_forall in Hb.
    apply Z.ltb_lt, Hb. by apply list_elem_of_In.
  - intros _. split; [apply ascending_iota|].
    apply Forall_forall. intros x Hx. apply elem_of_seqZ in Hx. lia.
Qed.

Lemma ReadRows_targets (x0 : Records) (nrows : Z) (arr : option (list Z)) :
  1 <= nrows ->
  valid_rows nrows arr = true ->
  mNrows x0 = nrows ->
  mNrowsToRead x0 = vec_size (selected_rows nrows arr) ->
  mRowsToRead x0 = arr ->
  map (row2read x0
         (if negb (mNrowsToRead x0 =? mNrows x0)
          then default [] (mRowsToRead x0) else []))
      (iota (mNrowsToRead x0))
  = selected_rows nrows arr.
Proof.
  intros Hn Hvalid Hnr Hsel Harr. unfold row2read. rewrite Hnr, Hsel, Harr.
  destruct (vec_size (selected_rows nrows arr) =? nrows) eqn:E; cbn [negb].
  - apply Z.eqb_eq in E. rewrite E, map_id.
    destruct arr as [l|]; [|reflexivity]. cbn [selected_rows] in *.
    symmetry. cbn [valid_rows] in Hvalid.
    apply andb_true_iff in Hvalid as [Ha Hb].
    apply (ascending_full 0 nrows l Ha); [|exact E].
    apply Forall_forall. intros x Hx. rewrite forallb_forall in Hb.
    apply Z.ltb_lt, Hb. by apply list_elem_of_In.
  - destruct arr as [l|].
    + cbn [selected_rows default]. apply map_at_Z.
    + exfalso. apply Z.eqb_neq in E. apply E. cbn [selected_rows].
      unfold iota, vec_size. rewrite length_seqZ. lia.
Qed.

(** *** One field at a time, on either kind of file *)

Lemma ReadAsciiBytes_frame (fnum : Z) (x x1 : Records) :
  ReadAsciiBytes fnum x = Ok x1 ->
  mKeep x1 = mKeep x /\ mSizes x1 = mSizes x /\ mData x1 = mData x
  /\ (keeps x fnum = false -> mReturnObject x1 = mReturnObject x).
Proof.
  unfold ReadAsciiBytes. intros H.
  destruct (keeps x fnum);
    destruct (ReadAsciiBytes_els _ _ _ _ _) as [[[f b] o]|]; try discriminate;
    inversion H; destruct x; repeat split; done.
Qed.

Lemma ScanVal_frame (P : Platform) (fnum : Z) (x x1 : Records) :
  ScanVal P fnum x = Ok x1 ->
  mKeep x1 = mKeep x /\ mSizes x1 = mSizes x /\ mData x1 = mData x
  /\ (keeps x fnum = false -> mReturnObject x1 = mReturnObject x).
Proof.
  unfold ScanVal. intros H.
  destruct (keeps x fnum);
    destruct (ScanVal_els _ _ _ _ _ _ _ _) as [[f b]|]; try discriminate;
    inversion H; destruct x; repeat split; done.
Qed.

Lemma ReadFieldAsAscii_frame (P : Platform) (fnum : Z) (x x' : Records) :
  ReadFieldAsAscii P fnum x = Ok x' ->
  mKeep x' = mKeep x /\ mSizes x' = mSizes x
  /\ mData x' = mData x + (if keeps x fnum then at_Z (mSizes x) fnum else 0)
  /\ (keeps x fnum = false -> mReturnObject x' = mReturnObject x).
Proof.
  unfold ReadFieldAsAscii. intros H. inv_bind_as H x1 Hx1.
  assert (Hframe : mKeep x1 = mKeep x /\ mSizes x1 = mSizes x /\ mData x1 = mData x
                   /\ (keeps x fnum = false -> mReturnObject x1 = mReturnObject x)).
  { destruct (at_Z (mTypeNums x) fnum =? NPY_STRING).
    - by apply ReadAsciiBytes_frame.
    - inv_bind_as Hx1 x2 Hx2. apply ScanVal_frame in Hx2.
      destruct (mReadAsWhitespace x2); inversion Hx1; subst x1; [|exact Hx2].
      destruct Hx2 as (K1 & K2 & K3 & K4). by destruct x2. }
  destruct Hframe as (K1 & K2 & K3 & K4).
  assert (Hk : keeps x1 fnum = keeps x fnum) by (unfold keeps; by rewrite K1).
  rewrite Hk in H. destruct (keeps x fnum); inversion H; subst x'.
  - rewrite <- K1, <- K2, <- K3. by destruct x1.
  - rewrite Z.add_0_r. auto.
Qed.

(** A kept field is read to the data pointer, which moves on by the field's
    size; any other field is skipped, and neither the array nor the data
    pointer changes. *)
Lemma field_step (P : Platform) (fnum : Z) (x x' : Records) :
  (if keeps x fnum then ReadField P fnum x else SkipField P fnum x) = Ok x' ->
  mKeep x' = mKeep x /\ mSizes x' = mSizes x
  /\ mData x' = mData x + (if keeps x fnum then at_Z (mSizes x) fnum else 0)
  /\ (keeps x fnum = false -> mReturnObject x' = mReturnObject x).
Proof.
  destruct (keeps x fnum) eqn:Hk.
  - unfold ReadField. destruct (bool_decide _).
    + unfold ReadFieldAsBinary. destruct (fread _ _ _) as [[got n] f].
      destruct (_ =? _); [|discriminate]. intros H; inversion H.
      destruct x; repeat split; done.
    + intros H. apply ReadFieldAsAscii_frame in H. by rewrite Hk in H.
  - unfold SkipField. destruct (bool_decide _).
    + unfold SkipFieldAsBinary. destruct (fseeko _ _) as [rc f].
      destruct (_ =? _); [|discriminate]. intros H; inversion H.
      rewrite Z.add_0_r. by destruct x.
    + unfold SkipFieldAsAscii. intros H. apply ReadFieldAsAscii_frame in H.
      by rewrite Hk in H.
Qed.

Lemma ReadFields_loop_frame (P : Platform) (fnums : list Z) (x x' : Records) :
  ReadFields_loop P fnums x = Ok x' ->
  mKeep x' = mKeep x /\ mSizes x' = mSizes x
  /\ mData x' = mData x + kept_span x fnums.
Proof.
  revert x. induction fnums as [|fnum fnums IH]; intros x H.
  - inversion H. cbn. repeat split. lia.
  - cbn [ReadFields_loop] in H. inv_bind_as H x1 Hx1.
    apply field_step in Hx1 as (K1 & K2 & K3 & _).
    apply IH in H as (J1 & J2 & J3). rewrite J1, J2, J3, K1, K2, K3.
    repeat split. cbn [kept_span].
    assert (Hspan : kept_span x1 fnums = kept_span x fnums).
    { clear -K1 K2. induction fnums as [|j fnums IH]; [done|].
      cbn [kept_span]. unfold keeps. by rewrite K1, K2, IH. }
    rewrite Hspan. lia.
Qed.

(** *** The kept fields *)

Lemma at_Z_insert (keep : list Z) (i : nat) (j : Z) :
  0 <= j ->
  at_Z (<[i := 1]> keep) j
  = if decide (Z.to_nat j = i /\ (i < length keep)%nat) then 1 else at_Z keep j.
Proof.
  intros Hj. unfold at_Z. rewrite list_lookup_insert.
  destruct (decide (i = Z.to_nat j /\ (i < length keep)%nat)) as [[H1 H2]|Hn].
  - rewrite decide_True; [done|]. by split.
  - rewrite decide_False; [done|]. intros [H1 H2]. apply Hn. by split.
Qed.

Lemma at_Z_mark_keep (ids keep : list Z) (j : Z) :
  0 <= j -> Forall (fun id => 0 <= id) ids ->
  at_Z (mark_keep ids keep) j
  = if decide (j ∈ ids /\ j < Z.of_nat (length keep)) then 1 else at_Z keep j.
Proof.
  intros Hj. revert keep. induction ids as [|id ids IH]; intros keep Hpos.
  - cbn [mark_keep]. destruct (decide _) as [[H _]|_]; [|done].
    by apply elem_of_nil in H.
  - apply Forall_cons in Hpos as [Hid Hpos]. cbn [mark_keep].
    rewrite IH by done. rewrite length_insert, at_Z_insert by done.
    destruct (decide (j ∈ ids /\ j < Z.of_nat (length keep))) as [[Hin Hlt]|Hn1].
    + rewrite decide_True; [done|]. split; [by apply elem_of_cons; right|done].
    + destruct (decide (Z.to_nat j = Z.to_nat id /\ (Z.to_nat id < length keep)%nat))
        as [[Heq Hlt]|Hn2].
      * rewrite decide_True; [done|]. split; [|lia].
        apply elem_of_cons; left. lia.
      * rewrite decide_False; [done|]. intros [Hin Hlt].
        apply elem_of_cons in Hin as [->|Hin]; [apply Hn2; split; lia|].
        apply Hn1. by split.
Qed.

Lemma elem_of_match_loop (names good : list string) (i j : Z) :
  j ∈ match_loop names good i
  <-> exists name, i <= j /\ names !! Z.to_nat (j - i) = Some name /\ name ∈ good.
Proof.
  revert i. induction names as [|name names IH]; intros i.
  - cbn [match_loop]. split; [intros H; by apply elem_of_nil in H|].
    intros (n & _ & H & _). done.
  - cbn [match_loop].
    assert (Hrest : j ∈ match_loop names good (i + 1)
                    <-> exists n, i < j /\ names !! Z.to_nat (j - i - 1) = Some n
                                  /\ n ∈ good).
    { rewrite IH. split; intros (n & H1 & H2 & H3); exists n;
        (split; [lia|]); (split; [|done]);
        [by replace (j - i - 1) with (j - (i + 1)) by lia
        |by replace (j - (i + 1)) with (j - i - 1) by lia]. }
    assert (Hhere : forall n, i < j ->
              (name :: names) !! Z.to_nat (j - i) = Some n
              <-> names !! Z.to_nat (j - i - 1) = Some n).
    { intros n Hlt. replace (Z.to_nat (j - i)) with (S (Z.to_nat (j - i - 1))) by lia.
      reflexivity. }
    destruct (decide (name ∈ good)) as [Hg|Hg].
    + rewrite elem_of_cons, Hrest. split.
      * intros [->|(n & H1 & H2 & H3)].
        -- exists name. rewrite Z.sub_diag. by repeat split; try lia.
        -- exists n. split; [lia|]. split; [by apply Hhere|done].
      * intros (n & H1 & H2 & H3).
        destruct (decide (j = i)) as [->|Hne]; [by left|]. right.
        exists n. split; [lia|]. split; [apply Hhere; [lia|done]|done].
    + rewrite Hrest. split.
      * intros (n & H1 & H2 & H3). exists n. split; [lia|].
        split; [by apply Hhere|done].
      * intros (n & H1 & H2 & H3).
        destruct (decide (j = i)) as [->|Hne].
        -- rewrite Z.sub_diag in H2. change (Z.to_nat 0) with 0%nat in H2.
           cbn in H2. inversion H2; subst n. done.
        -- exists n. split; [lia|]. split; [apply Hhere; [lia|done]|done].
Qed.

Lemma match_loop_nonneg (names good : list string) :
  Forall (fun id => 0 <= id) (match_loop names good 0).
Proof.
  apply Forall_forall. intros j Hj. apply elem_of_match_loop in Hj.
  by destruct Hj as (name & Hle & _).
Qed.

Lemma SubDtype_ids (d : PyArray_Descr) (f : PyObject) nd ids :
  SubDtype d f = Ok (nd, ids) ->
  ids = match requested_names (Some f) with
        | None => iota (vec_size (descr_names d))
        | Some l => match_loop (descr_names d) l 0
        end.
Proof.
  unfold SubDtype, CopyDescrOrderedNames. intros H. inv_bind_as H m Hm.
  assert (ids = m) as ->.
  { destruct (ExtractSubDescr d _); simpl in H; congruence. }
  clear H.
  destruct f as [s|n|items| | | | |]; simpl in Hm; try discriminate.
  - rewrite ListStringMatch_names in Hm by (simpl; discriminate). simpl in Hm.
    destruct (decide _) in Hm; [discriminate|]. by inversion Hm.
  - destruct items as [|i items].
    + simpl. unfold ListStringMatch in Hm; simpl in Hm.
      destruct (vec_size (iota (vec_size (descr_names d))) =? 0); [discriminate|].
      by inversion Hm.
    + destruct (goodones_of (i :: items)) eqn:Hgood.
      * rewrite ListStringMatch_no_strings in Hm by done. discriminate.
      * rewrite ListStringMatch_names in Hm by (rewrite Hgood; discriminate).
        destruct (decide _) in Hm; [discriminate|]. inversion Hm; subst m.
        change (requested_names (Some (PyList (i :: items))))
          with (Some (goodones_of (i :: items))).
        reflexivity.
Qed.

Lemma ReadPrepare_keep (P : Platform) (x : Records) :
  mKeep (ReadPrepare P x) = mKeep x.
Proof.
  unfold ReadPrepare, MakeScanFormats.
  repeat match goal with |- context [if ?b then _ else _] => destruct b end;
    reflexivity.
Qed.

(** After the preparation a field is kept exactly when it is requested. *)
Lemma Read_setup_keeps (P : Platform) (rows fields : PyObjectPtr)
    (arr : option (list Z)) (d : PyArray_Descr) (nrows : Z) (r r' : Records) :
  opened_for_reading d nrows r ->
  Object2IntpArray rows = Ok arr ->
  Read_setup P rows fields r = Ok r' ->
  forall j, 0 <= j < mNfields r -> keeps r' j = field_requested d fields j.
Proof.
  intros Hopen Harr Hset j Hj.
  rewrite (Read_setup_unfold P rows fields arr d nrows r Hopen Harr) in Hset.
  destruct Hopen as (_ & _ & _ & _ & _ & _ & _ & Hd & Hnames & Hnf & _ & Hkeep & _).
  inv_bind_as Hset r2 Hr2. inv_bind_as Hset r3 Hr3.
  inversion Hset; subst r'; clear Hset.
  unfold CreateOutputArray in Hr3.
  destruct (mKeepTypeDescr r2) as [kd|]; [|discriminate].
  inversion Hr3; subst r3; clear Hr3.
  unfold keeps. rewrite ReadPrepare_keep.
  replace (mKeep (set_mData 0 (set_mReturnObject _ r2))) with (mKeep r2)
    by (by destruct r2).
  set (r1 := set_mNrowsToRead _ _) in Hr2.
  assert (H1 : mNfields r1 = mNfields r /\ mKeep r1 = [] /\ mTypeDescr r1 = Some d).
  { unfold r1. rewrite <- Hkeep, <- Hd. by destruct r. }
  destruct H1 as (N1 & K1 & D1). clearbody r1.
  assert (Hmask : exists ids,
            mKeep r2 = mark_keep ids (replicate (Z.to_nat (mNfields r)) 0)
            /\ ids = match requested_names fields with
                     | None => iota (mNfields r)
                     | Some l => match_loop (descr_names d) l 0
                     end).
  { assert (Hwk : forall kd' ids,
              mKeep (with_kept kd' ids (vec_size ids) r1)
              = mark_keep ids (replicate (Z.to_nat (mNfields r)) 0)).
    { intros kd' ids. unfold with_kept.
      replace (mKeep (set_mKeep _ _))
        with (mark_keep (take (Z.to_nat (vec_size ids)) ids)
                (resize_vec (mNfields r1) 0 (mKeep r1))) by (by destruct r1).
      rewrite K1, N1. unfold vec_size. rewrite Nat2Z.id, firstn_all.
      unfold resize_vec. rewrite take_nil. cbn [app length].
      by rewrite Nat.sub_0_r. }
    assert (Hiota : vec_size (iota (mNfields r)) = mNfields r).
    { unfold vec_size, iota. rewrite length_seqZ.
      rewrite Hnf. unfold vec_size. lia. }
    destruct fields as [f|].
    - assert (f = Py_None \/ f <> Py_None) as [->|Hf]
        by (destruct f; (by left) || (by right)).
      + rewrite ProcessFieldsToRead_absent in Hr2 by auto.
        inversion Hr2. exists (iota (mNfields r)). split; [|reflexivity].
        rewrite N1. rewrite <- Hiota at 2. apply Hwk.
      + rewrite (ProcessFieldsToRead_present f d) in Hr2 by done.
        inv_bind_as Hr2 res Hres. destruct res as [nd ids]. inversion Hr2.
        exists ids. split; [apply Hwk|].
        rewrite (SubDtype_ids d f nd ids Hres), Hnf. reflexivity.
    - rewrite ProcessFieldsToRead_absent in Hr2 by auto.
      inversion Hr2. exists (iota (mNfields r)). split; [|reflexivity].
      rewrite N1. rewrite <- Hiota at 2. apply Hwk. }
  destruct Hmask as (ids & -> & Hids).
  assert (Hpos : Forall (fun id => 0 <= id) ids).
  { rewrite Hids. destruct (requested_names fields); [apply match_loop_nonneg|].
    apply Forall_forall. intros i Hi. apply elem_of_seqZ in Hi. lia. }
  rewrite at_Z_mark_keep by (lia || done). rewrite length_replicate.
  unfold field_requested.
  assert (Hzero : at_Z (replicate (Z.to_nat (mNfields r)) 0) j = 0).
  { unfold at_Z. destruct (replicate _ _ !! _) as [z|] eqn:E; [|done].
    apply lookup_replicate in E as [-> _]. reflexivity. }
  rewrite Hzero, Hids.
  destruct (requested_names fields) as [l|].
  - destruct (decide (j ∈ match_loop (descr_names d) l 0 /\ _)) as [[Hin _]|Hn].
    + apply elem_of_match_loop in Hin as (name & _ & Hlook & Hgood).
      rewrite Z.sub_0_r in Hlook. unfold at_str. rewrite Hlook. cbn.
      by rewrite bool_decide_eq_true_2.
    + rewrite bool_decide_eq_false_2; [done|]. intros Hgood. apply Hn.
      split; [|lia]. apply elem_of_match_loop.
      rewrite Hnf in Hj. unfold vec_size in Hj.
      destruct (descr_names d !! Z.to_nat j) as [name|] eqn:E.
      * exists name. rewrite Z.sub_0_r. split; [lia|]. split; [done|].
        unfold at_str in Hgood. by rewrite E in Hgood.
      * apply lookup_ge_None in E. lia.
  - rewrite decide_True; [done|]. split; [|lia]. apply elem_of_seqZ. lia.
Qed.

(** *** The whole read *)

Lemma ReadRows_binary (P : Platform) (x0 : Records) (f0 : FILE) (nrows : Z)
    (arr : option (list Z)) (rowfun : list ascii -> list ascii) :
  mFptr x0 = Some f0 -> mData x0 = 0 -> mFileType x0 = BINARY_FILE ->
  1 <= nrows -> mNrows x0 = nrows ->
  mNrowsToRead x0 = vec_size (selected_rows nrows arr) ->
  mRowsToRead x0 = arr ->
  valid_rows nrows arr = true ->
  freadable f0 = true -> 0 <= fpos f0 -> 0 < mRowSize x0 ->
  mRowSize x0 * nrows <= Z.of_nat (length (unread f0)) ->
  (forall (f : FILE) (w : list ascii),
     freadable f = true -> 0 <= fpos f ->
     mRowSize x0 <= Z.of_nat (length (unread f)) ->
     ReadRow P (reading f (overlay w (mReturnObject x0)) (Z.of_nat (length w)) x0)
     = Ok (reading (advance (mRowSize x0) f)
             (overlay (w ++ rowfun (take (Z.to_nat (mRowSize x0)) (unread f)))
                      (mReturnObject x0))
             (Z.of_nat
                (length (w ++ rowfun (take (Z.to_nat (mRowSize x0)) (unread f)))))
             x0)) ->
  let blocks :=
    concat (map (fun t => rowfun (file_block (unread f0) (t * mRowSize x0)
                                             (mRowSize x0)))
                (selected_rows nrows arr)) in
  ReadRows P x0
  = Ok (reading (advance (rows_end 0 (selected_rows nrows arr) * mRowSize x0) f0)
          (overlay blocks (mReturnObject x0)) (Z.of_nat (length blocks)) x0).
Proof.
  intros Hfp Hdata Hbin Hn Hnr Hsel Harr Hvalid Hrd Hpos Hrs Hlen Hrow blocks.
  unfold ReadRows.
  set (rows := if negb (mNrowsToRead x0 =? mNrows x0)
               then default [] (mRowsToRead x0) else []).
  pose proof (ReadRows_targets x0 nrows arr Hn Hvalid Hnr Hsel Harr) as Htar.
  fold rows in Htar.
  destruct (selected_rows_valid nrows arr Hvalid) as [Hasc Hall].
  pose proof (ReadRows_loop_binary P x0 rows (mReturnObject x0) f0 rowfun nrows
                Hbin Hrs Hrd Hpos Hlen Hrow (iota (mNrowsToRead x0)) 0 [])
    as Hloop.
  rewrite Htar in Hloop. cbv zeta in Hloop.
  rewrite Z.mul_0_l, advance_0, overlay_nil in Hloop.
  change (Z.of_nat (length [])) with 0 in Hloop.
  assert (Hself : reading f0 (mReturnObject x0) 0 x0 = x0)
    by (rewrite <- Hdata; by apply reading_self).
  rewrite Hself in Hloop.
  rewrite Hloop by (lia || assumption). reflexivity.
Qed.

Lemma fptr_ReadAllAsBinary (y y' : Records) :
  freadable (fptr y) = true -> 0 < mRowSize y -> 0 < mNrows y ->
  mRowSize y * mNrows y <= Z.of_nat (length (unread (fptr y))) ->
  ReadAllAsBinary y = Ok y' ->
  fptr y' = advance (mRowSize y * mNrows y) (fptr y).
Proof.
  intros Hr Hs Hn Hlen H. unfold ReadAllAsBinary in H.
  rewrite fread_enough in H by (done || lia).
  destruct (_ =? _); [|discriminate]. inversion H. unfold fptr at 1. by destruct y.
Qed.

Lemma sizes_span_ext (x y : Records) (fnums : list Z) :
  mSizes x = mSizes y -> sizes_span x fnums = sizes_span y fnums.
Proof.
  intros H. induction fnums as [|j fnums IH]; [done|].
  cbn [sizes_span]. by rewrite H, IH.
Qed.

Lemma kept_span_ext (x y : Records) (fnums : list Z) :
  mSizes x = mSizes y -> mKeep x = mKeep y ->
  kept_span x fnums = kept_span y fnums.
Proof.
  intros H1 H2. induction fnums as [|j fnums IH]; [done|].
  cbn [kept_span]. unfold keeps. by rewrite H1, H2, IH.
Qed.

Lemma complete_file_spec (r : Records) :
  complete_file r = true ->
  freadable (fptr r) = true /\ 0 <= fpos (fptr r) /\ 0 < mRowSize r
  /\ mRowSize r * mNrows r <= Z.of_nat (length (unread (fptr r))).
Proof.
  unfold complete_file. rewrite !andb_true_iff.
  rewrite Z.leb_le, Z.ltb_lt, Z.leb_le. tauto.
Qed.

Lemma packed_spec (r : Records) :
  packed r = true ->
  Forall (fun fnum => 0 < at_Z (mSizes r) fnum) (iota (mNfields r))
  /\ sizes_span r (iota (mNfields r)) = mRowSize r.
Proof.
  unfold packed. rewrite andb_true_iff, Z.eqb_eq. intros [Hall Hsum].
  split; [|exact Hsum]. apply Forall_forall. intros j Hj.
  rewrite forallb_forall in Hall. apply Z.ltb_lt, Hall. by apply list_elem_of_In.
Qed.

Lemma strategy_flags (x : Records) :
  (strategy x = WholeFileBinary -> mReadWholeFileBinary x = true)
  /\ (strategy x = WholeRowBinary ->
        mReadWholeFileBinary x = false /\ mReadWholeRowBinary x = true)
  /\ (strategy x = PerField ->
        mReadWholeFileBinary x = false /\ mReadWholeRowBinary x = false).
Proof.
  unfold strategy. destruct (mReadWholeFileBinary x), (mReadWholeRowBinary x);
    repeat split; intros; done.
Qed.

Lemma spec_strategy_binary (b er ef : bool) :
  spec_strategy b er ef <> PerField -> b = true.
Proof. destruct b, er, ef; simpl; intros H; done. Qed.

Lemma Read_setup_array (P : Platform) (rows fields : PyObjectPtr)
    (arr : option (list Z)) (d : PyArray_Descr) (nrows : Z) (r r' : Records) :
  opened_for_reading d nrows r ->
  Object2IntpArray rows = Ok arr ->
  Read_setup P rows fields r = Ok r' ->
  exists kd,
    mKeepTypeDescr r' = Some kd
    /\ mReturnObject r'
       = replicate (Z.to_nat (vec_size (selected_rows nrows arr) * descr_elsize kd))
                   NUL.
Proof.
  intros Hopen Harr Hset.
  destruct (Read_setup_static P rows fields arr d nrows r r' Hopen Harr Hset)
    as (_ & _ & _ & _ & Hsel & _).
  rewrite (Read_setup_unfold P rows fields arr d nrows r Hopen Harr) in Hset.
  inv_bind_as Hset r2 Hr2. inv_bind_as Hset r3 Hr3.
  inversion Hset; subst r'; clear Hset.
  unfold CreateOutputArray in Hr3.
  destruct (mKeepTypeDescr r2) as [kd|] eqn:Hk; [|discriminate].
  inversion Hr3; subst r3; clear Hr3. exists kd.
  destruct (ReadPrepare_keeps P
              (set_mData 0
                 (set_mReturnObject
                    (replicate (Z.to_nat (mNrowsToRead r2 * descr_elsize kd)) NUL) r2)))
    as (-> & _).
  destruct (ReadPrepare_rows P
              (set_mData 0
                 (set_mReturnObject
                    (replicate (Z.to_nat (mNrowsToRead r2 * descr_elsize kd)) NUL) r2)))
    as (_ & Hn2r & _ & _ & ->).
  rewrite Hn2r in Hsel.
  assert (Hsel2 : mNrowsToRead r2 = vec_size (selected_rows nrows arr))
    by (rewrite <- Hsel; by destruct r2).
  rewrite <- Hsel2, <- Hk. by destruct r2.
Qed.



(** * Further properties of the codec *)

(** ** Opening and closing *)

Lemma GetFptr_file_ok (P : Platform) fileobj mode r r' :
  GetFptr P fileobj mode r = Ok r' ->
  file_ok P fileobj mode
  /\ (forall f, fileobj = PyFile f ->
        r' = set_mFptrIsLocal false (set_mFptr (Some f) r))
  /\ (forall name, fileobj = PyString name ->
        exists f, fopen P name mode = Some f
                  /\ r' = set_mFptrIsLocal true (set_mFptr (Some f) r)).
Proof.
  unfold GetFptr, file_ok. intros H.
  destruct fileobj as [name| | | | |f| |]; try discriminate.
  - destruct (fopen P name mode) as [f|] eqn:Hopen; [|discriminate].
    inversion H; subst r'. split; [right; eauto|]. split; [discriminate|].
    intros name' Hn. inversion Hn; subst name'. eauto.
  - inversion H; subst r'. split; [left; eauto|]. split.
    + intros f' Hf. by inversion Hf.
    + discriminate.
Qed.

Lemma SetFileType_keeps (r : Records) :
  mFptr (SetFileType r) = mFptr r
  /\ mFptrIsLocal (SetFileType r) = mFptrIsLocal r
  /\ mMode (SetFileType r) = mMode r
  /\ mAction (SetFileType r) = mAction r.
Proof. unfold SetFileType. by destruct (decide (mDelim r = "")). Qed.

(** What the constructor leaves in the session about its file and mode. *)
Lemma Records_new_file (P : Platform) (fileobj : PyObject) (mode : string)
    (delimobj dtype : PyObjectPtr) (nrows : Z) (r : Records) :
  Records_new P fileobj mode delimobj dtype nrows = Ok r ->
  (forall f, fileobj = PyFile f -> mFptr r = Some f /\ mFptrIsLocal r = false)
  /\ (forall name, fileobj = PyString name ->
        mFptr r = fopen P name mode /\ mFptrIsLocal r = true)
  /\ is_Some (mFptr r)
  /\ mAction r = (if decide (first_char mode = "r"%char) then READ else WRITE).
Proof.
  intros H. unfold Records_new in H.
  inv_bind_as H r1 Hr1. destruct (GetFptr_file_ok _ _ _ _ _ Hr1) as (_ & Hfile & Hname).
  apply GetFptr_ok in Hr1 as (f0 & isloc & Hr1).
  inv_bind_as H r2 Hr2. apply ProcessDelim_ok in Hr2 as (dl & ->).
  set (r3 := SetFileType _) in H.
  assert (H3 : mFptr r3 = mFptr r1 /\ mFptrIsLocal r3 = mFptrIsLocal r1
               /\ mMode r3 = mode).
  { unfold r3. destruct (SetFileType_keeps
      (set_mReadAsWhitespace (bool_decide (first_char dl = SPACE)) (set_mDelim dl r1)))
      as (K1 & K2 & K3 & _).
    rewrite K1, K2, K3. subst r1. repeat split. }
  destruct H3 as (F1 & F2 & F3). rewrite F3 in H.
  assert (Hsame : mFptr r = mFptr r1 /\ mFptrIsLocal r = mFptrIsLocal r1
                  /\ mAction r
                     = (if decide (first_char mode = "r"%char) then READ else WRITE)).
  { destruct (decide (first_char mode = "r"%char)).
    - destruct (is_NULL dtype || (nrows =? -9999)); [discriminate|].
      inv_bind_as H r4 Hr4. unfold ProcessDescr in Hr4.
      destruct dtype as [[| | | | | |d|]|]; try discriminate.
      inversion Hr4; subst r4. unfold ProcessNrows in H.
      destruct (nrows <? 1); [discriminate|]. inversion H.
      rewrite <- F1, <- F2.
      unfold CopyFieldInfo, CopyDescrOrderedOffsets. repeat split.
    - inversion H. rewrite <- F1, <- F2. repeat split. }
  destruct Hsame as (S1 & S2 & S3). rewrite S1, S2, S3. clearbody r3.
  split; [|split; [|split]].
  - intros f Hf. rewrite (Hfile f Hf). split; reflexivity.
  - intros name Hn. destruct (Hname name Hn) as (f & Hopen & ->).
    rewrite Hopen. split; reflexivity.
  - rewrite Hr1. simpl. eauto.
  - reflexivity.
Qed.

Lemma Records_new_read_steps (P : Platform) (fileobj : PyObject) (mode : string)
    (delimobj dtype : PyObjectPtr) (nrows : Z) :
  first_char mode = "r"%char ->
  file_ok P fileobj mode -> delim_ok delimobj ->
  exists r3,
    Records_new P fileobj mode delimobj dtype nrows
    = if is_NULL dtype || (nrows =? -9999)
      then Throw "You must send the datatype and number of rows when reading"
      else do r <- ProcessDescr dtype (set_mAction READ r3); ProcessNrows nrows r.
Proof.
  intros Hmode Hfile Hdelim. unfold Records_new.
  assert (Hget : exists f isloc, forall r,
             GetFptr P fileobj mode r
             = Ok (set_mFptrIsLocal isloc (set_mFptr (Some f) r))).
  { destruct Hfile as [[f ->]|(name & f & -> & Hopen)].
    - exists f, false. reflexivity.
    - exists f, true. intros r. unfold GetFptr. by rewrite Hopen. }
  destruct Hget as (f & isloc & Hget). rewrite Hget. cbn [rbind].
  assert (Hpd : exists dl, forall r,
             ProcessDelim delimobj r
             = Ok (set_mReadAsWhitespace (bool_decide (first_char dl = SPACE))
                     (set_mDelim dl r))).
  { destruct Hdelim as [->|[s ->]]; [exists ""|exists s]; intros r;
      unfold ProcessDelim; cbn [rbind mDelim set_mDelim];
      destruct (decide _) as [Hd|Hd];
      [ by rewrite bool_decide_eq_true_2 by exact Hd
      | by rewrite bool_decide_eq_false_2 by exact Hd
      | by rewrite bool_decide_eq_true_2 by exact Hd
      | by rewrite bool_decide_eq_false_2 by exact Hd ]. }
  destruct Hpd as (dl & Hpd). rewrite Hpd. cbn [rbind].
  set (r3 := SetFileType _).
  assert (Hm : mMode r3 = mode).
  { unfold r3. destruct (SetFileType_keeps
      (set_mReadAsWhitespace (bool_decide (first_char dl = SPACE))
         (set_mDelim dl (set_mFptrIsLocal isloc
            (set_mFptr (Some f) (set_mMode mode InitializeVariables))))))
      as (_ & _ & K3 & _). rewrite K3. reflexivity. }
  rewrite Hm. destruct (decide (first_char mode = "r"%char)); [|done].
  exists r3. reflexivity.
Qed.



(** X2.  A session serves one direction only: opened with a mode starting
    with [r] it refuses to write, opened with any other mode it refuses to
    read, whatever the arguments. *)
Theorem one_direction_per_session (P : Platform) (fileobj : PyObject)
    (mode : string) (delimobj dtype : PyObjectPtr) (nrows : Z) (r : Records) :
  Records_new P fileobj mode delimobj dtype nrows = Ok r ->
  (first_char mode = "r"%char ->
     forall obj padnull ignorenull,
       Write P obj padnull ignorenull r = Throw "File is not open for writing")
  /\ (first_char mode <> "r"%char ->
        forall rows fields,
          Read P rows fields r = Throw "File is not open for reading").
Proof.
  intros H. destruct (Records_new_file _ _ _ _ _ _ _ H) as (_ & _ & [f Hf] & Ha).
  split; intros Hm; destruct (decide _) as [Hd|Hd]; try contradiction.
  - intros obj pn ig. unfold Write. rewrite Hf, Ha. reflexivity.
  - intros rows fields. unfold Read, Read_setup. rewrite Hf, Ha. reflexivity.
Qed.

Lemma one_direction_per_session_witness :
  Write linux_x86_64 (PyArray abc_descr 1 (chars "xyz")) false false abc_session
  = Throw "File is not open for writing"
  /\ Read linux_x86_64 None None comma_writer
     = Throw "File is not open for reading".
Proof.
  split.
  - destruct (Records_new linux_x86_64 abc_file "r" None (Some (PyDescr abc_descr)) 3)
      as [r|msg] eqn:E; [|exfalso; vm_compute in E; discriminate].
    replace abc_session with r by (unfold abc_session; by rewrite E).
    destruct (one_direction_per_session _ _ _ _ _ _ _ E) as [Hw _].
    apply Hw. reflexivity.
  - destruct (Records_new linux_x86_64 (PyFile empty_output) "w"
                (Some (PyString ",")) None (-9999))
      as [r|msg] eqn:E; [|exfalso; vm_compute in E; discriminate].
    replace comma_writer with r by (unfold comma_writer; by rewrite E).
    destruct (one_direction_per_session _ _ _ _ _ _ _ E) as [_ Hr].
    apply Hr. vm_compute. discriminate.
Defined.

Lemma Close_local (r : Records) :
  mFptrIsLocal r = true -> mFptr (Close r) = None.
Proof.
  intros Hl. unfold Close. rewrite Hl. destruct (mFptr r) eqn:E; cbn [is_Some_b andb].
  - by destruct r.
  - exact E.
Qed.

(** X3.  Closing a session never closes a stream the caller passed in: the
    session is left as it was.  A file the session opened by name is closed,
    after which reading and writing both fail with "File is not open".
    Closing twice is closing once. *)
Theorem close_only_own_file (P : Platform) (fileobj : PyObject)
    (mode : string) (delimobj dtype : PyObjectPtr) (nrows : Z) (r : Records) :
  Records_new P fileobj mode delimobj dtype nrows = Ok r ->
  (forall f, fileobj = PyFile f -> Close r = r)
  /\ (forall name, fileobj = PyString name ->
        mFptr (Close r) = None
        /\ (forall rows fields,
              Read P rows fields (Close r) = Throw "File is not open")
        /\ (forall obj padnull ignorenull,
              Write P obj padnull ignorenull (Close r) = Throw "File is not open"))
  /\ Close (Close r) = Close r.
Proof.
  intros H. destruct (Records_new_file _ _ _ _ _ _ _ H) as (Hfile & Hname & _ & _).
  split; [|split].
  - intros f Hf. destruct (Hfile f Hf) as [_ Hl]. unfold Close. by rewrite Hl.
  - intros name Hn. destruct (Hname name Hn) as [_ Hl].
    pose proof (Close_local r Hl) as Hc. split; [exact Hc|]. split.
    + intros rows fields. unfold Read, Read_setup. by rewrite Hc.
    + intros obj pn ig. unfold Write. by rewrite Hc.
  - unfold Close at 2 3. destruct (mFptrIsLocal r && is_Some_b (mFptr r)) eqn:E.
    + clear E. unfold Close. destruct r; cbn. by rewrite andb_false_r.
    + unfold Close. by rewrite E.
Qed.

Lemma close_only_own_file_witness :
  Close abc_session = abc_session
  /\ exists r,
       Records_new (with_file "data.rec" (stream_of "abcdefghi")) (PyString "data.rec")
         "r" None (Some (PyDescr abc_descr)) 3 = Ok r
       /\ mFptr (Close r) = None.
Proof.
  split.
  - destruct (Records_new linux_x86_64 abc_file "r" None (Some (PyDescr abc_descr)) 3)
      as [r|msg] eqn:E; [|exfalso; vm_compute in E; discriminate].
    replace abc_session with r by (unfold abc_session; by rewrite E).
    destruct (close_only_own_file _ _ _ _ _ _ _ E) as [Hf _].
    by apply (Hf (stream_of "abcdefghi")).
  - destruct (Records_new (with_file "data.rec" (stream_of "abcdefghi"))
                (PyString "data.rec") "r" None (Some (PyDescr abc_descr)) 3)
      as [r|msg] eqn:E; [|exfalso; vm_compute in E; discriminate].
    exists r. split; [reflexivity|].
    destruct (close_only_own_file _ _ _ _ _ _ _ E) as (_ & Hn & _).
    by destruct (Hn "data.rec" eq_refl) as [Hc _].
Defined.

(** ** Reading a binary file *)

Lemma Read_setup_all_fields (P : Platform) (rows fields : PyObjectPtr)
    (arr : option (list Z)) (d : PyArray_Descr) (nrows : Z) (r : Records) :
  opened_for_reading d nrows r ->
  Object2IntpArray rows = Ok arr ->
  absent fields ->
  Read_setup P rows fields r = Ok (ReadPrepare P (prepared d arr r)).
Proof.
  intros Hopen Harr Hf.
  rewrite (Read_setup_unfold P rows fields arr d nrows r Hopen Harr).
  rewrite ProcessFieldsToRead_absent by exact Hf. cbn [rbind].
  destruct Hopen as (_ & _ & _ & _ & _ & _ & _ & Hd & _).
  unfold CreateOutputArray.
  replace (mKeepTypeDescr (with_kept _ _ _ _)) with (Some d)
    by (rewrite <- Hd; by destruct r).
  cbn [rbind]. unfold prepared, requested_count.
  destruct r; cbn in Hd |- *. subst. reflexivity.
Qed.

Lemma prepared_fields (d : PyArray_Descr) (arr : option (list Z)) (r : Records) :
  mFptr (prepared d arr r) = mFptr r
  /\ mFileType (prepared d arr r) = mFileType r
  /\ mNrows (prepared d arr r) = mNrows r
  /\ mNrowsToRead (prepared d arr r) = requested_count (mNrows r) arr
  /\ mKeepNfields (prepared d arr r) = mNfields r
  /\ mNfields (prepared d arr r) = mNfields r
  /\ mRowSize (prepared d arr r) = mRowSize r
  /\ mData (prepared d arr r) = 0
  /\ mReturnObject (prepared d arr r)
     = replicate (Z.to_nat (requested_count (mNrows r) arr * descr_elsize d)) NUL
  /\ mReadWholeFileBinary (prepared d arr r) = mReadWholeFileBinary r
  /\ mReadWholeRowBinary (prepared d arr r) = mReadWholeRowBinary r
  /\ mRowsToRead (prepared d arr r) = arr.
Proof. by destruct r. Qed.

Lemma Records_new_delim (P : Platform) (fileobj : PyObject)
    (mode : string) (delimobj dtype : PyObjectPtr) (nrows : Z) (r : Records) :
  Records_new P fileobj mode delimobj dtype nrows = Ok r ->
  mDelim r = match delimobj with Some (PyString s) => s | _ => "" end
  /\ mFileType r = (if decide (mDelim r = "") then BINARY_FILE else ASCII_FILE)
  /\ mReadAsWhitespace r = bool_decide (first_char (mDelim r) = SPACE).
Proof.
  intros H. unfold Records_new in H.
  inv_bind_as H r1 Hr1. apply GetFptr_ok in Hr1 as (f & isloc & ->).
  inv_bind_as H r2 Hr2.
  destruct (ProcessDelim_delim _ _ _ Hr2) as [Hnone Hstr].
  assert (Hshape : mDelim r2 = match delimobj with Some (PyString s) => s | _ => "" end).
  { unfold ProcessDelim in Hr2.
    destruct delimobj as [[s| | | | | | |]|]; try discriminate; auto. }
  clear Hnone Hstr. apply ProcessDelim_ok in Hr2 as (dl & ->).
  set (r2 := SetFileType _) in H.
  assert (Hr2 : mDelim r2 = dl
                /\ mFileType r2 = (if decide (dl = "") then BINARY_FILE else ASCII_FILE)
                /\ mReadAsWhitespace r2 = bool_decide (first_char dl = SPACE)).
  { unfold r2, SetFileType; simpl. by destruct (decide (dl = "")). }
  assert (Hsame : mDelim r = mDelim r2 /\ mFileType r = mFileType r2
                  /\ mReadAsWhitespace r = mReadAsWhitespace r2).
  { destruct (decide (first_char (mMode r2) = "r"%char)).
    - destruct (is_NULL dtype || (nrows =? -9999)); [discriminate|].
      inv_bind_as H r3 Hr3. unfold ProcessDescr in Hr3.
      destruct dtype as [[| | | | | |d|]|]; try discriminate.
      inversion Hr3; subst r3. unfold ProcessNrows in H.
      destruct (nrows <? 1); [discriminate|]. inversion H.
      unfold CopyFieldInfo, CopyDescrOrderedOffsets. repeat split.
    - inversion H. repeat split. }
  destruct Hsame as (S1 & S2 & S3). destruct Hr2 as (Hd & Hft & Hws).
  simpl in Hshape. rewrite S1, S2, S3, Hft, Hws, Hd. clearbody r2.
  by rewrite <- Hshape.
Qed.

Lemma Records_new_binary (P : Platform) (fileobj : PyObject)
    (mode : string) (dtype : PyObjectPtr) (nrows : Z) (r : Records) :
  Records_new P fileobj mode None dtype nrows = Ok r ->
  mFileType r = BINARY_FILE.
Proof.
  intros H. destruct (Records_new_delim _ _ _ _ _ _ _ H) as (Hd & Hft & _).
  rewrite Hft, Hd. reflexivity.
Qed.

Lemma store_fresh (n : nat) (bs : list ascii) :
  length bs = n -> store (replicate n NUL) 0 bs = bs.
Proof.
  intros Hl. unfold store. destruct bs as [|b bs]; [by subst n|].
  change (Z.to_nat 0) with 0%nat.
  rewrite drop_ge by (rewrite length_replicate; lia).
  rewrite take_0. change (0 - _)%nat with 0%nat.
  cbn [replicate app]. by rewrite app_nil_r.
Qed.

Lemma fread_short (size nmemb : Z) (f : FILE) :
  0 < size -> Z.of_nat (length (unread f)) < size * nmemb ->
  exists got n f', fread size nmemb f = (got, n, f') /\ 0 <= n < nmemb.
Proof.
  intros Hs Hlen. unfold fread.
  destruct (freadable f && (0 <? size) && (0 <? nmemb)) eqn:E.
  - do 3 eexists. split; [reflexivity|]. rewrite length_take.
    split; [apply Z.div_pos; lia|]. apply Z.div_lt_upper_bound; lia.
  - do 3 eexists. split; [reflexivity|]. nia.
Qed.

(** The state in which [ReadFromFile] finds a binary session that reads as
    many rows as the file has, all fields kept. *)
Lemma ReadPrepare_whole_file (P : Platform) (d : PyArray_Descr)
    (arr : option (list Z)) (r : Records) :
  mFileType r = BINARY_FILE ->
  requested_count (mNrows r) arr = mNrows r ->
  ReadPrepare P (prepared d arr r)
  = set_mReadWholeFileBinary true (prepared d arr r).
Proof.
  intros Hft Hn. unfold ReadPrepare.
  destruct (prepared_fields d arr r)
    as (_ & F2 & F3 & F4 & F5 & F6 & _).
  rewrite F2, F3, F4, F5, F6, Hft, Hn, !Z.eqb_refl.
  by rewrite bool_decide_eq_true_2.
Qed.

(** [Read] of all rows and fields of a binary file comes down to
    [ReadAllAsBinary] on a zeroed array of [nrows] records. *)
Lemma Read_is_bulk_read (P : Platform) (fileobj : PyObject) (mode : string)
    (rows fields : PyObjectPtr) (arr : option (list Z)) (d : PyArray_Descr)
    (nrows : Z) (r : Records) :
  first_char mode = "r"%char ->
  Records_new P fileobj mode None (Some (PyDescr d)) nrows = Ok r ->
  Object2IntpArray rows = Ok arr ->
  requested_count nrows arr = nrows ->
  absent fields ->
  exists y,
    Read P rows fields r = ReadAllAsBinary y
    /\ fptr y = fptr r /\ mNrows y = nrows /\ mRowSize y = descr_elsize d
    /\ mData y = 0
    /\ mReturnObject y = replicate (Z.to_nat (descr_elsize d * nrows)) NUL
    /\ 1 <= nrows.
Proof.
  intros Hmode Hnew Harr Hsel Hf.
  pose proof (Records_new_read P _ _ _ _ _ _ Hmode Hnew) as Hopen.
  pose proof (Records_new_binary P _ _ _ _ _ Hnew) as Hbin.
  assert (Hopen' := Hopen).
  destruct Hopen' as (_ & _ & _ & _ & _ & _ & _ & _ & _ & _ & Hrs & _ & Hnr & H1).
  unfold Read. rewrite (Read_setup_all_fields P rows fields arr d nrows r Hopen Harr Hf).
  cbn [rbind]. rewrite ReadPrepare_whole_file by (rewrite ?Hnr; done).
  set (x := prepared d arr r).
  destruct (prepared_fields d arr r)
    as (F1 & _ & F3 & _ & _ & _ & F7 & F8 & F9 & _).
  fold x in F1, F3, F7, F8, F9.
  set (y := set_mReadWholeFileBinary true x).
  exists y. unfold ReadFromFile.
  replace (mReadWholeFileBinary y) with true by (by destruct x).
  split; [reflexivity|]. unfold fptr.
  replace (mFptr y) with (mFptr x) by (by destruct x).
  replace (mNrows y) with (mNrows x) by (by destruct x).
  replace (mRowSize y) with (mRowSize x) by (by destruct x).
  replace (mData y) with (mData x) by (by destruct x).
  replace (mReturnObject y) with (mReturnObject x) by (by destruct x).
  rewrite F1, F3, F7, F8, F9, Hnr, Hrs, Hsel. repeat split; [|exact H1].
  do 2 f_equal. lia.
Qed.

Lemma Read_whole_file_ok (P : Platform) (fileobj : PyObject) (mode : string)
    (rows fields : PyObjectPtr) (arr : option (list Z)) (d : PyArray_Descr)
    (nrows : Z) (r : Records) :
  first_char mode = "r"%char ->
  Records_new P fileobj mode None (Some (PyDescr d)) nrows = Ok r ->
  freadable (fptr r) = true ->
  0 < descr_elsize d -> nrows < 2 ^ 31 ->
  Object2IntpArray rows = Ok arr ->
  requested_count nrows arr = nrows ->
  absent fields ->
  descr_elsize d * nrows <= Z.of_nat (length (unread (fptr r))) ->
  exists r', Read P rows fields r = Ok r'
             /\ mReturnObject r'
                = take (Z.to_nat (descr_elsize d * nrows)) (unread (fptr r))
             /\ fptr r' = advance (descr_elsize d * nrows) (fptr r).
Proof.
  intros Hmode Hnew Hrd Hsz Hsmall Harr Hsel Hf Hlen.
  destruct (Read_is_bulk_read P fileobj mode rows fields arr d nrows r
              Hmode Hnew Harr Hsel Hf) as (y & -> & Y1 & Y2 & Y3 & Y4 & Y5 & H1).
  destruct (ReadAllAsBinary_whole_file y) as (r' & Hr' & Hpos & Hret).
  - by rewrite Y1.
  - lia.
  - lia.
  - rewrite Y1, Y2, Y3. exact Hlen.
  - exists r'. split; [exact Hr'|]. split.
    + rewrite Hret, Y1, Y2, Y3, Y4, Y5. apply store_fresh.
      rewrite length_take. lia.
    + rewrite (fptr_ReadAllAsBinary y r') by (rewrite ?Y1, ?Y2, ?Y3; done || lia).
      by rewrite Y1, Y2, Y3.
Qed.

(** X4.  Reading all rows and all fields of a binary file is one block
    read: with at least [nrows] records' worth of bytes left in the stream
    the result is exactly those bytes and the stream is left just behind
    them; with fewer the read fails.  A row request that lists as many rows
    as the file has is treated as no request at all, whatever it lists. *)
Theorem whole_file_read (P : Platform) (fileobj : PyObject) (mode : string)
    (rows fields : PyObjectPtr) (arr : option (list Z)) (d : PyArray_Descr)
    (nrows : Z) (r : Records) :
  first_char mode = "r"%char ->
  Records_new P fileobj mode None (Some (PyDescr d)) nrows = Ok r ->
  freadable (fptr r) = true ->
  0 < descr_elsize d -> nrows < 2 ^ 31 ->
  Object2IntpArray rows = Ok arr ->
  requested_count nrows arr = nrows ->
  absent fields ->
  let n := descr_elsize d * nrows in
  (n <= Z.of_nat (length (unread (fptr r))) ->
     exists r', Read P rows fields r = Ok r'
                /\ mReturnObject r' = take (Z.to_nat n) (unread (fptr r))
                /\ fptr r' = advance n (fptr r))
  /\ (Z.of_nat (length (unread (fptr r))) < n ->
        Read P rows fields r = Throw "Error reading entire file as binary").
Proof.
  intros Hmode Hnew Hrd Hsz Hsmall Harr Hsel Hf n. split.
  - intros Hlen.
    exact (Read_whole_file_ok P fileobj mode rows fields arr d nrows r
             Hmode Hnew Hrd Hsz Hsmall Harr Hsel Hf Hlen).
  - intros Hlen.
    destruct (Read_is_bulk_read P fileobj mode rows fields arr d nrows r
                Hmode Hnew Harr Hsel Hf) as (y & -> & Y1 & Y2 & Y3 & Y4 & Y5 & H1).
    unfold ReadAllAsBinary. rewrite Y1, Y2, Y3.
    destruct (fread_short (descr_elsize d) nrows (fptr r) Hsz Hlen)
      as (got & k & f' & -> & Hk).
    rewrite to_int_small by lia.
    by replace (k =? nrows) with false by (symmetry; apply Z.eqb_neq; lia).
Qed.

(** The three records [abc], [def], [ghi] are read at once, also when the
    rows [2, 2, 0] are asked for. *)
Lemma whole_file_read_witness :
  (exists r', Read linux_x86_64 None None abc_session = Ok r'
              /\ mReturnObject r' = chars "abcdefghi")
  /\ (exists r', Read linux_x86_64 (Some (PyList [PyInt 2; PyInt 2; PyInt 0])) None
                   abc_session = Ok r'
                 /\ mReturnObject r' = chars "abcdefghi").
Proof.
  split.
  - destruct (whole_file_read linux_x86_64 abc_file "r" None None None abc_descr 3
                abc_session eq_refl abc_session_opened eq_refl) as [Hok _];
      [reflexivity|reflexivity|reflexivity|reflexivity|by left|].
    destruct Hok as (r' & Hr' & Hret & _); [vm_compute; discriminate|].
    exists r'. split; [exact Hr'|]. rewrite Hret. reflexivity.
  - destruct (whole_file_read linux_x86_64 abc_file "r"
                (Some (PyList [PyInt 2; PyInt 2; PyInt 0])) None (Some [2; 2; 0])
                abc_descr 3
                abc_session eq_refl abc_session_opened eq_refl) as [Hok _];
      [reflexivity|reflexivity|reflexivity|reflexivity|by left|].
    destruct Hok as (r' & Hr' & Hret & _); [vm_compute; discriminate|].
    exists r'. split; [exact Hr'|]. rewrite Hret. reflexivity.
Defined.

(** ** Writing a binary file *)

Lemma write_state_fields (descr : PyArray_Descr) (size : Z) (data : list ascii)
    (padnull ignorenull : bool) (r : Records) :
  let y := write_state descr size data padnull ignorenull r in
  mFptr y = mFptr r /\ mFileType y = mFileType r /\ mDelim y = mDelim r
  /\ mNrows y = size /\ mRowSize y = descr_elsize descr
  /\ mData y = 0 /\ mReturnObject y = data
  /\ mPadNull y = padnull /\ mIgnoreNull y = ignorenull
  /\ mNames y = descr_names descr
  /\ mNfields y = vec_size (descr_names descr).
Proof.
  unfold write_state, CopyFieldInfo, CopyDescrOrderedOffsets, CopyDescrOrderedNames.
  by destruct r.
Qed.

Lemma Write_unfold (P : Platform) (fileobj : PyObject) (mode : string)
    (delimobj dtype : PyObjectPtr) (nrows : Z) (r : Records)
    (descr : PyArray_Descr) (size : Z) (data : list ascii)
    (padnull ignorenull : bool) :
  first_char mode <> "r"%char ->
  Records_new P fileobj mode delimobj dtype nrows = Ok r ->
  Write P (PyArray descr size data) padnull ignorenull r
  = let y := write_state descr size data padnull ignorenull r in
    if bool_decide (mFileType r = BINARY_FILE) then WriteAllAsBinary y
    else WriteRows P y.
Proof.
  intros Hm H. destruct (Records_new_file _ _ _ _ _ _ _ H) as (_ & _ & [f Hf] & Ha).
  destruct (decide _) as [Hd|Hd]; [contradiction|].
  unfold Write. rewrite Hf, Ha. cbn [is_Some_b negb].
  rewrite bool_decide_eq_true_2 by done. cbn [negb].
  fold (write_state descr size data padnull ignorenull r). cbv zeta.
  destruct (write_state_fields descr size data padnull ignorenull r)
    as (_ & -> & _). reflexivity.
Qed.

Lemma fwrite_all (bytes : list ascii) (size nmemb : Z) (f : FILE) :
  at_end f = true -> 0 < size -> 0 <= nmemb ->
  Z.of_nat (length bytes) = size * nmemb ->
  fwrite bytes size nmemb f = (nmemb, emit bytes f).
Proof.
  intros He Hs Hn Hlen. unfold fwrite.
  destruct (proj1 (at_end_spec f) He) as [Hw _]. rewrite Hw.
  replace (0 <? size) with true by (symmetry; apply Z.ltb_lt; lia).
  cbn [andb]. destruct (0 <? nmemb) eqn:E.
  - rewrite take_ge by lia. rewrite fputs_at_end by exact He. cbn [snd].
    f_equal. rewrite Hlen, Z.mul_comm. apply Z.div_mul. lia.
  - apply Z.ltb_ge in E. assert (nmemb = 0) as -> by lia.
    destruct bytes; [|simpl in Hlen; lia]. by rewrite emit_nil.
Qed.

Lemma Write_binary_ok (P : Platform) (fileobj : PyObject) (mode : string)
    (dtype : PyObjectPtr) (nrows : Z) (r : Records)
    (descr : PyArray_Descr) (size : Z) (data : list ascii)
    (padnull ignorenull : bool) :
  first_char mode <> "r"%char ->
  Records_new P fileobj mode None dtype nrows = Ok r ->
  0 < descr_elsize descr -> 0 <= size ->
  Z.of_nat (length data) = descr_elsize descr * size ->
  at_end (fptr r) = true ->
  exists r', Write P (PyArray descr size data) padnull ignorenull r = Ok r'
             /\ fptr r' = emit data (fptr r).
Proof.
  intros Hm H Hs Hn Hlen He.
  pose proof (Records_new_binary P _ _ _ _ _ H) as Hbin.
  rewrite (Write_unfold P _ _ _ _ _ _ descr size data padnull ignorenull Hm H).
  rewrite Hbin, bool_decide_eq_true_2 by done. cbv zeta.
  destruct (write_state_fields descr size data padnull ignorenull r)
    as (F1 & _ & _ & F4 & F5 & F6 & F7 & _).
  cbv zeta in F1, F4, F5, F6, F7.
  generalize dependent (write_state descr size data padnull ignorenull r).
  intros y F1 F4 F5 F6 F7.
  assert (Hfp : fptr y = fptr r) by (unfold fptr; by rewrite F1).
  unfold WriteAllAsBinary.
  rewrite F4, F5, F6, F7, Hfp. change (Z.to_nat 0) with 0%nat. rewrite drop_0.
  rewrite fwrite_all by done. rewrite Z.ltb_irrefl.
  eexists. split; [reflexivity|]. unfold fptr at 1. by destruct y.
Qed.



Lemma Records_new_read_ok (P : Platform) (fileobj : PyObject) (mode : string)
    (delimobj : PyObjectPtr) (d : PyArray_Descr) (nrows : Z) :
  first_char mode = "r"%char ->
  file_ok P fileobj mode -> delim_ok delimobj -> 1 <= nrows ->
  exists r, Records_new P fileobj mode delimobj (Some (PyDescr d)) nrows = Ok r.
Proof.
  intros Hmode Hf Hd Hn.
  destruct (Records_new_read_steps P fileobj mode delimobj (Some (PyDescr d))
              nrows Hmode Hf Hd) as [r3 Hsteps].
  rewrite Hsteps. cbn [is_NULL orb].
  replace (nrows =? -9999) with false by (symmetry; apply Z.eqb_neq; lia).
  cbn [ProcessDescr rbind]. unfold ProcessNrows.
  replace (nrows <? 1) with false by (symmetry; apply Z.ltb_ge; lia).
  eauto.
Qed.

Lemma Records_new_write_ok (P : Platform) (f : FILE) (mode : string)
    (delimobj dtype : PyObjectPtr) (nrows : Z) :
  first_char mode <> "r"%char -> delim_ok delimobj ->
  exists r, Records_new P (PyFile f) mode delimobj dtype nrows = Ok r
            /\ fptr r = f.
Proof.
  intros Hmode Hd.
  assert (Hex : exists r, Records_new P (PyFile f) mode delimobj dtype nrows = Ok r).
  { unfold Records_new. cbn [GetFptr rbind].
    destruct Hd as [->|[s ->]]; unfold ProcessDelim; cbn [rbind];
      destruct (decide _); cbn [rbind];
      match goal with |- context [SetFileType ?x] =>
        destruct (SetFileType_keeps x) as (_ & _ & K3 & _); rewrite K3 end;
      cbn [mMode set_mReadAsWhitespace set_mDelim set_mFptrIsLocal set_mFptr
           set_mMode];
      (destruct (decide (first_char mode = "r"%char)); [contradiction|eauto]). }
  destruct Hex as [r Hr]. exists r. split; [exact Hr|].
  destruct (Records_new_file _ _ _ _ _ _ _ Hr) as (Hfile & _).
  destruct (Hfile f eq_refl) as [Hfp _]. unfold fptr. by rewrite Hfp.
Qed.

(** X6.  What is written to a fresh binary file is what is read back: an
    array of [n] records written through a write session and read in full
    through a read session on the resulting bytes, with the same type and row
    count, comes back byte for byte. *)
Theorem binary_round_trip (P : Platform) (mode_w mode_r : string) (out : FILE)
    (d : PyArray_Descr) (n : Z) (data : list ascii) (padnull ignorenull : bool) :
  first_char mode_w <> "r"%char -> first_char mode_r = "r"%char ->
  at_end out = true -> fdata out = [] ->
  0 < descr_elsize d -> 1 <= n < 2 ^ 31 ->
  Z.of_nat (length data) = descr_elsize d * n ->
  exists w w' rd rd',
    Records_new P (PyFile out) mode_w None None (-9999) = Ok w
    /\ Write P (PyArray d n data) padnull ignorenull w = Ok w'
    /\ Records_new P (reopen (fdata (fptr w'))) mode_r None (Some (PyDescr d)) n
       = Ok rd
    /\ Read P None None rd = Ok rd'
    /\ mReturnObject rd' = data.
Proof.
  intros Hmw Hmr He Hempty Hs Hn Hlen.
  destruct (Records_new_write_ok P out mode_w None None (-9999) Hmw)
    as (w & Hw & Hfw); [by left|].
  destruct (Write_binary_ok P (PyFile out) mode_w None (-9999) w d n data
              padnull ignorenull Hmw Hw Hs) as (w' & Hw' & Hfw');
    [lia|exact Hlen|by rewrite Hfw|].
  assert (Hcontent : fdata (fptr w') = data).
  { rewrite Hfw', Hfw. unfold emit. cbn [fdata]. by rewrite Hempty. }
  destruct (Records_new_read_ok P (reopen (fdata (fptr w'))) mode_r None d n Hmr)
    as [rd Hrd]; [left; eexists; reflexivity|by left|lia|].
  assert (Hfr : fptr rd = mkFILE (fdata (fptr w')) 0 true false).
  { destruct (Records_new_file _ _ _ _ _ _ _ Hrd) as (Hfile & _).
    destruct (Hfile _ eq_refl) as [Hf0 _]. unfold fptr at 1. by rewrite Hf0. }
  assert (Hun : unread (fptr rd) = data).
  { rewrite Hfr, Hcontent. unfold unread. cbn [fpos fdata].
    change (Z.to_nat 0) with 0%nat. by rewrite drop_0. }
  destruct (Read_whole_file_ok P (reopen (fdata (fptr w'))) mode_r None None None
              d n rd Hmr Hrd) as (rd' & Hrd' & Hret & _).
  - by rewrite Hfr.
  - exact Hs.
  - lia.
  - reflexivity.
  - reflexivity.
  - by left.
  - rewrite Hun. lia.
  - exists w, w', rd, rd'. repeat split; try assumption.
    rewrite Hret, Hun. apply take_ge. lia.
Qed.

Lemma binary_round_trip_witness :
  exists w w' rd rd',
    Records_new linux_x86_64 (PyFile empty_output) "w" None None (-9999) = Ok w
    /\ Write linux_x86_64 (PyArray abc_descr 2 (chars "abcdef")) false false w = Ok w'
    /\ Records_new linux_x86_64 (reopen (fdata (fptr w'))) "r" None
         (Some (PyDescr abc_descr)) 2 = Ok rd
    /\ Read linux_x86_64 None None rd = Ok rd'
    /\ mReturnObject rd' = chars "abcdef".
Proof.
  apply (binary_round_trip linux_x86_64 "w" "r" empty_output abc_descr 2
           (chars "abcdef") false false).
  - vm_compute. discriminate.
  - reflexivity.
  - reflexivity.
  - reflexivity.
  - reflexivity.
  - lia.
  - reflexivity.
Defined.

(** ** Arguments that [Read] refuses *)

(** X7.  In a session opened for reading, [Read] refuses a row request that
    is no integer, integer list or integer array; a field request that is
    neither a string nor a list; and a non-empty list of fields that holds no
    string.  Each refusal has its own message, and comes before the file is
    touched. *)
Theorem read_argument_errors (P : Platform) (fileobj : PyObject) (mode : string)
    (delimobj : PyObjectPtr) (d : PyArray_Descr) (nrows : Z) (r : Records) :
  first_char mode = "r"%char ->
  Records_new P fileobj mode delimobj (Some (PyDescr d)) nrows = Ok r ->
  (forall o fields,
     o <> Py_None -> PyArray_FromAny_intp o = None ->
     Read P (Some o) fields r
     = Throw "Could not convert rows keyword to an array of type NPY_INTP")
  /\ (forall rows arr f,
        Object2IntpArray rows = Ok arr ->
        f <> Py_None -> PyList_Check f = false -> PyString_Check f = false ->
        Read P rows (Some f) r = Throw "fields keyword must be string or list")
  /\ (forall rows arr items,
        Object2IntpArray rows = Ok arr ->
        items <> [] -> goodones_of items = [] ->
        Read P rows (Some (PyList items)) r
        = Throw "None of the requested fields are in string form").
Proof.
  intros Hmode Hnew.
  pose proof (Records_new_read P _ _ _ _ _ _ Hmode Hnew) as Hopen.
  assert (Hd : mTypeDescr r = Some d)
    by (by destruct Hopen as (_ & _ & _ & _ & _ & _ & _ & ? & _)).
  split; [|split].
  - intros o fields Hnone Hconv. unfold Read, Read_setup.
    destruct Hopen as ([f Hf] & Ha & _). rewrite Hf, Ha. cbn [is_Some_b negb].
    rewrite bool_decide_eq_true_2 by done. cbn [negb].
    unfold ProcessRowsToRead, Object2IntpArray.
    destruct o; try done; by rewrite Hconv.
  - intros rows arr f Harr Hnone Hlist Hstr. unfold Read.
    rewrite (Read_setup_unfold P rows (Some f) arr d nrows r Hopen Harr).
    rewrite (ProcessFieldsToRead_present f d) by (done || by destruct r).
    unfold SubDtype. by rewrite Hlist, Hstr.
  - intros rows arr items Harr Hitems Hgood. unfold Read.
    rewrite (Read_setup_unfold P rows (Some (PyList items)) arr d nrows r Hopen Harr).
    rewrite (ProcessFieldsToRead_present (PyList items) d) by (done || by destruct r).
    unfold SubDtype. cbn [PyList_Check].
    by rewrite ListStringMatch_no_strings.
Qed.

Lemma read_argument_errors_witness :
  Read linux_x86_64 (Some (PyString "0")) None abc_session
  = Throw "Could not convert rows keyword to an array of type NPY_INTP"
  /\ Read linux_x86_64 None (Some (PyInt 1)) abc_session
     = Throw "fields keyword must be string or list"
  /\ Read linux_x86_64 None (Some (PyList [PyInt 1])) abc_session
     = Throw "None of the requested fields are in string form".
Proof.
  destruct (read_argument_errors linux_x86_64 abc_file "r" None abc_descr 3
              abc_session eq_refl abc_session_opened) as (Hrows & Hkind & Hstr).
  split; [|split].
  - apply Hrows; [discriminate|reflexivity].
  - apply (Hkind None None); [reflexivity|discriminate|reflexivity|reflexivity].
  - apply (Hstr None None); [reflexivity|discriminate|reflexivity].
Defined.

(** ** A session read twice *)

Lemma Read_setup_flags (P : Platform) (rows fields : PyObjectPtr) (r r' : Records) :
  Read_setup P rows fields r = Ok r' ->
  (mReadWholeFileBinary r = true -> mReadWholeFileBinary r' = true)
  /\ (mReadWholeRowBinary r = true -> mReadWholeRowBinary r' = true).
Proof.
  unfold Read_setup. intros H.
  destruct (negb (is_Some_b (mFptr r))); [discriminate|].
  destruct (negb (bool_decide (mAction r = READ))); [discriminate|].
  inv_bind_as H r1 Hr1. inv_bind_as H r2 Hr2. inv_bind_as H r3 Hr3.
  inversion H; subst r'; clear H.
  assert (H1 : mReadWholeFileBinary r1 = mReadWholeFileBinary r
               /\ mReadWholeRowBinary r1 = mReadWholeRowBinary r).
  { unfold ProcessRowsToRead in Hr1. inv_bind_as Hr1 arr Harr.
    destruct arr; inversion Hr1; by destruct r. }
  assert (H2 : mReadWholeFileBinary r2 = mReadWholeFileBinary r1
               /\ mReadWholeRowBinary r2 = mReadWholeRowBinary r1).
  { unfold ProcessFieldsToRead in Hr2. inv_bind_as Hr2 x Hx.
    inversion Hr2; subst r2; clear Hr2.
    assert (Hx' : mReadWholeFileBinary x = mReadWholeFileBinary r1
                  /\ mReadWholeRowBinary x = mReadWholeRowBinary r1).
    { destruct fields as [[| | | | | | |]|];
        try (inversion Hx; by destruct r1);
        (destruct (mTypeDescr _) as [td|]; [|discriminate]);
        inv_bind_as Hx res Hres; destruct res as [nd ids];
        inversion Hx; by destruct r1. }
    destruct Hx' as [<- <-]. by destruct x. }
  assert (H3 : mReadWholeFileBinary r3 = mReadWholeFileBinary r2
               /\ mReadWholeRowBinary r3 = mReadWholeRowBinary r2).
  { unfold CreateOutputArray in Hr3. destruct (mKeepTypeDescr r2); [|discriminate].
    inversion Hr3. by destruct r2. }
  destruct H1 as [A1 B1], H2 as [A2 B2], H3 as [A3 B3].
  rewrite <- A1, <- A2, <- A3, <- B1, <- B2, <- B3.
  unfold ReadPrepare, MakeScanFormats.
  split; intros Hflag;
    repeat match goal with |- context [if ?b then _ else _] => destruct b end;
    try reflexivity; try exact Hflag; by destruct r3.
Qed.

(** X8.  The strategy flags are set and never cleared: once a session has
    read the whole file in one block, every later [Read] of that session does
    so too, whatever rows and fields it asks for. *)
Theorem strategy_is_sticky (P : Platform) (rows1 fields1 rows2 fields2 : PyObjectPtr)
    (r r1 r1' r2 : Records) :
  Read_setup P rows1 fields1 r = Ok r1 ->
  strategy r1 = WholeFileBinary ->
  ReadFromFile P r1 = Ok r1' ->
  Read_setup P rows2 fields2 r1' = Ok r2 ->
  strategy r2 = WholeFileBinary
  /\ ReadFromFile P r2 = ReadAllAsBinary r2.
Proof.
  intros H1 Hs Hread H2.
  destruct (strategy_flags r1) as (Hfile & _). apply Hfile in Hs.
  assert (Hkept : mReadWholeFileBinary r1' = true).
  { unfold ReadFromFile in Hread. rewrite Hs in Hread.
    unfold ReadAllAsBinary in Hread. destruct (fread _ _ _) as [[got n] f].
    destruct (_ =? _); [|discriminate]. inversion Hread. by destruct r1. }
  destruct (Read_setup_flags P rows2 fields2 r1' r2 H2) as [Hflag _].
  specialize (Hflag Hkept). unfold strategy, ReadFromFile. by rewrite Hflag.
Qed.

(** After the three rows of [abcdefghi] are read at once, a second read that
    asks for row 0 alone is again a read of the whole file. *)
Lemma strategy_is_sticky_witness :
  strategy abc_second = WholeFileBinary
  /\ every_row_requested 3 (Some [0]) = false.
Proof.
  split; [|reflexivity].
  destruct (strategy_is_sticky linux_x86_64 None None (Some (PyList [PyInt 0])) None
              abc_session (abc_prepared None None) abc_read abc_second)
    as [Hs _].
  - vm_compute. reflexivity.
  - vm_compute. reflexivity.
  - vm_compute. reflexivity.
  - vm_compute. reflexivity.
  - exact Hs.
Defined.
